(** * Petition pipeline: agents, prompt templates and the orchestrator

    A shallow embedding of [utils/agents.py] (classes [PetitionAgent],
    [GeneratorAgent], [ReviewerAgent], [AgentOrchestrator]) together with the
    one query of [utils/db_manager.py] that the orchestrator uses,
    [DatabaseManager.get_agent_model_by_specialty].

    Conventions of the embedding.
    - Python [str] is [string]; a [Dict[str, str]] is a [gmap string string].
    - A dict that is passed between functions is an object of a store
      ([heap]) and is passed as a location, so that writes through an alias
      would be visible to the caller.
    - Code that logs, queries the database or calls the text-generation
      client runs in the monad [M]: it threads the store and an append-only
      trace of events and may raise a Python exception.
    - A prompt template is kept in the parsed form that [str.format] works
      on: literal text alternating with replacement fields.  The templates
      of the repository use named fields ([{name}]) only; the other kinds
      of field, and markup that is not valid, are kept as what they make
      [str.format] do. *)

From Stdlib Require Import QArith.
From stdpp Require Import base numbers option list strings gmap fin_maps.
From stdpp Require Import pretty.

Close Scope Q_scope.

Open Scope string_scope.
Open Scope list_scope.

(** ** Values *)

Abbreviation dict := (gmap string string).

(** [chr(34)], written this way because it cannot stand inside a literal. *)
Definition dquote : string := String (Ascii.ascii_of_nat 34) EmptyString.

(** ** Exceptions *)

(** The three [ValueError]s that [agents.py] raises, told apart by their
    message, and the one that [str.format] raises for a template it cannot
    read. *)
Inductive value_error :=
  | IncompleteContext (missing : string)
      (* f"Contexto incompleto para formatação do prompt: {str(e)}" *)
  | UnsupportedSpecialty (specialty : string)
      (* f"Especialidade não suportada: {specialty}" *)
  | NoGeneratorForType (petition_type : string)
      (* f"Nenhum agente gerador encontrado para o tipo de petição: {petition_type}" *)
  | InvalidFormat.
      (* raised by str.format *)

Inductive exn :=
  | KeyError (key : string)
  | ValueError (v : value_error)
  | IndexError
  | AttributeError
  | TypeError
  | OtherError (class_name : string)
  | ClientError (cause : string).   (* an exception raised inside the client *)

Inductive result (A : Type) :=
  | Ok (a : A)
  | Raise (e : exn).
Arguments Ok {A} a.
Arguments Raise {A} e.

Definition is_ok {A} (r : result A) : bool :=
  match r with Ok _ => true | Raise _ => false end.

(** ** Prompt templates and [str.format] *)

(** What [str.format] raises while it renders, by class.  The last one
    stands for what a format specification can still lead to, such as
    [OverflowError] or [MemoryError] for a width. *)
Inductive format_exception :=
  | FormatKeyError (key : string)
  | FormatValueError
  | FormatIndexError
  | FormatAttributeError
  | FormatTypeError
  | FormatOther (class_name : string).

Definition raised (e : format_exception) : exn :=
  match e with
  | FormatKeyError key => KeyError key
  | FormatValueError => ValueError InvalidFormat
  | FormatIndexError => IndexError
  | FormatAttributeError => AttributeError
  | FormatTypeError => TypeError
  | FormatOther class_name => OtherError class_name
  end.

(** A template is the sequence of pieces that the scanner of [str.format]
    makes of the template string, from left to right:
    - [Text s] is literal text, in which [{{] and [}}] of the string stand
      as one brace;
    - [Field name] is the replacement field [{name}] whose name is a
      keyword ([keyword] below), the only kind in the built-in templates;
    - [Positional] is a replacement field whose name, up to the first [.]
      or [[], is empty or a number, as [{}], [{0}] or [{0.real}]: it asks
      for a positional argument;
    - [Computed name eval] is a replacement field that starts with a
      keyword and goes on with an attribute, an index, a conversion or a
      format specification, as [{name.attr}], [{name[0]}], [{name!r}] or
      [{name:>10}]: [eval] is what Python makes of the value of [name],
      given all the arguments for the fields nested in a specification;
    - [Malformed] is the place where the scanner finds markup that is not
      valid, as a single brace, a field that is not closed or a number with
      too many digits; nothing is read after it.
    A list in which [Field] or [Computed] has a name that is not a keyword
    stands for no template string. *)
Inductive segment :=
  | Text (literal : string)
  | Field (name : string)
  | Positional
  | Computed (name : string) (eval : string → dict → format_exception + string)
  | Malformed.

Abbreviation template := (list segment).

(** The characters that end the name of a replacement field or the first
    part of it, and the braces. *)
Definition special (a : Ascii.ascii) : bool :=
  let n := Ascii.nat_of_ascii a in
  (n =? 46)%nat    (* . *) || (n =? 91)%nat   (* [ *) || (n =? 33)%nat   (* ! *)
  || (n =? 58)%nat (* : *) || (n =? 123)%nat  (* { *) || (n =? 125)%nat. (* } *)

(** A character of ASCII that is not a digit. *)
Definition not_a_digit (a : Ascii.ascii) : bool :=
  let n := Ascii.nat_of_ascii a in
  (n <? 128)%nat && negb ((48 <=? n)%nat && (n <=? 57)%nat).

Fixpoint every_char (p : Ascii.ascii → bool) (s : string) : bool :=
  match s with
  | EmptyString => true
  | String a s' => p a && every_char p s'
  end.

Fixpoint some_char (p : Ascii.ascii → bool) (s : string) : bool :=
  match s with
  | EmptyString => false
  | String a s' => p a || some_char p s'
  end.

(** A field name that [str.format] looks up among the keyword arguments as
    it is written: it has none of the special characters, and a character
    that keeps it from being read as a number.  Python reads the digits of
    every script as numbers, so that character is asked to be one of
    ASCII. *)
Definition keyword (name : string) : bool :=
  every_char (λ a, negb (special a)) name && some_char not_a_digit name.

(** A template with literal text and named fields only. *)
Definition plain (t : template) : bool :=
  forallb (λ piece, match piece with
                    | Text _ => true
                    | Field name => keyword name
                    | _ => false
                    end) t.

(** The keyword arguments that the fields of a template name, in order of
    appearance. *)
Fixpoint fields (t : template) : list string :=
  match t with
  | [] => []
  | Text _ :: t' => fields t'
  | Field k :: t' => k :: fields t'
  | Positional :: t' => fields t'
  | Computed k _ :: t' => k :: fields t'
  | Malformed :: _ => []
  end.

(** [str.format] called with keyword arguments only.  The template is
    consumed from left to right and the first piece that fails ends the
    call, with nothing returned: a named field without a keyword argument
    raises [KeyError]; a positional field raises [IndexError], as there is
    no positional argument; markup that is not valid raises [ValueError].
    The values are strings, so a named field inserts its value as it
    is. *)
Fixpoint format (t : template) (kwargs : dict) : result string :=
  match t with
  | [] => Ok ""
  | Text s :: t' =>
      match format t' kwargs with
      | Ok rest => Ok (s +:+ rest)
      | Raise e => Raise e
      end
  | Field k :: t' =>
      match kwargs !! k with
      | None => Raise (KeyError k)
      | Some v =>
          match format t' kwargs with
          | Ok rest => Ok (v +:+ rest)
          | Raise e => Raise e
          end
      end
  | Positional :: _ => Raise IndexError
  | Computed k eval :: t' =>
      match kwargs !! k with
      | None => Raise (KeyError k)
      | Some v =>
          match eval v kwargs with
          | inl e => Raise (raised e)
          | inr inserted =>
              match format t' kwargs with
              | Ok rest => Ok (inserted +:+ rest)
              | Raise e => Raise e
              end
          end
      end
  | Malformed :: _ => Raise (ValueError InvalidFormat)
  end.


(** ** Store, trace and the monad *)

Abbreviation loc := nat.

(** [self.__class__.__name__] *)
Inductive agent_class := PetitionAgent_cls | GeneratorAgent_cls | ReviewerAgent_cls.

Inductive level := INFO | WARNING | ERROR.

(** The two loggers of [agents.py]: the module logger and the agents' log
    file. *)
Inductive logger_name := logger | agent_logger.

(** One constructor per message that [agents.py] writes; the arguments are
    the values interpolated into the message.  The messages that open,
    close or skip a stage differ by stage in their fixed text; here they
    carry the stage number. *)
Inductive message :=
  | MsgGenerating (agent_type : agent_class) (specialty : string)
  | MsgModel (model_id : string)
  | MsgContext (context : dict)
  | MsgPrompt (prompt : string)
  | MsgElapsed
  | MsgGenerated (generated_text : string)
  | MsgGenerationError (e : exn)
  | MsgMissingKey (key : string)
  | MsgPetitionType (petition_type : string)
  | MsgFullContext (context : dict)
  | MsgStage (n : nat)
  | MsgNoGenerator (petition_type : string)
  | MsgStageDone (n : nat)
  | MsgStageSkipped (n : nat)
  | MsgFinished
  | MsgResultKeys (keys : gset string).

(** The arguments of one [ai_client.generate_text] call. *)
Record call := Call {
  call_model : string;
  call_prompt : string;
  call_max_tokens : Z;
  call_temperature : Q
}.

Inductive event :=
  | Log (to : logger_name) (lvl : level) (m : message)
  | Query (agent_type specialty : string)
  | Request (c : call).

Record world := World {
  heap : list dict;
  trace : list event
}.

Definition M (A : Type) : Type := world → result A * world.

Definition ret {A} (a : A) : M A := λ w, (Ok a, w).

Definition raise {A} (e : exn) : M A := λ w, (Raise e, w).

Definition bind {A B} (m : M A) (k : A → M B) : M B :=
  λ w, match m w with
       | (Ok a, w') => k a w'
       | (Raise e, w') => (Raise e, w')
       end.

Declare Scope py_scope.
Delimit Scope py_scope with py.
Notation "x <- m ;; k" := (bind m (λ x, k))
  (at level 100, m at next level, right associativity) : py_scope.
Notation "m ;; k" := (bind m (λ _, k))
  (at level 100, right associativity) : py_scope.
Open Scope py_scope.

(** [try: body except Exception as e: handler(e)] *)
Definition try_except {A} (body : M A) (handler : exn → M A) : M A :=
  λ w, match body w with
       | (Ok a, w') => (Ok a, w')
       | (Raise e, w') => handler e w'
       end.

Definition lift {A} (r : result A) : M A := λ w, (r, w).

Definition log (to : logger_name) (lvl : level) (m : message) : M unit :=
  λ w, (Ok tt, World (heap w) (trace w ++ [Log to lvl m])).

(** A dict display [{...}] creates a new object. *)
Definition alloc (d : dict) : M loc :=
  λ w, (Ok (length (heap w)), World (heap w ++ [d]) (trace w)).

(** Reading the dict behind a reference. *)
Definition load (l : loc) : M dict :=
  λ w, (Ok (heap w !!! l), w).

(** [l[k] = v] *)
Definition store (l : loc) (k v : string) : M unit :=
  λ w, (Ok tt, World (<[l := <[k := v]> (heap w !!! l)]> (heap w)) (trace w)).

(** ** The text-generation client, as the agents use it *)

(** What [generate_text] returns: a mapping whose key [choices], when
    present, holds a list of mappings. *)
Abbreviation response := (gmap string (list dict)).

Definition requests (tr : list event) : list call :=
  omap (λ e, match e with Request c => Some c | _ => None end) tr.

Module AITogetherClient.

(** What the service behind the client does with a call: it answers with a
    response, or the call fails and the client raises. *)
Inductive reply :=
  | Answer (r : response)
  | Failure (cause : string).

(** The reply may depend on the calls made before. *)
Record t := { respond : list call → call → reply }.

Definition generate_text (self : t) (model prompt : string)
    (max_tokens : Z) (temperature : Q) : M response :=
  λ w, let c := Call model prompt max_tokens temperature in
       (match respond self (requests (trace w)) c with
        | Answer r => Ok r
        | Failure cause => Raise (ClientError cause)
        end,
        World (heap w) (trace w ++ [Request c])).

End AITogetherClient.

(** ** The table [agent_models] *)

Record AgentModel := {
  am_id : Z;
  am_name : string;
  am_description : option string;   (* the column may be NULL *)
  am_model_id : string;
  am_type : string;
  am_specialty : string;
  am_prompt_template : template;
  am_created_at : string
}.

Module DatabaseManager.

(** The rows of [agent_models], in storage order. *)
Record t := { agent_models : list AgentModel }.

(** [SELECT * FROM agent_models WHERE type = ? AND specialty = ?] *)
Definition select (self : t) (agent_type specialty : string) : list AgentModel :=
  filter (λ row, am_type row = agent_type ∧ am_specialty row = specialty)
         (agent_models self).

(** [fetchone()] on that selection: the first row, or [None]. *)
Definition get_agent_model_by_specialty (self : t) (agent_type specialty : string)
    : M (option AgentModel) :=
  λ w, (Ok (head (select self agent_type specialty)),
        World (heap w) (trace w ++ [Query agent_type specialty])).

End DatabaseManager.

(** ** Agents *)

Module PetitionAgent.

Record t := {
  class_name : agent_class;
  ai_client : AITogetherClient.t;
  model_id : string;
  prompt_template : template;
  specialty : option string   (* [None]: the attribute is not set *)
}.

Definition __init__ (ai_client : AITogetherClient.t) (model_id : string)
    (prompt_template : template) : t :=
  {| class_name := PetitionAgent_cls; ai_client := ai_client;
     model_id := model_id; prompt_template := prompt_template;
     specialty := None |}.

Definition _format_prompt (self : t) (context : loc) : M string :=
  kwargs <- load context ;;
  match format (prompt_template self) kwargs with
  | Ok prompt => ret prompt
  | Raise (KeyError key) =>
      log logger ERROR (MsgMissingKey key) ;;
      raise (ValueError (IncompleteContext key))
  | Raise e => raise e
  end.

(** [response.get("choices", [{}])[0].get("text", "")] *)
Definition first_choice_text (response : response) : result string :=
  match default [∅] (response !! "choices") with
  | [] => Raise IndexError
  | first :: _ => Ok (default "" (first !! "text"))
  end.

Definition generate (self : t) (context : loc) : M string :=
  let agent_type := class_name self in
  let specialty := default "desconhecida" (specialty self) in
  log agent_logger INFO (MsgGenerating agent_type specialty) ;;
  log agent_logger INFO (MsgModel (model_id self)) ;;
  dumped <- load context ;;
  log agent_logger INFO (MsgContext dumped) ;;
  prompt <- _format_prompt self context ;;
  log agent_logger INFO (MsgPrompt prompt) ;;
  try_except
    (response <- AITogetherClient.generate_text (ai_client self)
                   (model_id self) prompt 2000 (7 # 10) ;;
     generated_text <- lift (first_choice_text response) ;;
     log agent_logger INFO MsgElapsed ;;
     log agent_logger INFO (MsgGenerated generated_text) ;;
     ret generated_text)
    (λ e,
     log agent_logger ERROR (MsgGenerationError e) ;;
     raise e).

End PetitionAgent.

Module GeneratorAgent.

Definition generator_template_recurso_administrativo : template :=
  [ Text "
            Você é um advogado especialista em direito administrativo, com vasta experiência em recursos administrativos, especialmente em processos licitatórios.
            
            TIPO DE PETIÇÃO: Recurso Administrativo
            
            FATOS APRESENTADOS PELO CLIENTE:
            ";
    Field "fatos";
    Text "
            
            CLIENTE:
            Nome: ";
    Field "cliente_nome";
    Text "
            CNPJ/CPF: ";
    Field "cliente_cnpj";
    Text "
            
            REFERÊNCIA DO PROCESSO (se fornecida):
            ";
    Field "referencia_processo";
    Text "
            
            AUTORIDADE (se fornecida):
            ";
    Field "autoridade";
    Text "
            
            CIDADE:
            ";
    Field "cidade";
    Text "
            
            INSTRUÇÕES:
            
            1. Analise cuidadosamente os fatos apresentados pelo cliente.
            2. Identifique o tipo específico de recurso administrativo necessário (contra inabilitação, desclassificação, etc.).
            3. Desenvolva uma estratégia jurídica sólida, identificando os melhores argumentos legais e jurisprudenciais.
            4. Formule pedidos adequados e pertinentes ao caso.
            5. Gere um recurso administrativo completo e persuasivo.
            6. IMPORTANTE: NÃO utilize a Lei 8.666/93, pois foi revogada pela Lei 14.133/2021 (Nova Lei de Licitações).
            
            A petição deve ser estruturada com:
            1. Cabeçalho com dados do processo e autoridade
            2. Qualificação do recorrente
            3. Dos fatos (reescritos de forma jurídica e estratégica)
            4. Do direito (fundamentos jurídicos detalhados, incluindo legislação e jurisprudência relevantes)
            5. Dos pedidos (elaborados de acordo com a estratégia jurídica)
            6. Fechamento com local, data e espaço para assinatura
            
            Use linguagem formal e técnica jurídica apropriada. Seja persuasivo e estratégico na argumentação.
            
            BASE DE CONHECIMENTO JURÍDICO:
            - Lei 14.133/2021 (Nova Lei de Licitações e Contratos Administrativos)
            - Lei 9.784/99 (Processo Administrativo Federal)
            - Lei 10.520/2002 (Pregão)
            - Decreto 10.024/2019 (Pregão Eletrônico)
            - Jurisprudência do TCU sobre licitações
            - Princípios do Direito Administrativo (legalidade, impessoalidade, moralidade, publicidade, eficiência, etc.)
            - Princípios específicos de licitações (competitividade, julgamento objetivo, vinculação ao instrumento convocatório, etc.)
            " ].

Definition generator_template_impugnacao_edital : template :=
  [ Text "
            Você é um advogado especialista em direito administrativo, com vasta experiência em licitações e contratos administrativos.
            
            TIPO DE PETIÇÃO: Impugnação ao Edital
            
            FATOS APRESENTADOS PELO CLIENTE:
            ";
    Field "fatos";
    Text "
            
            CLIENTE:
            Nome: ";
    Field "cliente_nome";
    Text "
            CNPJ/CPF: ";
    Field "cliente_cnpj";
    Text "
            
            REFERÊNCIA DO PROCESSO (se fornecida):
            ";
    Field "referencia_processo";
    Text "
            
            AUTORIDADE (se fornecida):
            ";
    Field "autoridade";
    Text "
            
            CIDADE:
            ";
    Field "cidade";
    Text "
            
            INSTRUÇÕES:
            
            1. Analise cuidadosamente os fatos apresentados pelo cliente.
            2. Identifique as possíveis ilegalidades ou irregularidades no edital.
            3. Desenvolva uma estratégia jurídica sólida, identificando os melhores argumentos legais e jurisprudenciais.
            4. Formule pedidos adequados e pertinentes ao caso.
            5. Gere uma impugnação ao edital completa e persuasiva.
            6. IMPORTANTE: NÃO utilize a Lei 8.666/93, pois foi revogada pela Lei 14.133/2021 (Nova Lei de Licitações).
            
            A petição deve ser estruturada com:
            1. Cabeçalho com dados do edital e autoridade
            2. Qualificação do impugnante
            3. Dos fatos (reescritos de forma jurídica e estratégica)
            4. Das ilegalidades do edital (identificadas a partir dos fatos)
            5. Do direito (fundamentos jurídicos detalhados, incluindo legislação e jurisprudência relevantes)
            6. Dos pedidos (elaborados de acordo com a estratégia jurídica)
            7. Fechamento com local, data e espaço para assinatura
            
            Use linguagem formal e técnica jurídica apropriada. Seja persuasivo e estratégico na argumentação.
            
            BASE DE CONHECIMENTO JURÍDICO:
            - Lei 14.133/2021 (Nova Lei de Licitações e Contratos Administrativos)
            - Lei 10.520/2002 (Pregão)
            - Decreto 10.024/2019 (Pregão Eletrônico)
            - Jurisprudência do TCU sobre licitações
            - Súmulas do TCU relacionadas a licitações
            - Princípios do Direito Administrativo (legalidade, impessoalidade, moralidade, publicidade, eficiência, etc.)
            - Princípios específicos de licitações (competitividade, julgamento objetivo, vinculação ao instrumento convocatório, etc.)
            " ].

Definition generator_template_mandado_seguranca : template :=
  [ Text "
            Você é um advogado especialista em direito constitucional e administrativo, com vasta experiência em mandados de segurança.
            
            TIPO DE PETIÇÃO: Mandado de Segurança
            
            FATOS APRESENTADOS PELO CLIENTE:
            ";
    Field "fatos";
    Text "
            
            CLIENTE:
            Nome: ";
    Field "cliente_nome";
    Text "
            CNPJ/CPF: ";
    Field "cliente_cnpj";
    Text "
            
            REFERÊNCIA DO PROCESSO (se fornecida):
            ";
    Field "referencia_processo";
    Text "
            
            AUTORIDADE (se fornecida):
            ";
    Field "autoridade";
    Text "
            
            CIDADE:
            ";
    Field "cidade";
    Text "
            
            INSTRUÇÕES:
            
            1. Analise cuidadosamente os fatos apresentados pelo cliente.
            2. Identifique o direito líquido e certo violado ou ameaçado.
            3. Identifique a autoridade coatora responsável pelo ato ilegal ou abusivo.
            4. Desenvolva uma estratégia jurídica sólida, identificando os melhores argumentos legais e jurisprudenciais.
            5. Avalie a necessidade de pedido liminar e formule-o adequadamente.
            6. Formule pedidos principais adequados e pertinentes ao caso.
            7. Gere um mandado de segurança completo e persuasivo.
            8. IMPORTANTE: Se o caso envolver licitações, NÃO utilize a Lei 8.666/93, pois foi revogada pela Lei 14.133/2021 (Nova Lei de Licitações).
            
            A petição deve ser estruturada com:
            1. Endereçamento ao juízo competente
            2. Qualificação do impetrante
            3. Qualificação da autoridade coatora
            4. Dos fatos (reescritos de forma jurídica e estratégica)
            5. Do direito líquido e certo (fundamentos jurídicos detalhados, incluindo legislação e jurisprudência relevantes)
            6. Da liminar (demonstrando o fumus boni iuris e o periculum in mora)
            7. Dos pedidos (liminar e principal)
            8. Fechamento com local, data e espaço para assinatura
            
            Use linguagem formal e técnica jurídica apropriada. Seja persuasivo e estratégico na argumentação.
            
            BASE DE CONHECIMENTO JURÍDICO:
            - Constituição Federal (art. 5º, LXIX e LXX)
            - Lei 12.016/2009 (Lei do Mandado de Segurança)
            - Lei 14.133/2021 (Nova Lei de Licitações e Contratos Administrativos) - para casos envolvendo licitações
            - Jurisprudência do STF e STJ sobre mandado de segurança
            - Súmulas relacionadas ao mandado de segurança
            - Princípios do Direito Administrativo (legalidade, impessoalidade, moralidade, publicidade, eficiência, etc.)
            - Princípios do Direito Constitucional
            - Legislação específica relacionada ao caso concreto
            " ].

Definition generator_template_contrarrazoes_recurso : template :=
  [ Text "
            Você é um advogado especialista em direito administrativo, com vasta experiência em contrarrazões de recurso, especialmente em processos licitatórios.
            
            TIPO DE PETIÇÃO: Contrarrazões de Recurso
            
            FATOS APRESENTADOS PELO CLIENTE:
            ";
    Field "fatos";
    Text "
            
            CLIENTE:
            Nome: ";
    Field "cliente_nome";
    Text "
            CNPJ/CPF: ";
    Field "cliente_cnpj";
    Text "
            
            REFERÊNCIA DO PROCESSO (se fornecida):
            ";
    Field "referencia_processo";
    Text "
            
            AUTORIDADE (se fornecida):
            ";
    Field "autoridade";
    Text "
            
            CIDADE:
            ";
    Field "cidade";
    Text "
            
            INSTRUÇÕES:
            
            1. Analise cuidadosamente os fatos apresentados pelo cliente.
            2. Identifique o tipo específico de recurso ao qual se está respondendo.
            3. Desenvolva uma estratégia jurídica sólida para contrapor os argumentos do recorrente.
            4. Avalie a necessidade de arguir preliminares (intempestividade, ilegitimidade, etc.).
            5. Formule pedidos adequados e pertinentes ao caso.
            6. Gere contrarrazões de recurso completas e persuasivas.
            7. IMPORTANTE: Se o caso envolver licitações, NÃO utilize a Lei 8.666/93, pois foi revogada pela Lei 14.133/2021 (Nova Lei de Licitações).
            
            A petição deve ser estruturada com:
            1. Cabeçalho com dados do processo e autoridade
            2. Qualificação do recorrido
            3. Dos fatos (reescritos de forma jurídica e estratégica)
            4. Das preliminares (se aplicável)
            5. Do mérito (refutando os argumentos do recurso)
            6. Dos pedidos (elaborados de acordo com a estratégia jurídica)
            7. Fechamento com local, data e espaço para assinatura
            
            Use linguagem formal e técnica jurídica apropriada. Seja persuasivo e estratégico na argumentação.
            
            BASE DE CONHECIMENTO JURÍDICO:
            - Lei 14.133/2021 (Nova Lei de Licitações e Contratos Administrativos)
            - Lei 9.784/99 (Processo Administrativo Federal)
            - Lei 10.520/2002 (Pregão)
            - Decreto 10.024/2019 (Pregão Eletrônico)
            - Jurisprudência do TCU sobre licitações
            - Princípios do Direito Administrativo (legalidade, impessoalidade, moralidade, publicidade, eficiência, etc.)
            - Princípios específicos de licitações (competitividade, julgamento objetivo, vinculação ao instrumento convocatório, etc.)
            " ].

Definition generator_template_gramatica : template :=
  [ Text "
            Você é um especialista em revisão gramatical e ortográfica de documentos jurídicos.
            
            TIPO DE PETIÇÃO: ";
    Field "tipo";
    Text "
            
            TEXTO DA PETIÇÃO:
            ";
    Field "texto";
    Text ("
            
            Revise o texto acima considerando os seguintes aspectos:
            1. Correção ortográfica (erros de digitação, palavras incorretas)
            2. Concordância verbal e nominal
            3. Regência verbal e nominal
            4. Uso correto de pronomes e conectivos
            5. Pontuação e acentuação
            6. Identificação e correção de palavras incorretas (como " +:+ dquote +:+ "Concórdia" +:+ dquote +:+ " quando deveria ser " +:+ dquote +:+ "Concorrência" +:+ dquote +:+ ")
            
            Retorne o texto revisado, corrigindo todos os erros gramaticais e ortográficos, mas mantendo o conteúdo jurídico original.
            ") ].

Definition templates : gmap string template :=
  {[ "recurso_administrativo" := generator_template_recurso_administrativo;
     "impugnacao_edital" := generator_template_impugnacao_edital;
     "mandado_seguranca" := generator_template_mandado_seguranca;
     "contrarrazoes_recurso" := generator_template_contrarrazoes_recurso;
     "gramatica" := generator_template_gramatica ]}.

Definition _load_specialty_template (specialty : string) : result template :=
  match templates !! specialty with
  | None => Raise (ValueError (UnsupportedSpecialty specialty))
  | Some prompt_template => Ok prompt_template
  end.

Definition __init__ (ai_client : AITogetherClient.t) (model_id specialty : string)
    (prompt_template : option template) : M PetitionAgent.t :=
  prompt_template <-
    match prompt_template with
    | None => lift (_load_specialty_template specialty)
    | Some prompt_template => ret prompt_template
    end ;;
  ret {| PetitionAgent.class_name := GeneratorAgent_cls;
         PetitionAgent.ai_client := ai_client;
         PetitionAgent.model_id := model_id;
         PetitionAgent.prompt_template := prompt_template;
         PetitionAgent.specialty := Some specialty |}.

End GeneratorAgent.

Module ReviewerAgent.

Definition reviewer_template_juridico : template :=
  [ Text "
            Você é um advogado especializado em revisão jurídica de petições.
            
            TIPO DE PETIÇÃO: ";
    Field "tipo";
    Text "
            
            TEXTO DA PETIÇÃO:
            ";
    Field "texto";
    Text "
            
            Revise o texto acima considerando os seguintes aspectos:
            1. Adequação dos fundamentos jurídicos
            2. Coerência dos argumentos
            3. Pertinência dos pedidos
            4. Conformidade com a legislação e jurisprudência
            5. Correção de eventuais erros jurídicos
            
            Retorne o texto revisado, mantendo a formatação original.
            " ].

Definition reviewer_template_formatacao : template :=
  [ Text "
            Você é um especialista em formatação de documentos jurídicos.
            
            TIPO DE PETIÇÃO: ";
    Field "tipo";
    Text "
            
            TEXTO DA PETIÇÃO:
            ";
    Field "texto";
    Text "
            
            Revise o texto acima considerando os seguintes aspectos:
            1. Estrutura e organização do documento
            2. Formatação dos parágrafos e seções
            3. Numeração de páginas e itens
            4. Alinhamento e espaçamento
            5. Destaques e citações
            
            Retorne o texto revisado, aplicando a formatação adequada.
            " ].

Definition reviewer_template_linguagem : template :=
  [ Text "
            Você é um especialista em revisão linguística de documentos jurídicos.
            
            TIPO DE PETIÇÃO: ";
    Field "tipo";
    Text "
            
            TEXTO DA PETIÇÃO:
            ";
    Field "texto";
    Text "
            
            Revise o texto acima considerando os seguintes aspectos:
            1. Correção gramatical e ortográfica
            2. Clareza e objetividade
            3. Adequação do vocabulário jurídico
            4. Coesão e coerência textual
            5. Pontuação e acentuação
            
            Retorne o texto revisado, mantendo o conteúdo jurídico original.
            " ].

Definition reviewer_template_gramatica : template :=
  [ Text "
            Você é um especialista em revisão gramatical e ortográfica de documentos jurídicos.
            
            TIPO DE PETIÇÃO: ";
    Field "tipo";
    Text "
            
            TEXTO DA PETIÇÃO:
            ";
    Field "texto";
    Text ("
            
            Revise o texto acima considerando os seguintes aspectos:
            1. Correção ortográfica (erros de digitação, palavras incorretas)
            2. Concordância verbal e nominal
            3. Regência verbal e nominal
            4. Uso correto de pronomes e conectivos
            5. Pontuação e acentuação
            6. Identificação e correção de palavras incorretas (como " +:+ dquote +:+ "Concórdia" +:+ dquote +:+ " quando deveria ser " +:+ dquote +:+ "Concorrência" +:+ dquote +:+ ")
            
            Retorne o texto revisado, corrigindo todos os erros gramaticais e ortográficos, mas mantendo o conteúdo jurídico original.
            ") ].

Definition templates : gmap string template :=
  {[ "juridico" := reviewer_template_juridico;
     "formatacao" := reviewer_template_formatacao;
     "linguagem" := reviewer_template_linguagem;
     "gramatica" := reviewer_template_gramatica ]}.

Definition _load_specialty_template (specialty : string) : result template :=
  match templates !! specialty with
  | None => Raise (ValueError (UnsupportedSpecialty specialty))
  | Some prompt_template => Ok prompt_template
  end.

Definition __init__ (ai_client : AITogetherClient.t) (model_id specialty : string)
    (prompt_template : option template) : M PetitionAgent.t :=
  prompt_template <-
    match prompt_template with
    | None => lift (_load_specialty_template specialty)
    | Some prompt_template => ret prompt_template
    end ;;
  ret {| PetitionAgent.class_name := ReviewerAgent_cls;
         PetitionAgent.ai_client := ai_client;
         PetitionAgent.model_id := model_id;
         PetitionAgent.prompt_template := prompt_template;
         PetitionAgent.specialty := Some specialty |}.

End ReviewerAgent.

(** ** The orchestrator *)

Module AgentOrchestrator.

Record t := {
  db_manager : DatabaseManager.t;
  ai_client : AITogetherClient.t
}.

Definition _get_generator_model (self : t) (petition_type : string)
    : M (option AgentModel) :=
  DatabaseManager.get_agent_model_by_specialty (db_manager self) "generator" petition_type.

Definition _get_reviewer_model (self : t) (review_type : string)
    : M (option AgentModel) :=
  DatabaseManager.get_agent_model_by_specialty (db_manager self) "reviewer" review_type.

Definition _create_generator_agent (self : t) (model : AgentModel) : M PetitionAgent.t :=
  GeneratorAgent.__init__ (ai_client self) (am_model_id model) (am_specialty model)
    (Some (am_prompt_template model)).

Definition _create_reviewer_agent (self : t) (model : AgentModel) : M PetitionAgent.t :=
  ReviewerAgent.__init__ (ai_client self) (am_model_id model) (am_specialty model)
    (Some (am_prompt_template model)).

(** The function returns the reference to [results]; the caller reads the
    stage texts from the store. *)
Definition generate_petition (self : t) (context : loc) : M loc :=
  got <- load context ;;
  let petition_type := default "" (got !! "tipo") in
  log agent_logger INFO (MsgPetitionType petition_type) ;;
  dumped <- load context ;;
  log agent_logger INFO (MsgFullContext dumped) ;;
  results <- alloc ∅ ;;
  (* Etapa 1 *)
  log agent_logger INFO (MsgStage 1) ;;
  generator_model <- _get_generator_model self petition_type ;;
  match generator_model with
  | None =>
      log agent_logger ERROR (MsgNoGenerator petition_type) ;;
      raise (ValueError (NoGeneratorForType petition_type))
  | Some generator_model =>
      generator_agent <- _create_generator_agent self generator_model ;;
      original_text <- PetitionAgent.generate generator_agent context ;;
      store results "original" original_text ;;
      log agent_logger INFO (MsgStageDone 1) ;;
      (* Etapa 2 *)
      log agent_logger INFO (MsgStage 2) ;;
      grammar_model <- _get_reviewer_model self "gramatica" ;;
      current_text <-
        match grammar_model with
        | Some grammar_model =>
            grammar_agent <- _create_reviewer_agent self grammar_model ;;
            grammar_context <-
              alloc {[ "tipo" := petition_type; "texto" := original_text ]} ;;
            grammar_text <- PetitionAgent.generate grammar_agent grammar_context ;;
            store results "gramatica" grammar_text ;;
            log agent_logger INFO (MsgStageDone 2) ;;
            ret grammar_text
        | None =>
            log agent_logger WARNING (MsgStageSkipped 2) ;;
            ret original_text
        end ;;
      (* Etapa 3 *)
      log agent_logger INFO (MsgStage 3) ;;
      legal_model <- _get_reviewer_model self "juridico" ;;
      current_text <-
        match legal_model with
        | Some legal_model =>
            legal_agent <- _create_reviewer_agent self legal_model ;;
            legal_context <-
              alloc {[ "tipo" := petition_type; "texto" := current_text ]} ;;
            legal_text <- PetitionAgent.generate legal_agent legal_context ;;
            store results "juridico" legal_text ;;
            log agent_logger INFO (MsgStageDone 3) ;;
            ret legal_text
        | None =>
            log agent_logger WARNING (MsgStageSkipped 3) ;;
            ret current_text
        end ;;
      (* Etapa 4 *)
      log agent_logger INFO (MsgStage 4) ;;
      language_model <- _get_reviewer_model self "linguagem" ;;
      current_text <-
        match language_model with
        | Some language_model =>
            language_agent <- _create_reviewer_agent self language_model ;;
            language_context <-
              alloc {[ "tipo" := petition_type; "texto" := current_text ]} ;;
            language_text <- PetitionAgent.generate language_agent language_context ;;
            store results "linguagem" language_text ;;
            log agent_logger INFO (MsgStageDone 4) ;;
            ret language_text
        | None =>
            log agent_logger WARNING (MsgStageSkipped 4) ;;
            ret current_text
        end ;;
      (* Etapa 5 *)
      log agent_logger INFO (MsgStage 5) ;;
      format_model <- _get_reviewer_model self "formatacao" ;;
      current_text <-
        match format_model with
        | Some format_model =>
            format_agent <- _create_reviewer_agent self format_model ;;
            format_context <-
              alloc {[ "tipo" := petition_type; "texto" := current_text ]} ;;
            format_text <- PetitionAgent.generate format_agent format_context ;;
            store results "formatacao" format_text ;;
            log agent_logger INFO (MsgStageDone 5) ;;
            ret format_text
        | None =>
            log agent_logger WARNING (MsgStageSkipped 5) ;;
            ret current_text
        end ;;
      (* Texto final *)
      store results "final" current_text ;;
      log agent_logger INFO MsgFinished ;;
      keys <- load results ;;
      log agent_logger INFO (MsgResultKeys (dom keys)) ;;
      ret results
  end.

End AgentOrchestrator.

(** ** What a trace shows *)

(** The database queries, in the order they were made. *)
Definition queries (tr : list event) : list (string * string) :=
  omap (λ e, match e with Query a s => Some (a, s) | _ => None end) tr.

(** The agents that were started, by class and specialty. *)
Definition agents (tr : list event) : list (agent_class * string) :=
  omap (λ e, match e with
             | Log agent_logger INFO (MsgGenerating a s) => Some (a, s)
             | _ => None
             end) tr.

(** The context each started agent was given. *)
Definition contexts (tr : list event) : list dict :=
  omap (λ e, match e with
             | Log agent_logger INFO (MsgContext c) => Some c
             | _ => None
             end) tr.

(** The text each finished agent returned. *)
Definition outputs (tr : list event) : list string :=
  omap (λ e, match e with
             | Log agent_logger INFO (MsgGenerated s) => Some s
             | _ => None
             end) tr.

(** The pipeline stages entered, by number. *)
Definition stages (tr : list event) : list nat :=
  omap (λ e, match e with
             | Log agent_logger INFO (MsgStage n) => Some n
             | _ => None
             end) tr.

(** The module logger's reports of a placeholder without a value. *)
Definition missing_keys (tr : list event) : list string :=
  omap (λ e, match e with
             | Log logger ERROR (MsgMissingKey k) => Some k
             | _ => None
             end) tr.

(** ** The pipeline, stage by stage *)

(** The four reviewer blocks of [generate_petition] are one block repeated
    with another stage number and specialty.  [review_stage] is that block;
    [generate_petition_staged] is [generate_petition] written with it, and
    [generate_petition_staged_eq] below shows the two run alike. *)
Definition review_stage (self : AgentOrchestrator.t) (n : nat) (review_type : string)
    (petition_type : string) (results : loc) (current_text : string) : M string :=
  log agent_logger INFO (MsgStage n) ;;
  model <- AgentOrchestrator._get_reviewer_model self review_type ;;
  match model with
  | Some model =>
      agent <- AgentOrchestrator._create_reviewer_agent self model ;;
      review_context <-
        alloc {[ "tipo" := petition_type; "texto" := current_text ]} ;;
      text <- PetitionAgent.generate agent review_context ;;
      store results review_type text ;;
      log agent_logger INFO (MsgStageDone n) ;;
      ret text
  | None =>
      log agent_logger WARNING (MsgStageSkipped n) ;;
      ret current_text
  end.

Definition generate_stage (self : AgentOrchestrator.t) (context : loc)
    (petition_type : string) (results : loc) : M string :=
  log agent_logger INFO (MsgStage 1) ;;
  generator_model <- AgentOrchestrator._get_generator_model self petition_type ;;
  match generator_model with
  | None =>
      log agent_logger ERROR (MsgNoGenerator petition_type) ;;
      raise (ValueError (NoGeneratorForType petition_type))
  | Some generator_model =>
      generator_agent <- AgentOrchestrator._create_generator_agent self generator_model ;;
      original_text <- PetitionAgent.generate generator_agent context ;;
      store results "original" original_text ;;
      log agent_logger INFO (MsgStageDone 1) ;;
      ret original_text
  end.

Definition finish (results : loc) (current_text : string) : M loc :=
  store results "final" current_text ;;
  log agent_logger INFO MsgFinished ;;
  keys <- load results ;;
  log agent_logger INFO (MsgResultKeys (dom keys)) ;;
  ret results.

Definition generate_petition_staged (self : AgentOrchestrator.t) (context : loc) : M loc :=
  got <- load context ;;
  let petition_type := default "" (got !! "tipo") in
  log agent_logger INFO (MsgPetitionType petition_type) ;;
  dumped <- load context ;;
  log agent_logger INFO (MsgFullContext dumped) ;;
  results <- alloc ∅ ;;
  current_text <- generate_stage self context petition_type results ;;
  current_text <- review_stage self 2 "gramatica" petition_type results current_text ;;
  current_text <- review_stage self 3 "juridico" petition_type results current_text ;;
  current_text <- review_stage self 4 "linguagem" petition_type results current_text ;;
  current_text <- review_stage self 5 "formatacao" petition_type results current_text ;;
  finish results current_text.

(** The context a reviewer stage builds. *)
Definition review_context (petition_type text : string) : dict :=
  {[ "tipo" := petition_type; "texto" := text ]}.

(** The binding the catalog holds for a role and specialty, if any. *)
Definition binding (self : AgentOrchestrator.t) (agent_type specialty : string)
    : option AgentModel :=
  head (DatabaseManager.select (AgentOrchestrator.db_manager self) agent_type specialty).

Definition has_reviewer (self : AgentOrchestrator.t) (review_type : string) : bool :=
  bool_decide (is_Some (binding self "reviewer" review_type)).

(** The reviewer specialties, in pipeline order. *)
Definition reviewer_order : list string :=
  ["gramatica"; "juridico"; "linguagem"; "formatacao"].

(** A dict filled by assignments [d[k] = v], made in list order. *)
Definition assigned (kvs : list (string * string)) : dict :=
  foldl (λ d kv, <[kv.1 := kv.2]> d) ∅ kvs.

(** ** What holds during a run *)

(** What [generate] raises: what the rendering raised, before any request,
    with [KeyError] turned into the incomplete-context error, or a failure
    of the request or of the extraction. *)
Definition generate_failure (self : PetitionAgent.t) (given : dict) (e : exn)
    (evs : list event) : Prop :=
  (∃ k, e = ValueError (IncompleteContext k) ∧ missing_keys evs = [k] ∧
        requests evs = [] ∧
        format (PetitionAgent.prompt_template self) given = Raise (KeyError k))
  ∨ (missing_keys evs = [] ∧ requests evs = [] ∧
     (∃ raising, e = raised raising ∧ ∀ k, raising ≠ FormatKeyError k) ∧
     format (PetitionAgent.prompt_template self) given = Raise e)
  ∨ (missing_keys evs = [] ∧ length (requests evs) = 1 ∧
     (e = IndexError ∨ ∃ cause, e = ClientError cause)).

(** The reviewer specialties among [passed] that have a binding. *)
Definition reviewed (self : AgentOrchestrator.t) (passed : list string) : list string :=
  filter (λ ty, has_reviewer self ty) passed.

(** What the trace of a run shows once the generator stage and the reviewer
    stages [passed] are over and [current_text] is the latest text. *)
Record progress (self : AgentOrchestrator.t) (given : dict) (petition_type : string)
    (passed : list string) (current_text : string) (evs : list event) : Prop := {
  progress_queries :
    queries evs = ("generator", petition_type) :: (pair "reviewer" <$> passed);
  progress_stages : stages evs = seq 1 (S (length passed));
  progress_agents :
    agents evs = (GeneratorAgent_cls, petition_type)
                 :: (pair ReviewerAgent_cls <$> reviewed self passed);
  progress_contexts :
    contexts evs ++ [review_context petition_type current_text]
    = given :: (review_context petition_type <$> outputs evs);
  progress_latest : last (outputs evs) = Some current_text;
  progress_count : length (outputs evs) = S (length (reviewed self passed));
  progress_missing : missing_keys evs = [];
  progress_requests : length (requests evs) = length (outputs evs)
}.

(** The same run seen from the store: the objects that existed before are
    untouched, and [results] holds one text per stage that ran. *)
Definition running (self : AgentOrchestrator.t) (given : dict) (petition_type : string)
    (w0 : world) (passed : list string) (current_text : string) (w : world) : Prop :=
  ∃ evs,
    trace w = trace w0 ++ evs ∧
    take (length (heap w0)) (heap w) = heap w0 ∧
    heap w !! length (heap w0)
      = Some (assigned (zip ("original" :: reviewed self passed) (outputs evs))) ∧
    progress self given petition_type passed current_text evs.

(** A run that an agent's [generate] ended with exception [e], in the
    reviewer stage that follows [passed] or, with [passed] empty, possibly in
    the generator stage. *)
Definition failed (self : AgentOrchestrator.t) (given : dict) (petition_type : string)
    (w0 : world) (visited : list string) (e : exn) (w : world) : Prop :=
  ∃ evs,
    trace w = trace w0 ++ evs ∧
    take (length (heap w0)) (heap w) = heap w0 ∧
    queries evs = ("generator", petition_type) :: (pair "reviewer" <$> visited) ∧
    agents evs = (GeneratorAgent_cls, petition_type)
                 :: (pair ReviewerAgent_cls <$> reviewed self visited) ∧
    contexts evs = given :: (review_context petition_type <$> outputs evs) ∧
    length (outputs evs) = length (reviewed self visited) ∧
    (∀ k, k ∈ missing_keys evs → e = ValueError (IncompleteContext k)) ∧
    (e = IndexError ∨ (∃ cause, e = ClientError cause) ∨
     (∃ k, e = ValueError (IncompleteContext k)) ∨
     ∃ raising, e = raised raising ∧ ∀ k, raising ≠ FormatKeyError k) ∧
    ∃ agent context w1, PetitionAgent.generate agent context w1 = (Raise e, w).

(** The world in which stage 1 starts: the type and the context are logged
    and [results] is a new empty dict. *)
Definition entered (given : dict) (w0 : world) : world :=
  {| heap := heap w0 ++ [∅];
     trace := trace w0 ++
       [Log agent_logger INFO (MsgPetitionType (default "" (given !! "tipo")));
        Log agent_logger INFO (MsgFullContext given)] |}.

(** The world in which a run without generator binding ends. *)
Definition refused (given : dict) (w0 : world) : world :=
  let petition_type := default "" (given !! "tipo") in
  {| heap := heap w0 ++ [∅];
     trace := trace w0 ++
       [Log agent_logger INFO (MsgPetitionType petition_type);
        Log agent_logger INFO (MsgFullContext given);
        Log agent_logger INFO (MsgStage 1);
        Query "generator" petition_type;
        Log agent_logger ERROR (MsgNoGenerator petition_type)] |}.

(** A run that went through all five stages. *)
Definition completed (self : AgentOrchestrator.t) (given : dict) (petition_type : string)
    (w0 : world) (w : world) : Prop :=
  ∃ evs final_text,
    trace w = trace w0 ++ evs ∧
    take (length (heap w0)) (heap w) = heap w0 ∧
    heap w !! length (heap w0)
      = Some (<["final" := final_text]>
                (assigned (zip ("original" :: reviewed self reviewer_order)
                               (outputs evs)))) ∧
    progress self given petition_type reviewer_order final_text evs.

(** ** Example inputs *)

Definition example_row (id : Z) (agent_type specialty : string) (t : template)
    : AgentModel :=
  {| am_id := id; am_name := agent_type +:+ " " +:+ specialty;
     am_description := None; am_model_id := "model-" +:+ specialty;
     am_type := agent_type; am_specialty := specialty;
     am_prompt_template := t; am_created_at := "2025-01-01 00:00:00" |}.

(** A client that answers every call with the prompt in brackets. *)
Definition echo_client : AITogetherClient.t :=
  {| AITogetherClient.respond := λ _ c,
       AITogetherClient.Answer
         {[ "choices" := [ {[ "text" := "<" +:+ call_prompt c +:+ ">" ]} ] ]} |}.

(** A client whose responses carry no text. *)
Definition mute_client : AITogetherClient.t :=
  {| AITogetherClient.respond := λ _ _,
       AITogetherClient.Answer {[ "choices" := [ ∅ ] ]} |}.

Definition example_generator : AgentModel :=
  example_row 1 "generator" "recurso_administrativo" [Text "G:"; Field "fatos"].

Definition example_reviewer (id : Z) (specialty : string) : AgentModel :=
  example_row id "reviewer" specialty
    [Text specialty; Text ":"; Field "tipo"; Text ":"; Field "texto"].

(** All five bindings. *)
Definition example_full : AgentOrchestrator.t :=
  {| AgentOrchestrator.db_manager :=
       {| DatabaseManager.agent_models :=
            [ example_generator; example_reviewer 2 "gramatica";
              example_reviewer 3 "juridico"; example_reviewer 4 "linguagem";
              example_reviewer 5 "formatacao" ] |};
     AgentOrchestrator.ai_client := echo_client |}.

(** The same without the legal reviewer. *)
Definition example_no_juridico : AgentOrchestrator.t :=
  {| AgentOrchestrator.db_manager :=
       {| DatabaseManager.agent_models :=
            [ example_generator; example_reviewer 2 "gramatica";
              example_reviewer 4 "linguagem"; example_reviewer 5 "formatacao" ] |};
     AgentOrchestrator.ai_client := echo_client |}.

(** A catalog with a generator bound to the empty specialty. *)
Definition example_untyped : AgentOrchestrator.t :=
  {| AgentOrchestrator.db_manager :=
       {| DatabaseManager.agent_models :=
            [ example_row 1 "generator" "" [Text "G:"; Field "fatos"];
              example_reviewer 2 "gramatica" ] |};
     AgentOrchestrator.ai_client := echo_client |}.

Definition example_context : dict :=
  {[ "tipo" := "recurso_administrativo"; "fatos" := "F"; "cidade" := "C" ]}.

(** A store that holds the caller's context at location 0. *)
Definition example_world : world := World [example_context] [].





(** The specialties named by the built-in tables, by role. *)
Definition generator_specialties : list string :=
  ["recurso_administrativo"; "impugnacao_edital"; "mandado_seguranca";
   "contrarrazoes_recurso"].

Definition reviewer_specialties : list string :=
  ["juridico"; "formatacao"; "linguagem"; "gramatica"].


(** * The code around the pipeline *)

(** ** The catalog: inserting and listing bindings *)

(** The id SQLite gives a new row of a table whose key is declared
    [INTEGER PRIMARY KEY AUTOINCREMENT]: one more than the largest id the
    table has had.  The repository has no statement that deletes a row, so
    that is the largest id in the table, or 0 for an empty table. *)
Definition next_id (ids : list Z) : Z := (1 + foldr Z.max 0 ids)%Z.

(** The row that [add_agent_model] inserts; [created_at] takes the column
    default, the time of the insertion. *)
Definition inserted_agent_model (id : Z) (name description model_id agent_type
    specialty : string) (prompt_template : template) (now : string) : AgentModel :=
  {| am_id := id; am_name := name; am_description := Some description;
     am_model_id := model_id; am_type := agent_type; am_specialty := specialty;
     am_prompt_template := prompt_template; am_created_at := now |}.

(** [DatabaseManager.add_agent_model]: the new id and the table after the
    insertion. *)
Definition add_agent_model (self : DatabaseManager.t) (name description model_id
    agent_type specialty : string) (prompt_template : template) (now : string)
    : Z * DatabaseManager.t :=
  let lastrowid := next_id (am_id <$> DatabaseManager.agent_models self) in
  (lastrowid,
   {| DatabaseManager.agent_models :=
        DatabaseManager.agent_models self
        ++ [inserted_agent_model lastrowid name description model_id agent_type
              specialty prompt_template now] |}).

(** Python's truth value of an [Optional[str]]: [None] and the empty string
    are false. *)
Definition truthy (value : option string) : bool :=
  match value with
  | Some (String _ _) => true
  | _ => false
  end.

(** A condition of a [WHERE] clause, with its parameter. *)
Inductive condition :=
  | TypeIs (agent_type : string)
  | SpecialtyIs (specialty : string).

Definition satisfies (row : AgentModel) (c : condition) : bool :=
  match c with
  | TypeIs agent_type => bool_decide (am_type row = agent_type)
  | SpecialtyIs specialty => bool_decide (am_specialty row = specialty)
  end.

(** [DatabaseManager.get_agent_models]: the [WHERE] clause is built from the
    arguments that are true, joined by [AND], and the selected rows are
    returned. *)
Definition get_agent_models (self : DatabaseManager.t)
    (agent_type specialty : option string) : list AgentModel :=
  let conditions :=
    if truthy agent_type || truthy specialty then
      (if truthy agent_type then [TypeIs (default "" agent_type)] else [])
      ++ (if truthy specialty then [SpecialtyIs (default "" specialty)] else [])
    else [] in
  filter (λ row, forallb (satisfies row) conditions) (DatabaseManager.agent_models self).

(** [DatabaseManager.get_agent_model]: the row with that id, or [None]. *)
Definition get_agent_model (self : DatabaseManager.t) (model_id : Z)
    : option AgentModel :=
  head (filter (λ row, am_id row = model_id) (DatabaseManager.agent_models self)).

(** ** The table [petitions] *)

Record Petition := {
  p_id : Z;
  p_title : string;
  p_client_id : option string;
  p_petition_type_id : option string;
  p_status : option string;
  p_facts : option string;
  p_arguments : option string;
  p_requests : option string;
  p_generated_text : option string;
  p_reviewed_text : option string;
  p_final_text : option string;
  p_final_document_path : option string;
  p_created_at : option string;
  p_updated_at : option string
}.

(** [DatabaseManager.add_petition]: the new id and the table after the
    insertion.  The status is ['draft']; the columns not named by the
    statement are NULL, and the two time stamps take their default. *)
Definition add_petition (petitions : list Petition) (title client_id
    petition_type_id facts arguments requests : string) (now : string)
    : Z * list Petition :=
  let lastrowid := next_id (p_id <$> petitions) in
  (lastrowid,
   petitions ++
   [ {| p_id := lastrowid; p_title := title; p_client_id := Some client_id;
        p_petition_type_id := Some petition_type_id; p_status := Some "draft";
        p_facts := Some facts; p_arguments := Some arguments;
        p_requests := Some requests; p_generated_text := None;
        p_reviewed_text := None; p_final_text := None;
        p_final_document_path := None; p_created_at := Some now;
        p_updated_at := Some now |} ]).

(** The assignments of the [UPDATE] statement that [update_petition] builds,
    applied to one row: a column is assigned when its argument is not
    [None], and [updated_at] always. *)
Definition updated (generated_text reviewed_text final_text final_document_path
    status : option string) (now : string) (row : Petition) : Petition :=
  {| p_id := p_id row; p_title := p_title row; p_client_id := p_client_id row;
     p_petition_type_id := p_petition_type_id row;
     p_status := if status is Some _ then status else p_status row;
     p_facts := p_facts row; p_arguments := p_arguments row;
     p_requests := p_requests row;
     p_generated_text :=
       if generated_text is Some _ then generated_text else p_generated_text row;
     p_reviewed_text :=
       if reviewed_text is Some _ then reviewed_text else p_reviewed_text row;
     p_final_text := if final_text is Some _ then final_text else p_final_text row;
     p_final_document_path :=
       if final_document_path is Some _ then final_document_path
       else p_final_document_path row;
     p_created_at := p_created_at row;
     p_updated_at := Some now |}.

(** [DatabaseManager.update_petition]: with no column to assign it returns
    [False] and writes nothing; otherwise it updates the rows with that id
    and returns [True]. *)
Definition update_petition (petitions : list Petition) (petition_id : Z)
    (generated_text reviewed_text final_text final_document_path status : option string)
    (now : string) : bool * list Petition :=
  let update_fields :=
    (if generated_text is Some _ then ["generated_text = ?"] else [])
    ++ (if reviewed_text is Some _ then ["reviewed_text = ?"] else [])
    ++ (if final_text is Some _ then ["final_text = ?"] else [])
    ++ (if final_document_path is Some _ then ["final_document_path = ?"] else [])
    ++ (if status is Some _ then ["status = ?"] else []) in
  match update_fields with
  | [] => (false, petitions)
  | _ :: _ =>
      (true,
       (λ row, if decide (p_id row = petition_id)
               then updated generated_text reviewed_text final_text
                      final_document_path status now row
               else row) <$> petitions)
  end.

(** [DatabaseManager.get_petition]: the row with that id, or [None]. *)
Definition get_petition (petitions : list Petition) (petition_id : Z) : option Petition :=
  head (filter (λ row, p_id row = petition_id) petitions).

(** ** The Together client over HTTP *)

(** The decoded body of a completion: a mapping whose key [choices] holds
    a list of mappings, whose key [message] holds a mapping of strings.  A
    body of another shape, on which the indexing of [generate_text] would
    raise [TypeError], is not represented. *)
Abbreviation api_result := (gmap string (list (gmap string dict))).

(** What [requests.post] returns: [json] is [None] when the body does not
    decode, and then [response.json()] raises with [undecodable]. *)
Record http_response := {
  status_code : Z;
  text : string;
  json : option api_result;
  undecodable : string
}.

(** The request that [generate_text] posts. *)
Record chat_request := {
  url : string;
  authorization : string;
  content_type : string;
  data_model : string;
  data_messages : list dict;
  data_max_tokens : Z;
  data_temperature : Q;
  data_top_p : Q;
  data_top_k : Z;
  data_repetition_penalty : Q
}.

(** [requests.post] returns a response or raises. *)
Inductive posted :=
  | Responded (r : http_response)
  | Unreachable (cause : string).

(** The network, which may answer by the calls made before. *)
Record network := { post : list call → chat_request → posted }.

(** The exceptions that leave [generate_text], each as it was raised: the
    handler logs an exception and raises it again unchanged. *)
Inductive client_exception :=
  | StatusException (status : Z)       (* Exception(f"Erro ao gerar texto: {status}") *)
  | RequestException (cause : string)  (* raised by requests.post *)
  | DecodeException (cause : string)   (* raised by response.json() *)
  | ResultKeyError (key : string)      (* KeyError(key), from result[...] *)
  | ResultIndexError.                  (* IndexError, from result["choices"][0] *)

(** [str(e)] *)
Definition describe (e : client_exception) : string :=
  match e with
  | StatusException status => "Erro ao gerar texto: " +:+ pretty status
  | RequestException cause => cause
  | DecodeException cause => cause
  | ResultKeyError key => "'" +:+ key +:+ "'"
  | ResultIndexError => "list index out of range"
  end.

(** [result["choices"][0]["message"]["content"]] *)
Definition message_content (result : api_result) : client_exception + string :=
  match result !! "choices" with
  | None => inl (ResultKeyError "choices")
  | Some [] => inl ResultIndexError
  | Some (first :: _) =>
      match first !! "message" with
      | None => inl (ResultKeyError "message")
      | Some message =>
          match message !! "content" with
          | None => inl (ResultKeyError "content")
          | Some content => inr content
          end
      end
  end.

Definition base_url : string := "https://api.together.xyz/v1".

Definition completion_request (api_key model prompt : string) (max_tokens : Z)
    (temperature top_p : Q) (top_k : Z) (repetition_penalty : Q) : chat_request :=
  {| url := base_url +:+ "/chat/completions";
     authorization := "Bearer " +:+ api_key;
     content_type := "application/json";
     data_model := model;
     data_messages := [ {[ "role" := "user"; "content" := prompt ]} ];
     data_max_tokens := max_tokens;
     data_temperature := temperature;
     data_top_p := top_p;
     data_top_k := top_k;
     data_repetition_penalty := repetition_penalty |}.

(** [AITogetherClient.generate_text] of [utils/aitogether_client.py]: the
    outcome and the lines written to the module's logger.  An exception
    raised in the body, the one for a bad status included, is logged by the
    handler and raised again. *)
Definition together_generate_text (api_key : string) (net : network)
    (history : list call) (model prompt : string) (max_tokens : Z)
    (temperature top_p : Q) (top_k : Z) (repetition_penalty : Q)
    : (client_exception + response) * list string :=
  let handler (e : client_exception) : list string :=
    ["Erro ao gerar texto: " +:+ describe e] in
  match post net history
          (completion_request api_key model prompt max_tokens temperature top_p
             top_k repetition_penalty) with
  | Unreachable cause =>
      (inl (RequestException cause), handler (RequestException cause))
  | Responded r =>
      if decide (status_code r ≠ 200%Z) then
        (inl (StatusException (status_code r)),
         ["Erro ao gerar texto: " +:+ pretty (status_code r) +:+ " - " +:+ text r]
         ++ handler (StatusException (status_code r)))
      else
        match json r with
        | None =>
            (inl (DecodeException (undecodable r)),
             handler (DecodeException (undecodable r)))
        | Some result =>
            match message_content result with
            | inl e => (inl e, handler e)
            | inr content =>
                (inr {[ "choices" := [ {[ "text" := content ]} ] ]}, [])
            end
        end
  end.

(** ** A client that answers *)

(** Every call is answered, with a response from which [generate] can take
    a text. *)
Definition answers (client : AITogetherClient.t) : Prop :=
  ∀ history c, ∃ response generated_text,
    AITogetherClient.respond client history c = AITogetherClient.Answer response ∧
    PetitionAgent.first_choice_text response = Ok generated_text.

(** A catalog and a caller's context that leave no placeholder without a
    value: the generator's template refers to keys of the context only, and
    the template of each reviewer that the pipeline looks up and finds
    bound to [tipo] and [texto] only. *)
Definition renderable (self : AgentOrchestrator.t) (given : dict) : Prop :=
  (∀ model k, binding self "generator" (default "" (given !! "tipo")) = Some model →
              k ∈ fields (am_prompt_template model) → is_Some (given !! k)) ∧
  (∀ review_type model k, review_type ∈ reviewer_order →
                          binding self "reviewer" review_type = Some model →
                          k ∈ fields (am_prompt_template model) →
                          k = "tipo" ∨ k = "texto").

(** The templates that a run for this context can meet, the one of the
    generator bound to the petition type and those of the bound reviewers
    of the four stages, have named fields only. *)
Definition plainly_bound (self : AgentOrchestrator.t) (given : dict) : Prop :=
  (∀ model, binding self "generator" (default "" (given !! "tipo")) = Some model →
            plain (am_prompt_template model) = true) ∧
  (∀ review_type model, review_type ∈ reviewer_order →
                        binding self "reviewer" review_type = Some model →
                        plain (am_prompt_template model) = true).

(** ** The setup script [inicializar_aitogether.py] *)

(** [s.replace(old, new)] for one-character [old] and [new]. *)
Fixpoint replace_char (old new : Ascii.ascii) (s : string) : string :=
  match s with
  | EmptyString => EmptyString
  | String a s' =>
      String (if Ascii.eqb a old then new else a) (replace_char old new s')
  end.

(** The characters ['_'] and [' ']. *)
Definition underscore : Ascii.ascii := Ascii.ascii_of_nat 95.

Definition space : Ascii.ascii := Ascii.ascii_of_nat 32.

Definition is_lower (a : Ascii.ascii) : bool :=
  (97 <=? Ascii.nat_of_ascii a)%nat && (Ascii.nat_of_ascii a <=? 122)%nat.

Definition is_upper (a : Ascii.ascii) : bool :=
  (65 <=? Ascii.nat_of_ascii a)%nat && (Ascii.nat_of_ascii a <=? 90)%nat.

Definition to_upper (a : Ascii.ascii) : Ascii.ascii :=
  if is_lower a then Ascii.ascii_of_nat (Ascii.nat_of_ascii a - 32) else a.

Definition to_lower (a : Ascii.ascii) : Ascii.ascii :=
  if is_upper a then Ascii.ascii_of_nat (Ascii.nat_of_ascii a + 32) else a.

(** [s.title()] on ASCII text, which is what the script applies it to: a
    letter that follows a letter is made lower case, any other letter upper
    case. *)
Fixpoint title_from (previous_is_cased : bool) (s : string) : string :=
  match s with
  | EmptyString => EmptyString
  | String a s' =>
      if is_lower a || is_upper a then
        String (if previous_is_cased then to_lower a else to_upper a)
               (title_from true s')
      else String a (title_from false s')
  end.

Definition title (s : string) : string := title_from false s.

(** What the script works on: the catalog, the store of the agents, the
    lines it has logged and the number of rows it has inserted, which tells
    the clock reading of the next insertion. *)
Record setup := Setup {
  catalog : DatabaseManager.t;
  agents_world : world;
  logged : list (level * string);
  insertions : nat
}.

Definition Script (A : Type) : Type := setup → result A * setup.

Definition script_ret {A} (a : A) : Script A := λ s, (Ok a, s).

Definition script_bind {A B} (m : Script A) (k : A → Script B) : Script B :=
  λ s, match m s with
       | (Ok a, s') => k a s'
       | (Raise e, s') => (Raise e, s')
       end.

Declare Scope script_scope.
Delimit Scope script_scope with script.
Notation "x <- m ;;; k" := (script_bind m (λ x, k))
  (at level 100, m at next level, right associativity) : script_scope.
Notation "m ;;; k" := (script_bind m (λ _, k))
  (at level 100, right associativity) : script_scope.

Definition script_log (lvl : level) (line : string) : Script unit :=
  λ s, (Ok tt, Setup (catalog s) (agents_world s) (logged s ++ [(lvl, line)])
                     (insertions s)).

(** Code of [agents.py] run from the script. *)
Definition in_agents {A} (m : M A) : Script A :=
  λ s, let '(r, w) := m (agents_world s) in
       (r, Setup (catalog s) w (logged s) (insertions s)).

Definition script_get_agent_models (agent_type specialty : option string)
    : Script (list AgentModel) :=
  λ s, (Ok (get_agent_models (catalog s) agent_type specialty), s).

Definition script_add_agent_model (clock : nat → string) (name description model_id
    agent_type specialty : string) (prompt_template : template) : Script Z :=
  λ s, let '(id, db) := add_agent_model (catalog s) name description model_id
                          agent_type specialty prompt_template
                          (clock (insertions s)) in
       (Ok id, Setup db (agents_world s) (logged s) (S (insertions s))).

Fixpoint for_each {A} (items : list A) (body : A → Script unit) : Script unit :=
  match items with
  | [] => script_ret tt
  | item :: rest => (body item ;;; for_each rest body)%script
  end.

Definition default_model : string := "meta-llama/Meta-Llama-3.1-8B-Instruct-Turbo".

(** [configurar_agentes_padrao(db_manager)]; [api_key] is the value of the
    environment variable, [client_for] builds the client for a key, and
    [clock] gives the time of the n-th insertion. *)
Definition configurar_agentes_padrao (api_key : option string)
    (client_for : string → AITogetherClient.t) (clock : nat → string) : Script unit :=
  (script_log INFO "Configurando agentes padrão..." ;;;
   generator_models <- script_get_agent_models (Some "generator") None ;;;
   reviewer_models <- script_get_agent_models (Some "reviewer") None ;;;
   match generator_models, reviewer_models with
   | _ :: _, _ :: _ =>
       script_log INFO "Agentes já configurados. Pulando configuração."
   | _, _ =>
       if negb (truthy api_key) then
         script_log ERROR "Chave de API do Together não configurada!"
       else
         let client := client_for (default "" api_key) in
         (match generator_models with
          | [] =>
              script_log INFO "Configurando agentes geradores..." ;;;
              for_each
                ["recurso_administrativo"; "impugnacao_edital"; "mandado_seguranca";
                 "contrarrazoes_recurso"]
                (λ petition_type,
                   temp_agent <- in_agents (GeneratorAgent.__init__ client default_model
                                              petition_type None) ;;;
                   script_add_agent_model clock
                     ("Gerador de " +:+ title (replace_char underscore space petition_type))
                     ("Agente especializado em gerar petições do tipo "
                      +:+ title (replace_char underscore space petition_type))
                     default_model "generator" petition_type
                     (PetitionAgent.prompt_template temp_agent) ;;;
                   script_log INFO ("Agente gerador para " +:+ petition_type
                                    +:+ " configurado com sucesso!"))
          | _ :: _ => script_ret tt
          end) ;;;
         (match reviewer_models with
          | [] =>
              script_log INFO "Configurando agentes revisores..." ;;;
              for_each ["juridico"; "formatacao"; "linguagem"; "gramatica"]
                (λ review_type,
                   temp_agent <- in_agents (ReviewerAgent.__init__ client default_model
                                              review_type None) ;;;
                   script_add_agent_model clock
                     ("Revisor " +:+ title review_type)
                     ("Agente especializado em revisão " +:+ review_type
                      +:+ " de petições")
                     default_model "reviewer" review_type
                     (PetitionAgent.prompt_template temp_agent) ;;;
                   script_log INFO ("Agente revisor para " +:+ review_type
                                    +:+ " configurado com sucesso!"))
          | _ :: _ => script_ret tt
          end) ;;;
         script_log INFO "Configuração de agentes concluída com sucesso!"
   end)%script.

(** A catalog without bindings and a store with nothing in it. *)
Definition fresh_setup : setup := Setup (DatabaseManager.Build_t []) (World [] []) [] 0.

(** ** The catalog after the setup script *)

(** What the script passes to [add_agent_model] for one agent, the model
    apart, which is [default_model] for all. *)
Record entry := Entry {
  e_name : string;
  e_description : string;
  e_type : string;
  e_specialty : string;
  e_template : template
}.

(** The catalog after [entries] are inserted one after the other, the first
    at clock reading [n]. *)
Fixpoint insert_all (db : DatabaseManager.t) (clock : nat → string) (n : nat)
    (entries : list entry) : DatabaseManager.t :=
  match entries with
  | [] => db
  | e :: rest =>
      insert_all (add_agent_model db (e_name e) (e_description e) default_model
                    (e_type e) (e_specialty e) (e_template e) (clock n)).2
                 clock (S n) rest
  end.

(** The rows that [insert_all] appends when the first of them gets the id
    [first]. *)
Definition inserted_rows (first : Z) (clock : nat → string) (n : nat)
    (entries : list entry) : list AgentModel :=
  imap (λ i e, inserted_agent_model (first + Z.of_nat i) (e_name e) (e_description e)
                 default_model (e_type e) (e_specialty e) (e_template e)
                 (clock (n + i)%nat)) entries.

Definition generator_entry (petition_type : string) (t : template) : entry :=
  {| e_name := "Gerador de " +:+ title (replace_char underscore space petition_type);
     e_description := "Agente especializado em gerar petições do tipo "
                      +:+ title (replace_char underscore space petition_type);
     e_type := "generator"; e_specialty := petition_type; e_template := t |}.

Definition reviewer_entry (review_type : string) (t : template) : entry :=
  {| e_name := "Revisor " +:+ title review_type;
     e_description := "Agente especializado em revisão " +:+ review_type
                      +:+ " de petições";
     e_type := "reviewer"; e_specialty := review_type; e_template := t |}.

(** The agents of the two loops of the script, in loop order. *)
Definition default_generators : list entry :=
  [ generator_entry "recurso_administrativo"
      GeneratorAgent.generator_template_recurso_administrativo;
    generator_entry "impugnacao_edital" GeneratorAgent.generator_template_impugnacao_edital;
    generator_entry "mandado_seguranca" GeneratorAgent.generator_template_mandado_seguranca;
    generator_entry "contrarrazoes_recurso"
      GeneratorAgent.generator_template_contrarrazoes_recurso ].

Definition default_reviewers : list entry :=
  [ reviewer_entry "juridico" ReviewerAgent.reviewer_template_juridico;
    reviewer_entry "formatacao" ReviewerAgent.reviewer_template_formatacao;
    reviewer_entry "linguagem" ReviewerAgent.reviewer_template_linguagem;
    reviewer_entry "gramatica" ReviewerAgent.reviewer_template_gramatica ].

(** What one run of the script inserts: the generators when the catalog
    lists none, then the reviewers when it lists none. *)
Definition missing_defaults (db : DatabaseManager.t) : list entry :=
  (if get_agent_models db (Some "generator") None is [] then default_generators else [])
  ++ (if get_agent_models db (Some "reviewer") None is [] then default_reviewers else []).

(** ** More example inputs *)

(** A catalog with one generator and no reviewer, before any run of the
    setup script. *)
Definition example_setup : setup :=
  Setup (DatabaseManager.Build_t [example_generator]) (World [] []) [] 0.

(** A context with the six fields of a case. *)
Definition example_case : dict :=
  {[ "tipo" := "impugnacao_edital"; "fatos" := "F"; "cliente_nome" := "N";
     "cliente_cnpj" := "J"; "referencia_processo" := "P"; "autoridade" := "A";
     "cidade" := "C" ]}.

(** ** The script [testar_recurso_inabilitacao.py] *)

(** The case that the script submits. *)
Definition dados_teste : dict :=
  {[ "tipo" := "recurso_administrativo";
     "fatos" := "
        Nossa empresa, Construtora Horizonte Ltda., participou da Concorrência Pública nº 023/2024, 
        promovida pela Prefeitura Municipal de Belo Horizonte para contratação de empresa especializada 
        para construção de uma escola municipal.
        
        Na sessão de abertura dos envelopes de habilitação, realizada em 10/03/2024, a Comissão 
        Permanente de Licitação nos inabilitou sob a alegação de que não atendemos ao item 8.4.3 
        do edital, que exige comprovação de capacidade técnico-operacional através de atestados 
        que demonstrem a execução de obras similares.
        
        Apresentamos três atestados de capacidade técnica emitidos por órgãos públicos, que comprovam 
        a execução de obras de construção de prédios públicos, incluindo uma escola estadual com 
        características semelhantes à do objeto licitado.
        
        A Comissão entendeu que os atestados não seriam suficientes porque um deles se refere a uma 
        obra realizada há mais de 10 anos e os outros dois não contemplariam todos os itens de maior 
        relevância exigidos no edital, especificamente a execução de sistema de captação de energia solar.
        
        A decisão de inabilitação foi publicada no Diário Oficial do Município em 11/03/2024, abrindo 
        prazo recursal de 5 dias úteis.
        ";
     "cliente_nome" := "Construtora Horizonte Ltda.";
     "cliente_cnpj" := "12.345.678/0001-90";
     "referencia_processo" := "Concorrência Pública nº 023/2024";
     "autoridade" := "Ilmo. Sr. Presidente da Comissão Permanente de Licitação";
     "cidade" := "Belo Horizonte" ]}.

(** The lines that the script logs. *)
Inductive tester_line :=
  | LineNoKey                      (* "Chave de API do Together não configurada!" *)
  | LineGenerating                 (* "Gerando recurso administrativo contra inabilitação..." *)
  | LineSuccess                    (* "Recurso administrativo gerado com sucesso!" *)
  | LineSaved (timestamp : string) (* f"Resultados salvos em: ..._*_{timestamp}.txt" *)
  | LineError (e : exn).           (* f"Erro ao gerar recurso administrativo: {str(e)}" *)

(** What the script works on: the files on disk by path, the store and
    trace of [agents.py], and the lines logged. *)
Record tester := Tester {
  files : gmap string string;
  pipeline_world : world;
  tester_log : list (level * tester_line)
}.

(** [with open(path, "w", encoding="utf-8") as f: f.write(resultado[key])]:
    opening creates the file or empties it; the key is looked up after
    that, and the file is closed whether or not the lookup raises. *)
Definition write_result (path : string) (resultado : dict) (key : string)
    (disk : gmap string string) : result unit * gmap string string :=
  let opened := <[path := EmptyString]> disk in
  match resultado !! key with
  | None => (Raise (KeyError key), opened)
  | Some text => (Ok tt, <[path := text]> opened)
  end.

(** f"resultados_teste/recurso_inabilitacao_{stage}_{timestamp}.txt" *)
Definition result_path (stage timestamp : string) : string :=
  "resultados_teste/recurso_inabilitacao_" +:+ stage +:+ "_" +:+ timestamp +:+ ".txt".

(** [testar_recurso_inabilitacao()]: [api_key] is the value of the
    environment variable, [db] the catalog that [DatabaseManager()] opens,
    [client_for] builds the client for a key and [timestamp] is the
    formatted time of saving.  Every exception raised inside the [try] block is caught and
    logged. *)
Definition testar_recurso_inabilitacao (api_key : option string)
    (db : DatabaseManager.t) (client_for : string → AITogetherClient.t)
    (timestamp : string) (t : tester) : tester :=
  let '(context, w0) := (length (heap (pipeline_world t)),
                         World (heap (pipeline_world t) ++ [dados_teste])
                               (trace (pipeline_world t))) in
  if negb (truthy api_key) then
    Tester (files t) w0 (tester_log t ++ [(ERROR, LineNoKey)])
  else
    let started := tester_log t ++ [(INFO, LineGenerating)] in
    let orchestrator :=
      {| AgentOrchestrator.db_manager := db;
         AgentOrchestrator.ai_client := client_for (default "" api_key) |} in
    match AgentOrchestrator.generate_petition orchestrator context w0 with
    | (Raise e, w) => Tester (files t) w (started ++ [(ERROR, LineError e)])
    | (Ok results, w) =>
        let resultado := heap w !!! results in
        match write_result (result_path "original" timestamp) resultado "original"
                (files t) with
        | (Raise e, disk) => Tester disk w (started ++ [(ERROR, LineError e)])
        | (Ok _, disk) =>
        match write_result (result_path "revisado" timestamp) resultado "reviewed"
                disk with
        | (Raise e, disk) => Tester disk w (started ++ [(ERROR, LineError e)])
        | (Ok _, disk) =>
        match write_result (result_path "formatado" timestamp) resultado "formatted"
                disk with
        | (Raise e, disk) => Tester disk w (started ++ [(ERROR, LineError e)])
        | (Ok _, disk) =>
        match write_result (result_path "final" timestamp) resultado "final" disk with
        | (Raise e, disk) => Tester disk w (started ++ [(ERROR, LineError e)])
        | (Ok _, disk) =>
            Tester disk w (started ++ [(INFO, LineSuccess); (INFO, LineSaved timestamp)])
        end end end end
    end.

(** A first run of the script: no file yet, an empty store, nothing
    logged. *)
Definition example_tester : tester := Tester ∅ (World [] []) [].

(** * Properties *)

(** ** The staged pipeline is the pipeline *)

Lemma generate_petition_staged_eq self context w :
  generate_petition_staged self context w
  = AgentOrchestrator.generate_petition self context w.
Proof.
  unfold generate_petition_staged, AgentOrchestrator.generate_petition,
    generate_stage, review_stage, finish, bind.
  cbn [load log alloc ret raise].
  repeat match goal with
  | |- context [match ?m ?x with _ => _ end] =>
      lazymatch m with
      | AgentOrchestrator._get_generator_model _ _ => idtac
      | AgentOrchestrator._get_reviewer_model _ _ => idtac
      | AgentOrchestrator._create_generator_agent _ _ => idtac
      | AgentOrchestrator._create_reviewer_agent _ _ => idtac
      | PetitionAgent.generate _ _ => idtac
      end;
      destruct (m x) as [[[?|]|?] ?] || destruct (m x) as [[?|?] ?]; cbn [load log alloc ret raise store]
  end; reflexivity.
Qed.

(** ** Rendering *)

Lemma plain_text s t : plain (Text s :: t) = plain t.
Proof. done. Qed.

Lemma plain_field k t : plain (Field k :: t) = true → plain t = true.
Proof. cbn. by intros [_ ?]%andb_true_iff. Qed.

(** Whatever the template, [str.format] raises one of its own exceptions. *)
Lemma format_raised (t : template) (kwargs : dict) e :
  format t kwargs = Raise e → ∃ raising, e = raised raising.
Proof.
  revert e. induction t as [|[s|k| |k eval|] t IH]; intros e; simpl.
  - discriminate.
  - destruct (format t kwargs) eqn:E; [discriminate|]. intros [= <-]. by apply IH.
  - destruct (kwargs !! k) as [v|].
    + destruct (format t kwargs) eqn:E; [discriminate|]. intros [= <-]. by apply IH.
    + intros [= <-]. by exists (FormatKeyError k).
  - intros [= <-]. by exists FormatIndexError.
  - destruct (kwargs !! k) as [v|].
    + destruct (eval v kwargs) as [raising|inserted].
      * intros [= <-]. by exists raising.
      * destruct (format t kwargs) eqn:E; [discriminate|]. intros [= <-]. by apply IH.
    + intros [= <-]. by exists (FormatKeyError k).
  - intros [= <-]. by exists FormatValueError.
Qed.

Lemma format_complete (t : template) (kwargs : dict) :
  plain t = true →
  (∀ k, k ∈ fields t → is_Some (kwargs !! k)) → ∃ s, format t kwargs = Ok s.
Proof.
  induction t as [|[s|k| |k eval|] t IH]; intros Hp Hall; simpl; try done.
  - by eexists.
  - destruct IH as [rest ->]; [done|done|]. by eexists.
  - apply plain_field in Hp. destruct (Hall k) as [v ->]; [simpl; left|].
    destruct IH as [rest ->]; [done| |by eexists].
    intros j Hj. apply Hall. simpl. by right.
Qed.




(** ** Traces *)

Lemma queries_app tr1 tr2 : queries (tr1 ++ tr2) = queries tr1 ++ queries tr2.
Proof. apply omap_app. Qed.
Lemma agents_app tr1 tr2 : agents (tr1 ++ tr2) = agents tr1 ++ agents tr2.
Proof. apply omap_app. Qed.
Lemma contexts_app tr1 tr2 : contexts (tr1 ++ tr2) = contexts tr1 ++ contexts tr2.
Proof. apply omap_app. Qed.
Lemma outputs_app tr1 tr2 : outputs (tr1 ++ tr2) = outputs tr1 ++ outputs tr2.
Proof. apply omap_app. Qed.
Lemma stages_app tr1 tr2 : stages (tr1 ++ tr2) = stages tr1 ++ stages tr2.
Proof. apply omap_app. Qed.
Lemma requests_app tr1 tr2 : requests (tr1 ++ tr2) = requests tr1 ++ requests tr2.
Proof. apply omap_app. Qed.
Lemma missing_keys_app tr1 tr2 :
  missing_keys (tr1 ++ tr2) = missing_keys tr1 ++ missing_keys tr2.
Proof. apply omap_app. Qed.

(** ** One agent invocation *)

(** [generate] leaves the store alone and adds to the trace the record of
    one agent: its class and specialty, the context it was given, and the
    text it returned if it returned. *)
Lemma generate_run self context w res w' :
  PetitionAgent.generate self context w = (res, w') →
  heap w' = heap w ∧
  ∃ evs, trace w' = trace w ++ evs ∧
    queries evs = [] ∧ stages evs = [] ∧
    agents evs = [(PetitionAgent.class_name self,
                   default "desconhecida" (PetitionAgent.specialty self))] ∧
    contexts evs = [heap w !!! context] ∧
    match res with
    | Ok text => outputs evs = [text] ∧ missing_keys evs = [] ∧ length (requests evs) = 1
    | Raise e => outputs evs = [] ∧ generate_failure self (heap w !!! context) e evs
    end.
Proof.
  unfold PetitionAgent.generate, PetitionAgent._format_prompt, try_except, bind,
    AITogetherClient.generate_text, lift.
  cbn [load log ret raise heap trace].
  destruct (format _ _) as [prompt|e] eqn:Ef; cbn [load log ret raise heap trace].
  - destruct (AITogetherClient.respond _ _ _) as [response|cause].
    + destruct (PetitionAgent.first_choice_text response) as [text|e] eqn:Et;
        cbn [load log ret raise heap trace];
        intros [= <- <-]; cbn [heap trace]; (split; [done|]);
        rewrite <- !app_assoc; cbn [app];
        (eexists; split; [reflexivity|]); repeat split; try done.
      right. right. repeat split; try done. left.
      unfold PetitionAgent.first_choice_text in Et.
      destruct (default _ _); congruence.
    + intros [= <- <-]; cbn [heap trace]; (split; [done|]).
      rewrite <- !app_assoc; cbn [app].
      eexists; split; [reflexivity|]. repeat split; try done.
      right. right. repeat split; try done. right. by eexists.
  - destruct (format_raised _ _ _ Ef) as [raising ->].
    destruct raising as [k| | | | |class_name]; cbn [raised load log ret raise heap trace];
      intros [= <- <-]; cbn [heap trace]; (split; [done|]);
      rewrite <- ?app_assoc; cbn [app];
      (eexists; split; [reflexivity|]); repeat split; try done;
      [left; by exists k
      |right; left; repeat split; try done; by exists FormatValueError
      |right; left; repeat split; try done; by exists FormatIndexError
      |right; left; repeat split; try done; by exists FormatAttributeError
      |right; left; repeat split; try done; by exists FormatTypeError
      |right; left; repeat split; try done; by exists (FormatOther class_name)].
Qed.

Lemma generate_failure_missing self given e evs :
  generate_failure self given e evs →
  ∀ k, k ∈ missing_keys evs → e = ValueError (IncompleteContext k).
Proof.
  intros [(k' & -> & Hm & _)|[(Hm & _)|(Hm & _)]] k Hk; rewrite Hm in Hk.
  - by apply list_elem_of_singleton in Hk as ->.
  - by apply elem_of_nil in Hk.
  - by apply elem_of_nil in Hk.
Qed.

Lemma generate_failure_class self given e evs :
  generate_failure self given e evs →
  e = IndexError ∨ (∃ cause, e = ClientError cause) ∨
  (∃ k, e = ValueError (IncompleteContext k)) ∨
  ∃ raising, e = raised raising ∧ ∀ k, raising ≠ FormatKeyError k.
Proof.
  intros [(k' & -> & _)|[(_ & _ & ? & _)|(_ & _ & [->|[cause ->]])]]; eauto 6.
Qed.

(** What an agent raises is never the [KeyError] of a lookup nor one of
    the orchestrator's or the constructors' errors. *)
Lemma agent_exception e :
  e = IndexError ∨ (∃ cause, e = ClientError cause) ∨
  (∃ k, e = ValueError (IncompleteContext k)) ∨
  (∃ raising, e = raised raising ∧ ∀ k, raising ≠ FormatKeyError k) →
  (∀ k, e ≠ KeyError k) ∧
  (∀ petition_type, e ≠ ValueError (NoGeneratorForType petition_type)) ∧
  (∀ specialty, e ≠ ValueError (UnsupportedSpecialty specialty)).
Proof.
  intros [->|[[cause ->]|[[k ->]|(raising & -> & Hk)]]]; try done.
  destruct raising; try done. by destruct (Hk key).
Qed.

Lemma binding_specialty self agent_type specialty model :
  binding self agent_type specialty = Some model →
  am_type model = agent_type ∧ am_specialty model = specialty.
Proof.
  unfold binding, DatabaseManager.select. intros H%head_Some_elem_of.
  by apply list_elem_of_filter in H as [? _].
Qed.

Lemma has_reviewer_true self ty model :
  binding self "reviewer" ty = Some model → has_reviewer self ty = true.
Proof. intros H. unfold has_reviewer. rewrite H. by apply bool_decide_eq_true. Qed.

Lemma has_reviewer_false self ty :
  binding self "reviewer" ty = None → has_reviewer self ty = false.
Proof.
  intros H. unfold has_reviewer. rewrite H. apply bool_decide_eq_false.
  by intros [? ?].
Qed.

Lemma reviewed_snoc_true self passed ty :
  has_reviewer self ty = true → reviewed self (passed ++ [ty]) = reviewed self passed ++ [ty].
Proof.
  intros H. unfold reviewed. rewrite filter_app. f_equal.
  rewrite filter_cons_True; [done|]. by rewrite H.
Qed.

Lemma reviewed_snoc_false self passed ty :
  has_reviewer self ty = false → reviewed self (passed ++ [ty]) = reviewed self passed.
Proof.
  intros H. unfold reviewed. rewrite filter_app.
  rewrite filter_cons_False; [by rewrite app_nil_r|]. rewrite H. by intros [].
Qed.

Lemma assigned_snoc kvs k v : assigned (kvs ++ [(k, v)]) = <[k := v]> (assigned kvs).
Proof. unfold assigned. by rewrite foldl_app. Qed.

Lemma assigned_zip_snoc (ks vs : list string) k v :
  length ks = length vs →
  assigned (zip (ks ++ [k]) (vs ++ [v])) = <[k := v]> (assigned (zip ks vs)).
Proof.
  intros Hlen. rewrite zip_with_app by done. apply assigned_snoc.
Qed.

(** Assigning a key of the dict at [r] while a newer object sits behind it. *)
Lemma store_behind (h : list dict) (r : loc) (d newer : dict) (k v : string) :
  h !! r = Some d →
  let h' := <[r := <[k := v]> ((h ++ [newer]) !!! r)]> (h ++ [newer]) in
  h' !! r = Some (<[k := v]> d) ∧ ∀ n : nat, (n ≤ r)%nat → take n h' = take n h.
Proof.
  intros Hr. pose proof (lookup_lt_Some _ _ _ Hr) as Hlt. simpl. split.
  - rewrite list_lookup_insert_eq by (rewrite length_app; lia).
    by rewrite (list_lookup_total_correct _ _ d) by by apply lookup_app_l_Some.
  - intros n Hn. rewrite take_insert_ge by done. apply take_app_le. lia.
Qed.

Ltac trace_simpl :=
  rewrite ?queries_app, ?agents_app, ?contexts_app, ?outputs_app, ?stages_app,
    ?requests_app, ?missing_keys_app; cbn [queries agents contexts outputs stages requests missing_keys omap list_omap app].

(** ** The stages *)

(** A reviewer stage keeps the run invariant, or ends the run with the
    exception of its agent. *)
Lemma review_stage_run self given pt w0 passed cur w n ty :
  running self given pt w0 passed cur w → n = length passed + 2 →
  match review_stage self n ty pt (length (heap w0)) cur w with
  | (Ok cur', w') =>
      running self given pt w0 (passed ++ [ty]) cur' w' ∧
      (has_reviewer self ty = false → cur' = cur)
  | (Raise e, w') => failed self given pt w0 (passed ++ [ty]) e w'
  end.
Proof.
  intros (evs & Htr & Htake & Hres & P) ->.
  unfold review_stage, bind, AgentOrchestrator._get_reviewer_model,
    DatabaseManager.get_agent_model_by_specialty.
  cbn [log heap trace].
  change (head (DatabaseManager.select _ _ _)) with (binding self "reviewer" ty).
  destruct (binding self "reviewer" ty) as [model|] eqn:Eb.
  - pose proof (has_reviewer_true _ _ _ Eb) as Hty.
    destruct (binding_specialty _ _ _ _ Eb) as [_ Hsp].
    unfold AgentOrchestrator._create_reviewer_agent, ReviewerAgent.__init__, bind.
    cbn [ret alloc heap trace].
    destruct (PetitionAgent.generate _ _ _) as [[text|e] w2] eqn:Eg.
    + apply generate_run in Eg as (Hh & evg & Htg & Hq & Hs & Ha & Hc & Ho & Hm & Hr).
      cbn [store log ret heap trace PetitionAgent.class_name PetitionAgent.specialty] in *.
      rewrite list_lookup_total_middle in Hc by done. rewrite Hsp in Ha. cbn in Ha.
      fold (review_context pt cur) in Hc.
      split; [|congruence].
      destruct P as [Pq Ps Pa Pc Pl Pn Pm Pr].
      destruct (store_behind _ _ _ {["tipo" := pt; "texto" := cur]} ty text Hres)
        as [Hl Ht].
      exists (evs ++ [Log agent_logger INFO (MsgStage (length passed + 2));
                      Query "reviewer" ty] ++ evg
                  ++ [Log agent_logger INFO (MsgStageDone (length passed + 2))]).
      rewrite Hh, Htg, Htr. cbn [heap trace].
      split; [by rewrite <- !app_assoc|].
      split; [by rewrite Ht|].
      split.
      { rewrite Hl. f_equal. trace_simpl. rewrite Ho, app_nil_r.
        rewrite reviewed_snoc_true by done.
        rewrite <- assigned_zip_snoc; [done|]. cbn. by rewrite Pn. }
      split; trace_simpl; rewrite ?Hq, ?Hs, ?Ha, ?Hc, ?Ho, ?Hm, ?app_nil_r.
      * by rewrite Pq, fmap_app.
      * rewrite Ps, length_app. cbn [length].
        replace (S (length passed + 1)) with (S (S (length passed))) by lia.
        rewrite (seq_S (S (length passed))). by rewrite Nat.add_comm.
      * rewrite Pa, reviewed_snoc_true, fmap_app by done. done.
      * rewrite Pc, fmap_app. done.
      * apply last_snoc.
      * rewrite length_app, Pn, reviewed_snoc_true, length_app by done. done.
      * by rewrite Pm.
      * rewrite !length_app, Hr, Pr. done.
    + pose proof Eg as Eg'.
      apply generate_run in Eg' as (Hh & evg & Htg & Hq & Hs & Ha & Hc & Ho & Hf).
      cbn [heap trace PetitionAgent.class_name PetitionAgent.specialty] in *.
      rewrite list_lookup_total_middle in Hc by done. rewrite Hsp in Ha. cbn in Ha.
      fold (review_context pt cur) in Hc.
      destruct P as [Pq Ps Pa Pc Pl Pn Pm Pr].
      exists (evs ++ [Log agent_logger INFO (MsgStage (length passed + 2));
                      Query "reviewer" ty] ++ evg).
      rewrite Hh, Htg, Htr.
      split; [by rewrite <- !app_assoc|].
      split.
      { rewrite take_app_le; [done|]. apply lookup_lt_Some in Hres. lia. }
      trace_simpl; rewrite ?Hq, ?Hs, ?Ha, ?Hc, ?Ho, ?app_nil_r.
      split; [by rewrite Pq, fmap_app|].
      split; [by rewrite Pa, reviewed_snoc_true, fmap_app by done|].
      split; [done|].
      split; [by rewrite Pn, reviewed_snoc_true, length_app, Nat.add_comm by done|].
      split.
      { rewrite Pm. cbn [app]. intros k Hk.
        by eapply generate_failure_missing. }
      split.
      { by eapply generate_failure_class. }
      eauto.
  - pose proof (has_reviewer_false _ _ Eb) as Hty.
    cbn [ret log heap trace].
    split; [|done].
    destruct P as [Pq Ps Pa Pc Pl Pn Pm Pr].
    exists (evs ++ [Log agent_logger INFO (MsgStage (length passed + 2));
                    Query "reviewer" ty;
                    Log agent_logger WARNING (MsgStageSkipped (length passed + 2))]).
    cbn [heap trace]. rewrite Htr.
    split; [by rewrite <- !app_assoc|].
    split; [done|].
    split.
    { rewrite Hres. trace_simpl. by rewrite app_nil_r, reviewed_snoc_false. }
    split; trace_simpl; rewrite ?app_nil_r, ?reviewed_snoc_false by done; try done.
    + by rewrite Pq, fmap_app.
    + rewrite Ps, length_app. cbn [length].
      replace (S (length passed + 1)) with (S (S (length passed))) by lia.
      rewrite (seq_S (S (length passed))). by rewrite Nat.add_comm.
Qed.

Lemma generate_stage_run self context w0 given :
  heap w0 !! context = Some given →
  let pt := default "" (given !! "tipo") in
  match generate_stage self context pt (length (heap w0)) (entered given w0) with
  | (Ok cur, w') =>
      is_Some (binding self "generator" pt) ∧ running self given pt w0 [] cur w'
  | (Raise e, w') =>
      (binding self "generator" pt = None ∧
       e = ValueError (NoGeneratorForType pt) ∧ w' = refused given w0)
      ∨ (is_Some (binding self "generator" pt) ∧ failed self given pt w0 [] e w')
  end.
Proof.
  intros Hc pt.
  pose proof (lookup_lt_Some _ _ _ Hc) as Hlt.
  unfold generate_stage, entered, bind, AgentOrchestrator._get_generator_model,
    DatabaseManager.get_agent_model_by_specialty.
  cbn [log heap trace].
  change (head (DatabaseManager.select _ _ _)) with (binding self "generator" pt).
  destruct (binding self "generator" pt) as [model|] eqn:Eb.
  - destruct (binding_specialty _ _ _ _ Eb) as [_ Hsp].
    unfold AgentOrchestrator._create_generator_agent, GeneratorAgent.__init__, bind.
    cbn [ret heap trace].
    destruct (PetitionAgent.generate _ _ _) as [[text|e] w2] eqn:Eg.
    + apply generate_run in Eg as (Hh & evg & Htg & Hq & Hs & Ha & Hx & Ho & Hm & Hr).
      cbn [store log ret heap trace PetitionAgent.class_name PetitionAgent.specialty] in *.
      rewrite lookup_total_app_l, (list_lookup_total_correct _ _ _ Hc) in Hx by done.
      rewrite Hsp in Ha. cbn in Ha.
      split; [by eexists|].
      exists ([Log agent_logger INFO (MsgPetitionType pt);
                Log agent_logger INFO (MsgFullContext given);
                Log agent_logger INFO (MsgStage 1);
                Query "generator" pt] ++ evg
                ++ [Log agent_logger INFO (MsgStageDone 1)]).
      rewrite Hh, Htg. cbn [heap trace].
      split; [by rewrite <- !app_assoc|].
      split; [by rewrite take_insert_ge, take_app_length by done|].
      split.
      { rewrite list_lookup_insert_eq by (rewrite length_app; cbn; lia).
        rewrite list_lookup_total_middle by done.
        trace_simpl. by rewrite Ho. }
      split; trace_simpl; rewrite ?Hq, ?Hs, ?Ha, ?Hx, ?Ho, ?Hm, ?Hr, ?app_nil_r; done.
    + pose proof Eg as Eg'.
      apply generate_run in Eg' as (Hh & evg & Htg & Hq & Hs & Ha & Hx & Ho & Hf).
      cbn [heap trace PetitionAgent.class_name PetitionAgent.specialty] in *.
      rewrite lookup_total_app_l, (list_lookup_total_correct _ _ _ Hc) in Hx by done.
      rewrite Hsp in Ha. cbn in Ha.
      right. split; [by eexists|].
      exists ([Log agent_logger INFO (MsgPetitionType pt);
                Log agent_logger INFO (MsgFullContext given);
                Log agent_logger INFO (MsgStage 1);
                Query "generator" pt] ++ evg).
      rewrite Hh, Htg.
      split; [by rewrite <- !app_assoc|].
      split; [by rewrite take_app_length|].
      trace_simpl; rewrite ?Hq, ?Hs, ?Ha, ?Hx, ?Ho.
      split; [done|]. split; [done|]. split; [done|]. split; [done|].
      split.
      { intros k Hk.
        by eapply generate_failure_missing. }
      split.
      { by eapply generate_failure_class. }
      eauto.
  - cbn [log raise heap trace]. left. repeat split.
    unfold refused. fold pt. by rewrite <- !app_assoc.
Qed.

(** Every run of [generate_petition] is of one of three kinds: completed,
    refused for want of a generator, or failed inside an agent. *)
Lemma generate_petition_run self context w0 given :
  heap w0 !! context = Some given →
  let pt := default "" (given !! "tipo") in
  match AgentOrchestrator.generate_petition self context w0 with
  | (Ok results, w') =>
      results = length (heap w0) ∧ is_Some (binding self "generator" pt) ∧
      completed self given pt w0 w'
  | (Raise e, w') =>
      (binding self "generator" pt = None ∧
       e = ValueError (NoGeneratorForType pt) ∧ w' = refused given w0)
      ∨ (is_Some (binding self "generator" pt) ∧
         ∃ visited, visited `prefix_of` reviewer_order ∧
                    failed self given pt w0 visited e w')
  end.
Proof.
  intros Hc pt. rewrite <- generate_petition_staged_eq.
  unfold generate_petition_staged, bind. cbn [load log alloc heap trace].
  rewrite (list_lookup_total_correct _ _ _ Hc). fold pt.
  rewrite <- app_assoc. cbn [app]. change (World _ _) with (entered given w0).
  pose proof (generate_stage_run self context w0 given Hc) as H1. cbv zeta in H1.
  fold pt in H1.
  destruct (generate_stage _ _ _ _ _) as [[t1|e] w1].
  2: { destruct H1 as [?|[? ?]]; [by left|right]. split; [done|]. exists []. split; [apply prefix_nil|done]. }
  destruct H1 as [Hg H1].
  pose proof (review_stage_run _ _ _ _ _ _ _ 2 "gramatica" H1 eq_refl) as H2.
  destruct (review_stage _ 2 _ _ _ _ _) as [[t2|e] w2].
  2: { right. split; [done|]. eexists; split; [|exact H2]. by eexists. }
  destruct H2 as [H2 _].
  pose proof (review_stage_run _ _ _ _ _ _ _ 3 "juridico" H2 eq_refl) as H3.
  destruct (review_stage _ 3 _ _ _ _ _) as [[t3|e] w3].
  2: { right. split; [done|]. eexists; split; [|exact H3]. by eexists. }
  destruct H3 as [H3 _].
  pose proof (review_stage_run _ _ _ _ _ _ _ 4 "linguagem" H3 eq_refl) as H4.
  destruct (review_stage _ 4 _ _ _ _ _) as [[t4|e] w4].
  2: { right. split; [done|]. eexists; split; [|exact H4]. by eexists. }
  destruct H4 as [H4 _].
  pose proof (review_stage_run _ _ _ _ _ _ _ 5 "formatacao" H4 eq_refl) as H5.
  destruct (review_stage _ 5 _ _ _ _ _) as [[t5|e] w5].
  2: { right. split; [done|]. eexists; split; [|exact H5]. by eexists. }
  destruct H5 as [(evs & Htr & Htake & Hres & P) _].
  unfold finish, bind. cbn [store load log ret heap trace].
  split; [done|]. split; [done|].
  pose proof (lookup_lt_Some _ _ _ Hres) as Hlt.
  rewrite list_lookup_total_insert_eq by done.
  rewrite (list_lookup_total_correct _ _ _ Hres).
  exists (evs ++ [Log agent_logger INFO MsgFinished;
                  Log agent_logger INFO
                    (MsgResultKeys
                       (dom (<["final" := t5]>
                               (assigned (zip ("original" :: reviewed self reviewer_order)
                                              (outputs evs))))))]), t5.
  cbn [heap trace]. rewrite Htr.
  split; [by rewrite <- !app_assoc|].
  split; [by rewrite take_insert_ge|].
  split.
  { rewrite list_lookup_insert_eq by done.
    trace_simpl. by rewrite app_nil_r. }
  destruct P as [Pq Ps Pa Pc Pl Pn Pm Pr].
  split; trace_simpl; rewrite ?app_nil_r; done.
Qed.

(** ** Template resolution *)

Lemma generator_templates_dom s :
  is_Some (GeneratorAgent.templates !! s) ↔ s ∈ generator_specialties ∨ s = "gramatica".
Proof.
  unfold GeneratorAgent.templates, generator_specialties.
  rewrite !lookup_insert_is_Some', lookup_singleton_is_Some.
  rewrite !elem_of_cons, elem_of_nil. intuition congruence.
Qed.

Lemma reviewer_templates_dom s :
  is_Some (ReviewerAgent.templates !! s) ↔ s ∈ reviewer_specialties.
Proof.
  unfold ReviewerAgent.templates, reviewer_specialties.
  rewrite !lookup_insert_is_Some', lookup_singleton_is_Some.
  rewrite !elem_of_cons, elem_of_nil. intuition congruence.
Qed.

(** C5, as amended: under the generator role a built-in template is
    resolved for exactly five specialties, the four generator specialties
    and also [gramatica]; under the reviewer role for exactly the four
    reviewer specialties; every other specialty, under either role, raises
    the unsupported-specialty error. *)
Theorem C5_template_resolution :
  (∀ s, is_ok (GeneratorAgent._load_specialty_template s) = true
        ↔ s ∈ generator_specialties ∨ s = "gramatica") ∧
  (∀ s, is_ok (ReviewerAgent._load_specialty_template s) = true
        ↔ s ∈ reviewer_specialties) ∧
  (∀ s, is_ok (GeneratorAgent._load_specialty_template s) = false →
        GeneratorAgent._load_specialty_template s
        = Raise (ValueError (UnsupportedSpecialty s))) ∧
  (∀ s, is_ok (ReviewerAgent._load_specialty_template s) = false →
        ReviewerAgent._load_specialty_template s
        = Raise (ValueError (UnsupportedSpecialty s))) ∧
  (∀ s, s ∉ generator_specialties ++ reviewer_specialties →
        GeneratorAgent._load_specialty_template s
          = Raise (ValueError (UnsupportedSpecialty s)) ∧
        ReviewerAgent._load_specialty_template s
          = Raise (ValueError (UnsupportedSpecialty s))).
Proof.
  assert (Hg : ∀ s, is_ok (GeneratorAgent._load_specialty_template s) = true
                    ↔ s ∈ generator_specialties ∨ s = "gramatica").
  { intros s. rewrite <- generator_templates_dom.
    unfold GeneratorAgent._load_specialty_template.
    destruct (GeneratorAgent.templates !! s); cbn;
      [split; [by eexists|done] | split; [done|by intros [? ?]]]. }
  assert (Hr : ∀ s, is_ok (ReviewerAgent._load_specialty_template s) = true
                    ↔ s ∈ reviewer_specialties).
  { intros s. rewrite <- reviewer_templates_dom.
    unfold ReviewerAgent._load_specialty_template.
    destruct (ReviewerAgent.templates !! s); cbn;
      [split; [by eexists|done] | split; [done|by intros [? ?]]]. }
  assert (Hin : "gramatica" ∈ reviewer_specialties).
  { unfold reviewer_specialties. rewrite !elem_of_cons. tauto. }
  split; [exact Hg|]. split; [exact Hr|].
  split; [|split].
  - intros s. unfold GeneratorAgent._load_specialty_template.
    by destruct (GeneratorAgent.templates !! s).
  - intros s. unfold ReviewerAgent._load_specialty_template.
    by destruct (ReviewerAgent.templates !! s).
  - intros s Hs. split.
    + specialize (Hg s). unfold GeneratorAgent._load_specialty_template in *.
      destruct (GeneratorAgent.templates !! s); [|done].
      exfalso. apply Hs. apply elem_of_app. destruct Hg as [[?| ->] _]; auto.
    + specialize (Hr s). unfold ReviewerAgent._load_specialty_template in *.
      destruct (ReviewerAgent.templates !! s); [|done].
      exfalso. apply Hs. apply elem_of_app. destruct Hr as [? _]; auto.
Qed.

Lemma C5_counterexample_gramatica :
  is_ok (GeneratorAgent._load_specialty_template "gramatica") = true ∧
  "gramatica" ∉ generator_specialties.
Proof.
  split; [reflexivity|].
  unfold generator_specialties. rewrite !elem_of_cons, elem_of_nil.
  intros [H|[H|[H|[H|[]]]]]; discriminate H.
Qed.

(** ** Rendering inside an agent *)


Lemma _format_prompt_ok self context w prompt :
  format (PetitionAgent.prompt_template self) (heap w !!! context) = Ok prompt →
  PetitionAgent._format_prompt self context w = (Ok prompt, w).
Proof.
  intros E. unfold PetitionAgent._format_prompt, bind. cbn [load]. by rewrite E.
Qed.









(** ** Extraction of the generated text *)

(** C9: when the client returns a response without the key [choices], or
    whose first choice has no key [text], [generate] returns the empty
    string and raises nothing. *)
Theorem C9_missing_text_is_empty (self : PetitionAgent.t) (context : loc) (w : world)
    (prompt : string) (response : response) :
  format (PetitionAgent.prompt_template self) (heap w !!! context) = Ok prompt →
  AITogetherClient.respond (PetitionAgent.ai_client self) (requests (trace w))
    (Call (PetitionAgent.model_id self) prompt 2000 (7 # 10))
  = AITogetherClient.Answer response →
  (response !! "choices" = None ∨
   ∃ first rest, response !! "choices" = Some (first :: rest) ∧ first !! "text" = None) →
  (PetitionAgent.generate self context w).1 = Ok "".
Proof.
  intros Ef Ea Hshape.
  unfold PetitionAgent.generate, try_except, bind, AITogetherClient.generate_text, lift.
  cbn [load log heap trace].
  rewrite (_format_prompt_ok _ _ _ prompt) by done.
  cbn [log heap trace].
  rewrite !requests_app. cbn [requests omap list_omap]. rewrite !app_nil_r.
  rewrite Ea. unfold PetitionAgent.first_choice_text.
  destruct Hshape as [->|(first & rest & -> & Ht)]; cbn; [done|].
  by rewrite Ht.
Qed.

Lemma C9_missing_text_is_empty_witness :
  (PetitionAgent.generate
     {| PetitionAgent.class_name := ReviewerAgent_cls;
        PetitionAgent.ai_client := mute_client;
        PetitionAgent.model_id := "model";
        PetitionAgent.prompt_template := [Text "G:"; Field "fatos"];
        PetitionAgent.specialty := Some "gramatica" |} 0 example_world).1 = Ok "".
Proof.
  apply (C9_missing_text_is_empty _ 0 example_world "G:F" {[ "choices" := [ ∅ ] ]}).
  - reflexivity.
  - reflexivity.
  - right. exists ∅, []. split; reflexivity.
Defined.

(** ** The catalog query *)

Lemma get_agent_model_by_specialty_total db agent_type specialty w :
  DatabaseManager.get_agent_model_by_specialty db agent_type specialty w
  = (Ok (head (DatabaseManager.select db agent_type specialty)),
     World (heap w) (trace w ++ [Query agent_type specialty])).
Proof. reflexivity. Qed.

Lemma select_nil db agent_type specialty :
  DatabaseManager.select db agent_type specialty = [] ↔
  ∀ row, row ∈ DatabaseManager.agent_models db →
         ¬ (am_type row = agent_type ∧ am_specialty row = specialty).
Proof.
  unfold DatabaseManager.select. split.
  - intros Hnil row Hrow Hmatch.
    assert (row ∈ filter (λ row, am_type row = agent_type ∧ am_specialty row = specialty)
                         (DatabaseManager.agent_models db)) as Hin
      by by apply list_elem_of_filter.
    rewrite Hnil in Hin. by apply elem_of_nil in Hin.
  - intros Hnone. induction (DatabaseManager.agent_models db) as [|row rows IH]; [done|].
    rewrite filter_cons_False by (apply Hnone; by left).
    apply IH. intros r Hr. apply Hnone. by right.
Qed.

(** ** The pipeline *)

(** C3: the catalog query raises nothing and answers [None] exactly when no
    row matches; when no generator is bound to the petition type of the
    context, [generate_petition] raises the no-generator error, returns no
    result, and makes no request to the client. *)
Theorem C3_no_generator (self : AgentOrchestrator.t) (context : loc) (w : world)
    (given : dict) :
  heap w !! context = Some given →
  (∀ row, row ∈ DatabaseManager.agent_models (AgentOrchestrator.db_manager self) →
          ¬ (am_type row = "generator" ∧
             am_specialty row = default "" (given !! "tipo"))) →
  (∀ agent_type specialty w1,
      ∃ found w2,
        DatabaseManager.get_agent_model_by_specialty (AgentOrchestrator.db_manager self)
          agent_type specialty w1 = (Ok found, w2) ∧
        (found = None ↔
         ∀ row, row ∈ DatabaseManager.agent_models (AgentOrchestrator.db_manager self) →
                ¬ (am_type row = agent_type ∧ am_specialty row = specialty))) ∧
  ∃ w', AgentOrchestrator.generate_petition self context w
          = (Raise (ValueError (NoGeneratorForType (default "" (given !! "tipo")))), w') ∧
        requests (trace w') = requests (trace w).
Proof.
  intros Hc Hnone. split.
  - intros agent_type specialty w1. eexists _, _.
    split; [apply get_agent_model_by_specialty_total|].
    rewrite <- select_nil. by destruct (DatabaseManager.select _ _ _).
  - apply select_nil in Hnone.
    pose proof (generate_petition_run self context w given Hc) as H. cbv zeta in H.
    unfold binding in H. rewrite Hnone in H. cbn [head] in H.
    destruct (AgentOrchestrator.generate_petition self context w) as [[results|e] w'].
    + by destruct H as (_ & [? ?] & _).
    + destruct H as [(_ & -> & ->)|([? ?] & _)]; [|done].
      eexists. split; [done|]. cbn [refused trace].
      rewrite requests_app. cbn. by rewrite app_nil_r.
Qed.

Lemma C3_no_generator_witness :
  ∃ w', AgentOrchestrator.generate_petition example_full 0
          (World [ {[ "tipo" := "inexistente"; "fatos" := "F" ]} ] [])
        = (Raise (ValueError (NoGeneratorForType "inexistente")), w') ∧
        requests (trace w') = [].
Proof.
  refine (proj2 (C3_no_generator example_full 0
            (World [ {[ "tipo" := "inexistente"; "fatos" := "F" ]} ] [])
            {[ "tipo" := "inexistente"; "fatos" := "F" ]} _ _)).
  - reflexivity.
  - intros row Hrow [Hty Hsp]. cbn in Hrow.
    repeat (apply elem_of_cons in Hrow as [->|Hrow]; [by cbn in *|]).
    by apply elem_of_nil in Hrow.
Defined.

(** C8: whatever the outcome, [generate_petition] leaves every object that
    was in the store before the call as it was, the caller's context among
    them; an agent's [generate] leaves the whole store as it was. *)
Theorem C8_context_not_mutated (self : AgentOrchestrator.t) (context : loc) (w : world)
    (given : dict) :
  heap w !! context = Some given →
  (∀ r w', AgentOrchestrator.generate_petition self context w = (r, w') →
           heap w' !! context = Some given ∧
           ∀ l, l < length (heap w) → heap w' !! l = heap w !! l) ∧
  (∀ agent r w', PetitionAgent.generate agent context w = (r, w') → heap w' = heap w).
Proof.
  intros Hc. split.
  - intros r w' Hrun.
    assert (take (length (heap w)) (heap w') = heap w) as Htake.
    { pose proof (generate_petition_run self context w given Hc) as H. cbv zeta in H.
      rewrite Hrun in H. destruct r as [results|e].
      - by destruct H as (_ & _ & evs & final_text & _ & Htake & _).
      - destruct H as [(_ & _ & ->)|(_ & visited & _ & evs & _ & Htake & _)]; [|done].
        apply take_app_length. }
    assert (∀ l, l < length (heap w) → heap w' !! l = heap w !! l) as Hframe.
    { intros l Hl. transitivity (take (length (heap w)) (heap w') !! l);
        [symmetry; by apply lookup_take_lt | by rewrite Htake]. }
    split; [|done]. rewrite Hframe; [done|]. by eapply lookup_lt_Some.
  - intros agent r w' Hrun. by apply generate_run in Hrun as [? _].
Qed.

Lemma C8_context_not_mutated_witness :
  heap (AgentOrchestrator.generate_petition example_full 0 example_world).2 !! 0
  = Some example_context.
Proof.
  refine (proj1 (proj1 (C8_context_not_mutated example_full 0 example_world
                          example_context _) _ _ _)).
  - reflexivity.
  - apply surjective_pairing.
Defined.

(** Every run, whatever its outcome, extends the trace, and every agent it
    started after the first was given a review context built from the
    output of the agent before. *)
Lemma generate_petition_threads self context w given r w' :
  heap w !! context = Some given →
  AgentOrchestrator.generate_petition self context w = (r, w') →
  let pt := default "" (given !! "tipo") in
  ∃ evs visited,
    trace w' = trace w ++ evs ∧
    (agents evs = [] ∧ contexts evs = [] ∨
     agents evs = (GeneratorAgent_cls, pt)
                  :: (pair ReviewerAgent_cls <$> reviewed self visited) ∧
     length (contexts evs) = S (length (reviewed self visited)) ∧
     ∃ extra, contexts evs ++ extra = given :: (review_context pt <$> outputs evs)).
Proof.
  intros Hc Hrun pt.
  pose proof (generate_petition_run self context w given Hc) as H. cbv zeta in H.
  rewrite Hrun in H. fold pt in H. destruct r as [results|e].
  - destruct H as (_ & _ & evs & final_text & Htr & _ & _ & P).
    destruct P as [Pq Ps Pa Pc Pl Pn Pm Pr].
    exists evs, reviewer_order. split; [done|]. right. split; [done|]. split; [|eauto].
    apply (f_equal length) in Pc. rewrite length_app in Pc. cbn [length] in Pc.
    rewrite length_fmap, Pn in Pc. lia.
  - destruct H as [(_ & _ & ->)|(_ & visited & _ & evs & Htr & _ & _ & Ha & Hx & Hn & _)].
    + eexists _, []. split; [reflexivity|]. by left.
    + exists evs, visited. split; [done|]. right. split; [done|]. split.
      * rewrite Hx. cbn [length]. by rewrite length_fmap, Hn.
      * exists []. by rewrite app_nil_r.
Qed.

(** C4: in every run, finished or not, the agent started in position
    [i + 1] is a reviewer, and the context it was given holds exactly two
    keys: [tipo], with the petition type read from the caller's context, and
    [texto], with the text returned by the agent in position [i]; no other
    key, so none of the caller's case fields, is in it. *)
Theorem C4_reviewer_context (self : AgentOrchestrator.t) (context : loc) (w : world)
    (given : dict) (r : result loc) (w' : world) :
  heap w !! context = Some given →
  AgentOrchestrator.generate_petition self context w = (r, w') →
  ∃ evs,
    trace w' = trace w ++ evs ∧
    length (agents evs) = length (contexts evs) ∧
    ∀ i agent, agents evs !! S i = Some agent →
      (∃ review_type, agent = (ReviewerAgent_cls, review_type)) ∧
      ∃ given_i text,
        contexts evs !! S i = Some given_i ∧
        outputs evs !! i = Some text ∧
        given_i = {[ "tipo" := default "" (given !! "tipo"); "texto" := text ]} ∧
        dom given_i = {[ "tipo"; "texto" ]} ∧
        (∀ tipo, given !! "tipo" = Some tipo → given_i !! "tipo" = Some tipo) ∧
        ∀ k, k ≠ "tipo" → k ≠ "texto" → given_i !! k = None.
Proof.
  intros Hc Hrun.
  destruct (generate_petition_threads _ _ _ _ _ _ Hc Hrun)
    as (evs & visited & Htr & [[Ha Hx]|(Ha & Hn & extra & Hx)]).
  { exists evs. split; [done|]. rewrite Ha, Hx. split; [done|]. by intros i agent ?. }
  exists evs. split; [done|].
  split; [rewrite Ha, Hn; cbn [length]; by rewrite length_fmap|].
  intros i agent Hi. rewrite Ha in Hi. cbn in Hi.
  apply list_lookup_fmap_Some in Hi as (review_type & -> & Hi).
  split; [by eexists|].
  assert (is_Some (contexts evs !! S i)) as [given_i Hgi].
  { apply lookup_lt_is_Some. rewrite Hn. apply lookup_lt_Some in Hi. lia. }
  pose proof (lookup_app_l_Some _ extra _ _ Hgi) as Hgi'.
  rewrite Hx in Hgi'. cbn in Hgi'.
  apply list_lookup_fmap_Some in Hgi' as (text & -> & Ht).
  exists (review_context (default "" (given !! "tipo")) text), text.
  unfold review_context. repeat split; try done.
  - intros tipo ->. cbn. by rewrite lookup_insert_eq.
  - intros k Hk1 Hk2. rewrite lookup_insert_ne by done. by rewrite lookup_singleton_ne.
Qed.

Lemma C4_reviewer_context_witness :
  ∃ evs,
    trace (AgentOrchestrator.generate_petition example_full 0 example_world).2 = [] ++ evs ∧
    agents evs !! 2 = Some (ReviewerAgent_cls, "juridico") ∧
    ∃ text, outputs evs !! 1 = Some text ∧
            contexts evs !! 2
            = Some {[ "tipo" := "recurso_administrativo"; "texto" := text ]}.
Proof.
  destruct (C4_reviewer_context example_full 0 example_world example_context
              (AgentOrchestrator.generate_petition example_full 0 example_world).1
              (AgentOrchestrator.generate_petition example_full 0 example_world).2
              eq_refl (surjective_pairing _))
    as (evs & Htr & Hlen & Hall).
  exists evs. split; [exact Htr|].
  assert (agents evs !! 2 = Some (ReviewerAgent_cls, "juridico")) as Ha.
  { cbn in Htr. rewrite <- Htr. vm_compute. reflexivity. }
  split; [exact Ha|].
  destruct (Hall 1 _ Ha) as (_ & given_i & text & Hg & Ho & -> & _).
  exists text. split; [exact Ho|exact Hg].
Defined.

(** C10: for a context without the key [tipo] the run raises no
    [KeyError]; its first query asks for the generator bound to the empty
    specialty; it raises the no-generator error exactly when there is no
    such binding; and when there is one, the first agent started is that
    generator and every reviewer context carries the empty petition type. *)
Theorem C10_missing_tipo (self : AgentOrchestrator.t) (context : loc) (w : world)
    (given : dict) (r : result loc) (w' : world) :
  heap w !! context = Some given →
  given !! "tipo" = None →
  AgentOrchestrator.generate_petition self context w = (r, w') →
  ∃ evs,
    trace w' = trace w ++ evs ∧
    head (queries evs) = Some ("generator", "") ∧
    (∀ k, r ≠ Raise (KeyError k)) ∧
    (r = Raise (ValueError (NoGeneratorForType "")) ↔
     binding self "generator" "" = None) ∧
    (∀ petition_type, r = Raise (ValueError (NoGeneratorForType petition_type)) →
                      petition_type = "") ∧
    (is_Some (binding self "generator" "") →
     head (agents evs) = Some (GeneratorAgent_cls, "") ∧
     ∀ i given_i, contexts evs !! S i = Some given_i → given_i !! "tipo" = Some "").
Proof.
  intros Hc Hno Hrun.
  pose proof (generate_petition_run self context w given Hc) as H. cbv zeta in H.
  rewrite Hrun, Hno in H. cbn [default] in H. destruct r as [results|e].
  - destruct H as (_ & Hb & evs & final_text & Htr & _ & _ & P).
    destruct P as [Pq Ps Pa Pc Pl Pn Pm Pr].
    exists evs. split; [done|]. split; [by rewrite Pq|]. split; [done|].
    split; [split; [done|intros E; rewrite E in Hb; by destruct Hb]|].
    split; [done|]. intros _. split; [by rewrite Pa|].
    intros i given_i Hi.
    pose proof (lookup_app_l_Some _ [review_context "" final_text] _ _ Hi) as Hi'.
    rewrite Pc in Hi'. cbn in Hi'.
    by apply list_lookup_fmap_Some in Hi' as (text & -> & _).
  - destruct H as [(Hb & -> & ->)|(Hb & visited & _ & evs & Htr & _ & Hq & Ha & Hx & _ & _ & He & _)].
    + unfold refused. rewrite Hno. cbn [default heap trace].
      eexists. split; [reflexivity|]. split; [done|]. split; [done|].
      split; [done|]. split; [by intros ? [= ->]|].
      rewrite Hb. by intros [? ?].
    + exists evs. split; [done|]. split; [by rewrite Hq|].
      destruct (agent_exception e He) as (Hkey & Hgen & _).
      split; [intros k [= ->]; by destruct (Hkey k)|].
      split.
      { split; [|intros E; rewrite E in Hb; by destruct Hb].
        intros [= ->]. by destruct (Hgen ""). }
      split; [intros pt [= ->]; by destruct (Hgen pt)|].
      intros _. split; [by rewrite Ha|].
      intros i given_i Hi. rewrite Hx in Hi. cbn in Hi.
      by apply list_lookup_fmap_Some in Hi as (text & -> & _).
Qed.

Lemma C10_missing_tipo_witness :
  (AgentOrchestrator.generate_petition example_full 0 (World [ {[ "fatos" := "F" ]} ] [])).1
  = Raise (ValueError (NoGeneratorForType "")) ∧
  (AgentOrchestrator.generate_petition example_untyped 0 (World [ {[ "fatos" := "F" ]} ] [])).1
  ≠ Raise (ValueError (NoGeneratorForType "")).
Proof.
  assert (Hc : heap (World [ {[ "fatos" := "F" ]} ] []) !! 0
               = Some ({[ "fatos" := "F" ]} : dict)) by reflexivity.
  assert (Hno : ({[ "fatos" := "F" ]} : dict) !! "tipo" = None) by reflexivity.
  split.
  - destruct (C10_missing_tipo example_full 0 _ _ _ _ Hc Hno (surjective_pairing _))
      as (evs & _ & _ & _ & [_ Hiff] & _).
    apply Hiff. reflexivity.
  - destruct (C10_missing_tipo example_untyped 0 _ _ _ _ Hc Hno (surjective_pairing _))
      as (evs & _ & _ & _ & [Hiff _] & _).
    intros E. apply Hiff in E. vm_compute in E. discriminate E.
Defined.

Ltac stage_lookup :=
  unfold assigned; cbn [zip zip_with foldl fst snd];
  repeat (rewrite lookup_insert_ne by discriminate);
  first [apply lookup_insert_eq | apply lookup_empty].

Lemma reviewed_none self (l : list string) :
  (∀ ty, ty ∈ l → binding self "reviewer" ty = None) → reviewed self l = [].
Proof.
  intros H. induction l as [|ty l IH]; [done|]. unfold reviewed.
  rewrite filter_cons_False.
  - apply IH. intros ty' Hty'. apply H. by right.
  - rewrite has_reviewer_false; [by intros []|]. apply H. by left.
Qed.

Lemma reviewed_all self (l : list string) :
  (∀ ty, ty ∈ l → is_Some (binding self "reviewer" ty)) → reviewed self l = l.
Proof.
  intros H. induction l as [|ty l IH]; [done|]. unfold reviewed.
  rewrite filter_cons_True.
  - f_equal. apply IH. intros ty' Hty'. apply H. by right.
  - destruct (H ty) as [model Hm]; [by left|]. by rewrite (has_reviewer_true _ _ model).
Qed.

(** C1: a run that returns has entered the stages 1 to 5 in this order and
    queried the catalog for the generator of the petition type and then for
    the reviewers [gramatica], [juridico], [linguagem], [formatacao]; the
    agents it started are the generator followed by the bound reviewers in
    that order; and [final] holds the text returned by the last agent
    started: the generator's when no reviewer is bound, the [formatacao]
    reviewer's when all four are. *)
Theorem C1_stage_order_and_final (self : AgentOrchestrator.t) (context : loc)
    (w : world) (given : dict) (results : loc) (w' : world) :
  heap w !! context = Some given →
  AgentOrchestrator.generate_petition self context w = (Ok results, w') →
  ∃ evs stage_results final_text,
    trace w' = trace w ++ evs ∧
    stages evs = [1; 2; 3; 4; 5] ∧
    queries evs = [ ("generator", default "" (given !! "tipo"));
                    ("reviewer", "gramatica"); ("reviewer", "juridico");
                    ("reviewer", "linguagem"); ("reviewer", "formatacao") ] ∧
    agents evs = (GeneratorAgent_cls, default "" (given !! "tipo"))
                 :: (pair ReviewerAgent_cls <$> reviewed self reviewer_order) ∧
    length (outputs evs) = length (agents evs) ∧
    last (outputs evs) = Some final_text ∧
    heap w' !! results = Some stage_results ∧
    stage_results !! "final" = Some final_text ∧
    ((∀ ty, ty ∈ reviewer_order → binding self "reviewer" ty = None) →
     agents evs = [(GeneratorAgent_cls, default "" (given !! "tipo"))] ∧
     outputs evs = [final_text] ∧
     stage_results !! "original" = Some final_text) ∧
    ((∀ ty, ty ∈ reviewer_order → is_Some (binding self "reviewer" ty)) →
     agents evs = [ (GeneratorAgent_cls, default "" (given !! "tipo"));
                    (ReviewerAgent_cls, "gramatica"); (ReviewerAgent_cls, "juridico");
                    (ReviewerAgent_cls, "linguagem"); (ReviewerAgent_cls, "formatacao") ] ∧
     (∃ original grammar legal language,
         outputs evs = [original; grammar; legal; language; final_text]) ∧
     stage_results !! "formatacao" = Some final_text).
Proof.
  intros Hc Hrun.
  pose proof (generate_petition_run self context w given Hc) as H. cbv zeta in H.
  rewrite Hrun in H. destruct H as (-> & _ & evs & final_text & Htr & _ & Hres & P).
  destruct P as [Pq Ps Pa Pc Pl Pn Pm Pr].
  eexists evs, _, final_text.
  split; [done|]. split; [done|]. split; [done|]. split; [done|].
  split; [by rewrite Pa, Pn, length_cons, length_fmap|].
  split; [done|]. split; [exact Hres|]. split; [apply lookup_insert_eq|].
  split.
  - intros Hnone. rewrite (reviewed_none _ _ Hnone) in *. cbn in Pn.
    destruct (outputs evs) as [|text [|? ?]]; try done.
    cbn in Pl. injection Pl as ->.
    split; [done|]. split; [done|]. stage_lookup.
  - intros Hall. rewrite (reviewed_all _ _ Hall) in *. cbn in Pn.
    destruct (outputs evs) as [|original [|grammar [|legal [|language [|text [|? ?]]]]]];
      try done.
    cbn in Pl. injection Pl as ->.
    split; [done|]. split; [by eexists _, _, _, _|]. stage_lookup.
Qed.

(** Facts about the example inputs, by evaluation. *)
Lemma example_context_stored : heap example_world !! 0 = Some example_context.
Proof. reflexivity. Qed.

Lemma example_full_returns :
  AgentOrchestrator.generate_petition example_full 0 example_world
  = (Ok 1, (AgentOrchestrator.generate_petition example_full 0 example_world).2).
Proof. vm_compute. reflexivity. Qed.

Lemma example_full_reviewers ty :
  ty ∈ reviewer_order → is_Some (binding example_full "reviewer" ty).
Proof.
  intros Hty. unfold reviewer_order in Hty.
  repeat (apply elem_of_cons in Hty as [->|Hty]; [eexists; vm_compute; reflexivity|]).
  by apply elem_of_nil in Hty.
Qed.

Lemma C1_stage_order_and_final_witness :
  ∃ stage_results final_text,
    heap (AgentOrchestrator.generate_petition example_full 0 example_world).2 !! 1
    = Some stage_results ∧
    stage_results !! "final" = Some final_text ∧
    stage_results !! "formatacao" = Some final_text.
Proof.
  destruct (C1_stage_order_and_final example_full 0 example_world example_context 1 _
              example_context_stored example_full_returns)
    as (evs & stage_results & final_text & _ & _ & _ & _ & _ & _ & Hres & Hf & _ & Hfmt).
  exists stage_results, final_text. split; [exact Hres|]. split; [exact Hf|].
  apply Hfmt. exact example_full_reviewers.
Defined.

(** C2: with a generator and the reviewers [gramatica], [linguagem] and
    [formatacao] bound but no [juridico] reviewer, a run either ends with an
    exception raised by one of its agents' [generate], or returns results
    whose keys are exactly [original], [gramatica], [linguagem],
    [formatacao] and [final]; then [final] is the [formatacao] reviewer's
    text, and the [linguagem] reviewer was given the [gramatica] reviewer's
    text, the skipped stage having left the latest text as it was. *)
Theorem C2_skip_juridico (self : AgentOrchestrator.t) (context : loc) (w : world)
    (given : dict) (r : result loc) (w' : world) :
  heap w !! context = Some given →
  is_Some (binding self "generator" (default "" (given !! "tipo"))) →
  is_Some (binding self "reviewer" "gramatica") →
  binding self "reviewer" "juridico" = None →
  is_Some (binding self "reviewer" "linguagem") →
  is_Some (binding self "reviewer" "formatacao") →
  AgentOrchestrator.generate_petition self context w = (r, w') →
  match r with
  | Ok results =>
      ∃ evs stage_results original grammar language formatted,
        trace w' = trace w ++ evs ∧
        agents evs = [ (GeneratorAgent_cls, default "" (given !! "tipo"));
                       (ReviewerAgent_cls, "gramatica"); (ReviewerAgent_cls, "linguagem");
                       (ReviewerAgent_cls, "formatacao") ] ∧
        outputs evs = [original; grammar; language; formatted] ∧
        contexts evs = [ given;
                         review_context (default "" (given !! "tipo")) original;
                         review_context (default "" (given !! "tipo")) grammar;
                         review_context (default "" (given !! "tipo")) language ] ∧
        heap w' !! results = Some stage_results ∧
        dom stage_results
        = {[ "original"; "gramatica"; "linguagem"; "formatacao"; "final" ]} ∧
        stage_results !! "juridico" = None ∧
        stage_results !! "original" = Some original ∧
        stage_results !! "gramatica" = Some grammar ∧
        stage_results !! "linguagem" = Some language ∧
        stage_results !! "formatacao" = Some formatted ∧
        stage_results !! "final" = Some formatted
  | Raise e =>
      (∀ petition_type, e ≠ ValueError (NoGeneratorForType petition_type)) ∧
      ∃ agent given_to w1, PetitionAgent.generate agent given_to w1 = (Raise e, w')
  end.
Proof.
  intros Hc Hgen [mg Hg] Hj [ml Hl] [mf Hf] Hrun.
  pose proof (generate_petition_run self context w given Hc) as H. cbv zeta in H.
  rewrite Hrun in H. destruct r as [results|e].
  - destruct H as (-> & _ & evs & final_text & Htr & _ & Hres & P).
    destruct P as [Pq Ps Pa Pc Pl Pn Pm Pr].
    assert (reviewed self reviewer_order = ["gramatica"; "linguagem"; "formatacao"])
      as Hrev.
    { unfold reviewed, reviewer_order.
      rewrite filter_cons_True by by rewrite (has_reviewer_true _ _ _ Hg).
      rewrite filter_cons_False by (rewrite (has_reviewer_false _ _ Hj); by intros []).
      rewrite filter_cons_True by by rewrite (has_reviewer_true _ _ _ Hl).
      by rewrite filter_cons_True by by rewrite (has_reviewer_true _ _ _ Hf). }
    rewrite Hrev in *. cbn in Pn.
    destruct (outputs evs) as [|original [|grammar [|language [|formatted [|? ?]]]]]
      eqn:Eo; try done.
    cbn in Pl. injection Pl as ->.
    cbn [fmap list_fmap] in Pc.
    apply (app_inj_tail (contexts evs)
             [ given;
               review_context (default "" (given !! "tipo")) original;
               review_context (default "" (given !! "tipo")) grammar;
               review_context (default "" (given !! "tipo")) language ]) in Pc as [Pc _].
    eexists evs, _, original, grammar, language, final_text.
    split; [done|]. split; [done|]. split; [done|]. split; [done|].
    split; [exact Hres|].
    split.
    { unfold assigned. cbn [zip zip_with foldl fst snd].
      rewrite !dom_insert_L, dom_empty_L. set_solver. }
    repeat split; stage_lookup.
  - destruct H as [(Hb & _)|(_ & visited & _ & evs & _ & _ & _ & _ & _ & _ & _ & He & Hgen')].
    { rewrite Hb in Hgen. by destruct Hgen. }
    split; [|done].
    intros petition_type ->. destruct (agent_exception _ He) as (_ & Hnogen & _).
    by destruct (Hnogen petition_type).
Qed.

(** Facts about the second example, by evaluation. *)
Lemma example_no_juridico_generator :
  is_Some (binding example_no_juridico "generator"
             (default "" (example_context !! "tipo"))).
Proof. eexists. vm_compute. reflexivity. Qed.

Lemma example_no_juridico_reviewers :
  is_Some (binding example_no_juridico "reviewer" "gramatica") ∧
  binding example_no_juridico "reviewer" "juridico" = None ∧
  is_Some (binding example_no_juridico "reviewer" "linguagem") ∧
  is_Some (binding example_no_juridico "reviewer" "formatacao").
Proof. repeat split; try (eexists; vm_compute; reflexivity). Qed.

Lemma example_no_juridico_returns :
  AgentOrchestrator.generate_petition example_no_juridico 0 example_world
  = (Ok 1, (AgentOrchestrator.generate_petition example_no_juridico 0 example_world).2).
Proof. vm_compute. reflexivity. Qed.

Lemma C2_skip_juridico_witness :
  ∃ stage_results,
    heap (AgentOrchestrator.generate_petition example_no_juridico 0 example_world).2 !! 1
    = Some stage_results ∧
    dom stage_results = {[ "original"; "gramatica"; "linguagem"; "formatacao"; "final" ]} ∧
    stage_results !! "final" = stage_results !! "formatacao".
Proof.
  destruct example_no_juridico_reviewers as (Hg & Hj & Hl & Hf).
  destruct (C2_skip_juridico example_no_juridico 0 example_world example_context _ _
              example_context_stored example_no_juridico_generator Hg Hj Hl Hf
              example_no_juridico_returns)
    as (evs & stage_results & o & g & l & f & _ & _ & _ & _ & Hres & Hdom & _ & _ & _ & _
        & Hfmt & Hfin).
  exists stage_results. split; [exact Hres|]. split; [exact Hdom|].
  by rewrite Hfmt, Hfin.
Defined.

(** * The catalog, the client and the setup script *)

(** ** The catalog *)

Lemma next_id_above (ids : list Z) (i : Z) : i ∈ ids → (i < next_id ids)%Z.
Proof.
  unfold next_id. induction ids as [|j ids IH]; [by intros ?%elem_of_nil|].
  intros [->|H]%elem_of_cons; cbn [foldr]; [lia|]. specialize (IH H). lia.
Qed.

Lemma filter_none_nil {A} (P : A → Prop) `{∀ x, Decision (P x)} (l : list A) :
  (∀ x, x ∈ l → ¬ P x) → filter P l = [].
Proof.
  intros Hnone. induction l as [|x l IH]; [done|].
  rewrite filter_cons_False by (apply Hnone; by left).
  apply IH. intros y Hy. apply Hnone. by right.
Qed.

Lemma head_app_snoc {A} (l : list A) (x : A) :
  head (l ++ [x]) = match head l with Some y => Some y | None => Some x end.
Proof. by destruct l. Qed.

(** X1: the id that [add_agent_model] returns is new, and [get_agent_model]
    on it gives back the row with the inserted values; the rows under
    every other id are found as before. *)
Theorem X1_add_then_get_by_id (self : DatabaseManager.t) (name description model_id
    agent_type specialty : string) (prompt_template : template) (now : string) :
  let '(id, self') := add_agent_model self name description model_id agent_type
                        specialty prompt_template now in
  (∀ row, row ∈ DatabaseManager.agent_models self → (am_id row < id)%Z) ∧
  get_agent_model self' id
  = Some (inserted_agent_model id name description model_id agent_type specialty
            prompt_template now) ∧
  get_agent_model self id = None ∧
  ∀ other, other ≠ id → get_agent_model self' other = get_agent_model self other.
Proof.
  cbn. set (id := next_id _).
  assert (Hfresh : ∀ row, row ∈ DatabaseManager.agent_models self → (am_id row < id)%Z).
  { intros row Hrow. apply next_id_above. by apply list_elem_of_fmap_2. }
  assert (Hnone : filter (λ row, am_id row = id) (DatabaseManager.agent_models self) = []).
  { apply filter_none_nil. intros row Hrow. specialize (Hfresh row Hrow). lia. }
  split; [done|]. unfold get_agent_model. cbn [DatabaseManager.agent_models].
  split; [|split].
  - rewrite filter_app, Hnone. cbn [app]. by rewrite filter_cons_True.
  - by rewrite Hnone.
  - intros other Hother. rewrite filter_app.
    rewrite (filter_cons_False _ _ []) by (cbn; congruence).
    by rewrite app_nil_r.
Qed.

(** X2: [add_agent_model] never replaces a binding.  After it, the query by
    role and specialty answers with the row it answered with before when
    there was one for the inserted pair, and with the new row only when
    there was none; for every other pair the selection is as before. *)
Theorem X2_add_keeps_first_binding (self : DatabaseManager.t) (name description
    model_id agent_type specialty : string) (prompt_template : template)
    (now : string) :
  let '(id, self') := add_agent_model self name description model_id agent_type
                        specialty prompt_template now in
  head (DatabaseManager.select self' agent_type specialty)
  = match head (DatabaseManager.select self agent_type specialty) with
    | Some earlier => Some earlier
    | None => Some (inserted_agent_model id name description model_id agent_type
                      specialty prompt_template now)
    end ∧
  ∀ agent_type' specialty',
    ¬ (agent_type' = agent_type ∧ specialty' = specialty) →
    DatabaseManager.select self' agent_type' specialty'
    = DatabaseManager.select self agent_type' specialty'.
Proof.
  cbn. unfold DatabaseManager.select. cbn [DatabaseManager.agent_models]. split.
  - rewrite filter_app, (filter_cons_True _ _ []) by done. apply head_app_snoc.
  - intros agent_type' specialty' Hne. rewrite filter_app.
    rewrite (filter_cons_False _ _ []) by (cbn; intros [<- <-]; by apply Hne).
    by rewrite app_nil_r.
Qed.

Lemma truthy_Some (value : option string) :
  truthy value = true → ∃ s, value = Some s ∧ s ≠ "".
Proof. destruct value as [[|a s]|]; try done. intros _. by eexists. Qed.

Lemma get_agent_models_filter (self : DatabaseManager.t)
    (agent_type specialty : option string) :
  get_agent_models self agent_type specialty
  = filter (λ row, (truthy agent_type = true → Some (am_type row) = agent_type) ∧
                   (truthy specialty = true → Some (am_specialty row) = specialty))
           (DatabaseManager.agent_models self).
Proof.
  unfold get_agent_models. apply list_filter_iff. intros row.
  destruct agent_type as [[|a t]|], specialty as [[|b s]|]; cbn;
    rewrite ?andb_true_r, ?Is_true_true, ?andb_true_iff, ?bool_decide_eq_true,
      ?Is_true_true, ?bool_decide_eq_true;
    intuition congruence.
Qed.

(** X3: [get_agent_models] returns, in table order, the rows that agree
    with each argument that is neither [None] nor the empty string; an
    empty string filters nothing.  With both arguments non-empty it is the
    selection of which [get_agent_model_by_specialty] returns the first
    row. *)
Theorem X3_get_agent_models_filters (self : DatabaseManager.t)
    (agent_type specialty : option string) :
  get_agent_models self agent_type specialty
  = filter (λ row, (truthy agent_type = true → Some (am_type row) = agent_type) ∧
                   (truthy specialty = true → Some (am_specialty row) = specialty))
           (DatabaseManager.agent_models self) ∧
  get_agent_models self (Some "") specialty = get_agent_models self None specialty ∧
  get_agent_models self agent_type (Some "") = get_agent_models self agent_type None ∧
  get_agent_models self None None = DatabaseManager.agent_models self ∧
  ∀ t s, t ≠ "" → s ≠ "" →
    get_agent_models self (Some t) (Some s) = DatabaseManager.select self t s.
Proof.
  split; [|split; [|split; [|split]]].
  - apply get_agent_models_filter.
  - done.
  - unfold get_agent_models. by destruct agent_type as [[|a t]|].
  - unfold get_agent_models. cbn. induction (DatabaseManager.agent_models self); [done|].
    rewrite filter_cons_True by done. by f_equal.
  - intros t s Ht Hs. unfold get_agent_models, DatabaseManager.select.
    destruct t as [|a t], s as [|b s]; try done. cbn.
    apply list_filter_iff. intros row. cbn.
    rewrite andb_true_r, Is_true_true, andb_true_iff, !bool_decide_eq_true. done.
Qed.

(** X4: after [add_agent_model], a listing holds what it held before,
    followed by the new row when that row passes the listing's filters. *)
Theorem X4_add_extends_listing (self : DatabaseManager.t) (name description model_id
    agent_type specialty : string) (prompt_template : template) (now : string)
    (by_type by_specialty : option string) :
  let '(id, self') := add_agent_model self name description model_id agent_type
                        specialty prompt_template now in
  get_agent_models self' by_type by_specialty
  = get_agent_models self by_type by_specialty
    ++ (if bool_decide ((truthy by_type = true → by_type = Some agent_type) ∧
                        (truthy by_specialty = true → by_specialty = Some specialty))
        then [inserted_agent_model id name description model_id agent_type specialty
                prompt_template now]
        else []).
Proof.
  lazy beta iota zeta delta [add_agent_model].
  set (id := next_id _). set (new := inserted_agent_model _ _ _ _ _ _ _ _).
  rewrite !get_agent_models_filter.
  cbn [DatabaseManager.agent_models]. rewrite filter_app. f_equal.
  case_bool_decide as Hd.
  - rewrite filter_cons_True; [done|]. cbn. destruct Hd as [H1 H2].
    split; intros Ht; [by rewrite H1|by rewrite H2].
  - rewrite filter_cons_False; [done|]. cbn. intros [H1 H2]. apply Hd.
    split; intros Ht; [by rewrite <- H1|by rewrite <- H2].
Qed.

(** ** The table of petitions *)

Lemma head_filter_fmap {A} (P : A → Prop) `{∀ x, Decision (P x)} (f : A → A) (l : list A) :
  (∀ x, P (f x) ↔ P x) → head (filter P (f <$> l)) = f <$> head (filter P l).
Proof.
  intros Hf. induction l as [|x l IH]; [done|]. cbn [fmap list_fmap].
  destruct (decide (P x)) as [Hx|Hx].
  - rewrite !filter_cons_True by by rewrite ?Hf. done.
  - rewrite !filter_cons_False by by rewrite ?Hf. done.
Qed.

(** X5: [get_petition] on the id that [add_petition] returns gives back the
    inserted values, with status ['draft'] and no generated, reviewed or
    final text yet; the petitions under other ids are found as before. *)
Theorem X5_add_petition_then_get (petitions : list Petition) (title client_id
    petition_type_id facts arguments requests now : string) :
  let '(id, petitions') := add_petition petitions title client_id petition_type_id
                             facts arguments requests now in
  get_petition petitions id = None ∧
  (∃ row, get_petition petitions' id = Some row ∧
     p_id row = id ∧ p_title row = title ∧ p_client_id row = Some client_id ∧
     p_petition_type_id row = Some petition_type_id ∧ p_status row = Some "draft" ∧
     p_facts row = Some facts ∧ p_arguments row = Some arguments ∧
     p_requests row = Some requests ∧ p_generated_text row = None ∧
     p_reviewed_text row = None ∧ p_final_text row = None ∧
     p_final_document_path row = None) ∧
  ∀ other, other ≠ id → get_petition petitions' other = get_petition petitions other.
Proof.
  lazy beta iota zeta delta [add_petition]. set (id := next_id _).
  assert (Hnone : filter (λ row, p_id row = id) petitions = []).
  { apply filter_none_nil. intros row Hrow.
    assert (p_id row < id)%Z by (apply next_id_above; by apply list_elem_of_fmap_2).
    lia. }
  unfold get_petition. split; [by rewrite Hnone|]. split.
  - rewrite filter_app, Hnone. cbn [app]. rewrite filter_cons_True by done.
    eexists. split; [reflexivity|]. by repeat split.
  - intros other Hother. rewrite filter_app.
    rewrite (filter_cons_False _ _ []) by (cbn; congruence).
    by rewrite app_nil_r.
Qed.

Lemma fmap_absent_id (petitions : list Petition) (petition_id : Z) (g : Petition → Petition) :
  get_petition petitions petition_id = None →
  (λ row, if decide (p_id row = petition_id) then g row else row) <$> petitions
  = petitions.
Proof.
  unfold get_petition. intros Hnone. induction petitions as [|row rows IH]; [done|].
  cbn [fmap list_fmap]. destruct (decide (p_id row = petition_id)) as [Hid|Hid].
  - by rewrite filter_cons_True in Hnone.
  - rewrite filter_cons_False in Hnone by done. by rewrite (IH Hnone).
Qed.

(** X6: [update_petition] returns [False] exactly when every optional
    argument is [None], and then the table is as before; with an id that no
    row has it still returns [True] when an argument is given, and the
    table is as before too. *)
Theorem X6_update_petition_no_effect (petitions : list Petition) (petition_id : Z)
    (generated_text reviewed_text final_text final_document_path status : option string)
    (now : string) :
  let '(changed, petitions') :=
    update_petition petitions petition_id generated_text reviewed_text final_text
      final_document_path status now in
  (changed = false ↔
   generated_text = None ∧ reviewed_text = None ∧ final_text = None ∧
   final_document_path = None ∧ status = None) ∧
  (changed = false → petitions' = petitions) ∧
  (get_petition petitions petition_id = None → petitions' = petitions).
Proof.
  unfold update_petition.
  destruct generated_text, reviewed_text, final_text, final_document_path, status;
    cbn [app];
    repeat split; try done; try (by intros (? & ? & ? & ? & ?));
    apply fmap_absent_id.
Qed.

(** X7: after [update_petition], [get_petition] on that id gives the row it
    gave before with each given column replaced, [updated_at] set to the
    time of the update and every other column as it was; a column given as
    the empty string is replaced by the empty string; petitions under other
    ids are as before. *)
Theorem X7_update_petition_then_get (petitions : list Petition) (petition_id : Z)
    (generated_text reviewed_text final_text final_document_path status : option string)
    (now : string) :
  let '(changed, petitions') :=
    update_petition petitions petition_id generated_text reviewed_text final_text
      final_document_path status now in
  changed = true →
  (∀ row, get_petition petitions petition_id = Some row →
     ∃ row', get_petition petitions' petition_id = Some row' ∧
       p_generated_text row' = default (p_generated_text row) (Some <$> generated_text) ∧
       p_reviewed_text row' = default (p_reviewed_text row) (Some <$> reviewed_text) ∧
       p_final_text row' = default (p_final_text row) (Some <$> final_text) ∧
       p_final_document_path row'
       = default (p_final_document_path row) (Some <$> final_document_path) ∧
       p_status row' = default (p_status row) (Some <$> status) ∧
       p_updated_at row' = Some now ∧
       p_id row' = p_id row ∧ p_title row' = p_title row ∧
       p_client_id row' = p_client_id row ∧
       p_petition_type_id row' = p_petition_type_id row ∧
       p_facts row' = p_facts row ∧ p_arguments row' = p_arguments row ∧
       p_requests row' = p_requests row ∧ p_created_at row' = p_created_at row) ∧
  (∀ other, other ≠ petition_id →
     get_petition petitions' other = get_petition petitions other) ∧
  length petitions' = length petitions.
Proof.
  unfold update_petition.
  set (f := λ row, if decide (p_id row = petition_id) then _ else row).
  assert (Hid : ∀ row, p_id (f row) = p_id row).
  { intros row. unfold f. by case_decide. }
  destruct (_ ++ _) as [|? ?] eqn:E; [done|]. intros _. clear E.
  split; [|split].
  - intros row Hrow. unfold get_petition in *.
    rewrite head_filter_fmap by (intros x; by rewrite Hid). rewrite Hrow. cbn.
    eexists. split; [reflexivity|].
    assert (p_id row = petition_id) as Hrid.
    { apply head_Some_elem_of in Hrow. by apply list_elem_of_filter in Hrow as [? _]. }
    unfold f. rewrite decide_True by done. unfold updated. cbn.
    by destruct generated_text, reviewed_text, final_text, final_document_path, status.
  - intros other Hother. unfold get_petition.
    rewrite head_filter_fmap by (intros x; by rewrite Hid).
    destruct (head _) as [row|] eqn:Hrow; [|done]. cbn. f_equal.
    apply head_Some_elem_of in Hrow. apply list_elem_of_filter in Hrow as [Hrow _].
    unfold f. rewrite decide_False; [done|congruence].
  - apply length_fmap.
Qed.

Lemma X7_update_petition_then_get_witness :
  ∃ row', get_petition
            (update_petition
               (add_petition [] "Recurso" "cliente-1" "recurso_administrativo"
                  "fatos" "argumentos" "pedidos" "2025-01-01").2
               1 (Some "texto gerado") None None None (Some "") "2025-01-02").2 1
          = Some row' ∧
          p_generated_text row' = Some "texto gerado" ∧ p_status row' = Some "" ∧
          p_title row' = "Recurso".
Proof.
  pose proof (X7_update_petition_then_get
                (add_petition [] "Recurso" "cliente-1" "recurso_administrativo"
                   "fatos" "argumentos" "pedidos" "2025-01-01").2
                1 (Some "texto gerado") None None None (Some "") "2025-01-02") as H.
  cbv beta iota zeta delta [update_petition app] in H.
  destruct (H eq_refl) as [Hget _].
  destruct (Hget _ eq_refl) as (row' & Hrow' & Hg & _ & _ & _ & Hs & _ & _ & Ht & _).
  exists row'. split; [exact Hrow'|]. split; [exact Hg|]. split; [exact Hs|exact Ht].
Defined.

(** ** The Together client *)

Lemma first_choice_text_single (content : string) :
  PetitionAgent.first_choice_text {[ "choices" := [ {[ "text" := content ]} ] ]}
  = Ok content.
Proof.
  unfold PetitionAgent.first_choice_text. rewrite lookup_singleton_eq.
  cbn [from_option id]. by rewrite lookup_singleton_eq.
Qed.

(** X8: [generate_text] returns a response exactly when the POST is
    answered with status 200 and a body that decodes and has a first
    choice with a message with a content.  The response it builds has
    exactly one choice, whose key [text] holds that content, so that the
    extraction in [generate] gives back the content and neither of its
    defaults applies.  In every other case [generate_text] raises, after
    its handler has logged the exception, and the exception keeps its
    class: it is the [IndexError] exactly when the body has an empty list
    of choices, a [KeyError] only for [choices], [message] or [content],
    and the status exception exactly when the status is not 200. *)
Theorem X8_generate_text_outcomes (api_key : string) (net : network)
    (history : list call) (model prompt : string) (max_tokens : Z)
    (temperature top_p : Q) (top_k : Z) (repetition_penalty : Q) :
  let request := completion_request api_key model prompt max_tokens temperature
                   top_p top_k repetition_penalty in
  let outcome := together_generate_text api_key net history model prompt max_tokens
                   temperature top_p top_k repetition_penalty in
  (∀ response,
     outcome.1 = inr response ↔
     ∃ r result first rest message content,
       post net history request = Responded r ∧ status_code r = 200%Z ∧
       json r = Some result ∧ result !! "choices" = Some (first :: rest) ∧
       first !! "message" = Some message ∧ message !! "content" = Some content ∧
       response = {[ "choices" := [ {[ "text" := content ]} ] ]}) ∧
  (∀ response,
     outcome.1 = inr response →
     outcome.2 = [] ∧
     ∃ content, response !! "choices" = Some [ {[ "text" := content ]} ] ∧
                PetitionAgent.first_choice_text response = Ok content) ∧
  (∀ e,
     outcome.1 = inl e →
     last outcome.2 = Some ("Erro ao gerar texto: " +:+ describe e) ∧
     (e = ResultIndexError ↔
      ∃ r result, post net history request = Responded r ∧ status_code r = 200%Z ∧
                  json r = Some result ∧ result !! "choices" = Some []) ∧
     (∀ status, e = StatusException status ↔
                status ≠ 200%Z ∧
                ∃ r, post net history request = Responded r ∧ status_code r = status) ∧
     (∀ key, e = ResultKeyError key →
             key = "choices" ∨ key = "message" ∨ key = "content")).
Proof.
  intros request outcome. subst outcome. unfold together_generate_text.
  fold request. destruct (post net history request) as [r|cause] eqn:Ep.
  2: { cbn [fst snd]. split; [|split].
       - intros response. split; [done|]. by intros (? & ? & ? & ? & ? & ? & [=] & _).
       - done.
       - intros e [= <-]. split; [done|]. split; [|split].
         + split; [done|]. by intros (? & ? & [=] & _).
         + intros status. split; [done|]. by intros (_ & ? & [=] & _).
         + done. }
  destruct (decide (status_code r ≠ 200%Z)) as [Hs|Hs].
  { cbn [fst snd]. split; [|split].
    - intros response. split; [done|].
      intros (? & ? & ? & ? & ? & ? & [= <-] & ? & _). done.
    - done.
    - intros e [= <-]. split; [done|]. split; [|split].
      + split; [done|]. intros (? & ? & [= <-] & ? & _). done.
      + intros status. split.
        * intros [= <-]. split; [done|]. by exists r.
        * intros (_ & ? & [= <-] & <-). done.
      + done. }
  apply dec_stable in Hs.
  destruct (json r) as [result|] eqn:Ej.
  2: { cbn [fst snd]. split; [|split].
       - intros response. split; [done|].
         intros (? & ? & ? & ? & ? & ? & [= <-] & ? & ? & _). congruence.
       - done.
       - intros e [= <-]. split; [done|]. split; [|split].
         + split; [done|]. intros (? & ? & [= <-] & ? & ? & _). congruence.
         + intros status. split; [done|]. intros (Hne & ? & [= <-] & <-). done.
         + done. }
  unfold message_content.
  destruct (result !! "choices") as [[|first rest]|] eqn:Ec.
  - cbn [fst snd]. split; [|split].
    + intros response. split; [done|].
      intros (? & ? & ? & ? & ? & ? & [= <-] & ? & ? & ? & _). congruence.
    + done.
    + intros e [= <-]. split; [done|]. split; [|split].
      * split; [|done]. intros _. by exists r, result.
      * intros status. split; [done|]. intros (Hne & ? & [= <-] & <-). done.
      * done.
  - destruct (first !! "message") as [message|] eqn:Em.
    + destruct (message !! "content") as [content|] eqn:Et.
      * cbn [fst snd]. split; [|split].
        -- intros response. split.
           ++ intros [= <-]. by exists r, result, first, rest, message, content.
           ++ intros (? & ? & ? & ? & ? & ? & [= <-] & ? & ? & ? & ? & ? & ->).
              repeat f_equal. congruence.
        -- intros response [= <-]. split; [done|]. exists content.
           split; [apply lookup_singleton_eq|apply first_choice_text_single].
        -- done.
      * cbn [fst snd]. split; [|split].
        -- intros response. split; [done|].
           intros (? & ? & ? & ? & ? & ? & [= <-] & ? & ? & ? & ? & ? & _).
           congruence.
        -- done.
        -- intros e [= <-]. split; [done|]. split; [|split].
           ++ split; [done|]. intros (? & ? & [= <-] & ? & ? & ?). congruence.
           ++ intros status. split; [done|]. intros (Hne & ? & [= <-] & <-). done.
           ++ intros key [= <-]. auto.
    + cbn [fst snd]. split; [|split].
      * intros response. split; [done|].
        intros (? & ? & ? & ? & ? & ? & [= <-] & ? & ? & ? & ? & _). congruence.
      * done.
      * intros e [= <-]. split; [done|]. split; [|split].
        -- split; [done|]. intros (? & ? & [= <-] & ? & ? & ?). congruence.
        -- intros status. split; [done|]. intros (Hne & ? & [= <-] & <-). done.
        -- intros key [= <-]. auto.
  - cbn [fst snd]. split; [|split].
    + intros response. split; [done|].
      intros (? & ? & ? & ? & ? & ? & [= <-] & ? & ? & ? & _). congruence.
    + done.
    + intros e [= <-]. split; [done|]. split; [|split].
      * split; [done|]. intros (? & ? & [= <-] & ? & ? & ?). congruence.
      * intros status. split; [done|]. intros (Hne & ? & [= <-] & <-). done.
      * intros key [= <-]. auto.
Qed.

(** ** More on the pipeline *)

(** X9: what leaves [generate_petition] as an exception is the
    no-generator error, raised exactly when the catalog has no generator
    for the petition type, or else what the [generate] of one of its
    agents raised: the incomplete-context error, which stands for the
    [KeyError] of a missing keyword; another exception of [str.format],
    which [_format_prompt] does not catch, as the [ValueError] for markup
    that is not valid or the [IndexError] for a positional field; the
    [IndexError] of the text extraction; or the exception raised inside
    the client.  It is never the unsupported-specialty error: an agent
    made from a catalog row always takes the row's template. *)
Theorem X9_pipeline_exceptions (self : AgentOrchestrator.t) (context : loc) (w : world)
    (given : dict) (e : exn) (w' : world) :
  heap w !! context = Some given →
  AgentOrchestrator.generate_petition self context w = (Raise e, w') →
  (e = ValueError (NoGeneratorForType (default "" (given !! "tipo"))) ↔
   binding self "generator" (default "" (given !! "tipo")) = None) ∧
  (e = ValueError (NoGeneratorForType (default "" (given !! "tipo"))) ∨
   (∃ agent given_to w1, PetitionAgent.generate agent given_to w1 = (Raise e, w')) ∧
   ((∃ k, e = ValueError (IncompleteContext k)) ∨
    (∃ raising, e = raised raising ∧ ∀ k, raising ≠ FormatKeyError k) ∨
    e = IndexError ∨ ∃ cause, e = ClientError cause)) ∧
  (∀ specialty, e ≠ ValueError (UnsupportedSpecialty specialty)).
Proof.
  intros Hc Hrun.
  pose proof (generate_petition_run self context w given Hc) as H. cbv zeta in H.
  rewrite Hrun in H.
  destruct H as [(Hb & -> & _)|([model Hb] & visited & _ & evs & _ & _ & _ & _ & _ & _ & _ & He & Hagent)].
  - repeat split; try done. by left.
  - rewrite Hb. destruct (agent_exception e He) as (_ & Hgen & Hsp).
    split; [split; [intros ->; by destruct (Hgen (default "" (given !! "tipo")))|done]|].
    split; [|exact Hsp]. right. split; [exact Hagent|].
    destruct He as [->|[[cause ->]|[[k ->]|?]]]; eauto 6.
Qed.

Lemma X9_pipeline_exceptions_witness :
  (AgentOrchestrator.generate_petition example_full 0 (World [ {[ "fatos" := "F" ]} ] [])).1
  = Raise (ValueError (NoGeneratorForType "")).
Proof.
  assert (Hc : heap (World [ {[ "fatos" := "F" ]} ] []) !! 0
               = Some ({[ "fatos" := "F" ]} : dict)) by reflexivity.
  destruct (AgentOrchestrator.generate_petition example_full 0
              (World [ {[ "fatos" := "F" ]} ] [])) as [[results|e] w'] eqn:Hrun.
  - vm_compute in Hrun. discriminate Hrun.
  - destruct (X9_pipeline_exceptions example_full 0 _ _ e w' Hc Hrun) as [[_ Hiff] _].
    cbn. f_equal. apply Hiff. reflexivity.
Defined.

(** X10: no stage is retried.  A run that returns has sent the client
    exactly one request for each agent it started, the generator and the
    bound reviewers. *)
Theorem X10_one_request_per_stage (self : AgentOrchestrator.t) (context : loc)
    (w : world) (given : dict) (results : loc) (w' : world) :
  heap w !! context = Some given →
  AgentOrchestrator.generate_petition self context w = (Ok results, w') →
  ∃ evs,
    trace w' = trace w ++ evs ∧
    requests (trace w') = requests (trace w) ++ requests evs ∧
    length (requests evs) = length (agents evs) ∧
    length (requests evs) = S (length (reviewed self reviewer_order)) ∧
    (length (reviewed self reviewer_order) ≤ 4)%nat.
Proof.
  intros Hc Hrun.
  pose proof (generate_petition_run self context w given Hc) as H. cbv zeta in H.
  rewrite Hrun in H. destruct H as (_ & _ & evs & final_text & Htr & _ & _ & P).
  destruct P as [Pq Ps Pa Pc Pl Pn Pm Pr].
  exists evs. split; [done|]. split; [by rewrite Htr, requests_app|].
  split; [rewrite Pr, Pn, Pa; cbn [length]; by rewrite length_fmap|].
  split; [by rewrite Pr, Pn|].
  unfold reviewed. etrans; [apply length_filter|]. done.
Qed.

Lemma X10_one_request_per_stage_witness :
  ∃ evs,
    trace (AgentOrchestrator.generate_petition example_no_juridico 0 example_world).2
    = [] ++ evs ∧
    length (requests evs) = 4.
Proof.
  destruct (X10_one_request_per_stage example_no_juridico 0 example_world
              example_context 1 _ example_context_stored example_no_juridico_returns)
    as (evs & Htr & _ & _ & Hn & _).
  exists evs. split; [exact Htr|]. rewrite Hn. vm_compute. reflexivity.
Defined.

(** The pipeline sees the catalog through its five queries only. *)
Lemma generate_petition_by_bindings (self self' : AgentOrchestrator.t) (context : loc)
    (w : world) :
  AgentOrchestrator.ai_client self' = AgentOrchestrator.ai_client self →
  (∀ agent_type specialty,
     binding self' agent_type specialty = binding self agent_type specialty) →
  AgentOrchestrator.generate_petition self' context w
  = AgentOrchestrator.generate_petition self context w.
Proof.
  intros Hclient Hb.
  unfold AgentOrchestrator.generate_petition, AgentOrchestrator._get_generator_model,
    AgentOrchestrator._get_reviewer_model, AgentOrchestrator._create_generator_agent,
    AgentOrchestrator._create_reviewer_agent,
    DatabaseManager.get_agent_model_by_specialty, bind.
  cbn [load log alloc heap trace].
  repeat change (head (DatabaseManager.select (AgentOrchestrator.db_manager ?o) ?a ?s))
    with (binding o a s).
  rewrite Hclient. by rewrite !Hb.
Qed.

Lemma add_agent_model_binding (db : DatabaseManager.t) (name description model_id
    agent_type specialty : string) (prompt_template : template) (now : string)
    (earlier : AgentModel) (agent_type' specialty' : string) :
  head (DatabaseManager.select db agent_type specialty) = Some earlier →
  head (DatabaseManager.select
          (add_agent_model db name description model_id agent_type specialty
             prompt_template now).2 agent_type' specialty')
  = head (DatabaseManager.select db agent_type' specialty').
Proof.
  intros Hearlier. unfold DatabaseManager.select, add_agent_model.
  cbn [snd DatabaseManager.agent_models]. rewrite filter_app.
  destruct (decide (agent_type' = agent_type ∧ specialty' = specialty)) as [[-> ->]|Hne].
  - unfold DatabaseManager.select in Hearlier.
    by destruct (filter _ (DatabaseManager.agent_models db)).
  - rewrite (filter_cons_False _ _ []) by (cbn; intros [<- <-]; by apply Hne).
    by rewrite app_nil_r.
Qed.

(** X11: registering a binding for a role and specialty that already has
    one changes nothing for the pipeline: with the catalog after
    [add_agent_model], [generate_petition] returns the same result and
    leaves the same store and trace as with the catalog before. *)
Theorem X11_duplicate_binding_is_ignored (self : AgentOrchestrator.t)
    (name description model_id agent_type specialty : string)
    (prompt_template : template) (now : string) (context : loc) (w : world) :
  is_Some (binding self agent_type specialty) →
  AgentOrchestrator.generate_petition
    {| AgentOrchestrator.db_manager :=
         (add_agent_model (AgentOrchestrator.db_manager self) name description
            model_id agent_type specialty prompt_template now).2;
       AgentOrchestrator.ai_client := AgentOrchestrator.ai_client self |}
    context w
  = AgentOrchestrator.generate_petition self context w.
Proof.
  intros [earlier Hearlier]. apply generate_petition_by_bindings; [done|].
  intros agent_type' specialty'. unfold binding in *.
  cbn [AgentOrchestrator.db_manager]. by eapply add_agent_model_binding.
Qed.

Lemma generate_answers (self : PetitionAgent.t) (context : loc) (w : world) :
  plain (PetitionAgent.prompt_template self) = true →
  (∀ k, k ∈ fields (PetitionAgent.prompt_template self) →
        is_Some ((heap w !!! context) !! k)) →
  answers (PetitionAgent.ai_client self) →
  ∃ generated_text w', PetitionAgent.generate self context w = (Ok generated_text, w').
Proof.
  intros Hp Hall Hanswers. destruct (format_complete _ _ Hp Hall) as [prompt Ef].
  unfold PetitionAgent.generate, try_except, bind, AITogetherClient.generate_text, lift.
  cbn [load log heap trace].
  rewrite (_format_prompt_ok _ _ _ prompt) by done. cbn [log heap trace].
  match goal with
  | |- context [AITogetherClient.respond ?c ?h ?x] =>
      destruct (Hanswers h x) as (response & text & -> & Ht)
  end.
  rewrite Ht. cbn [log ret heap trace]. by eexists _, _.
Qed.

Lemma review_stage_answers self n review_type petition_type results current_text w :
  (∀ model, binding self "reviewer" review_type = Some model →
            plain (am_prompt_template model) = true) →
  (∀ model k, binding self "reviewer" review_type = Some model →
              k ∈ fields (am_prompt_template model) → k = "tipo" ∨ k = "texto") →
  answers (AgentOrchestrator.ai_client self) →
  ∃ text w', review_stage self n review_type petition_type results current_text w
             = (Ok text, w').
Proof.
  intros Hplain Hfields Hanswers.
  unfold review_stage, bind, AgentOrchestrator._get_reviewer_model,
    DatabaseManager.get_agent_model_by_specialty.
  cbn [log heap trace].
  change (head (DatabaseManager.select _ _ _)) with (binding self "reviewer" review_type).
  destruct (binding self "reviewer" review_type) as [model|] eqn:Eb.
  - unfold AgentOrchestrator._create_reviewer_agent, ReviewerAgent.__init__, bind.
    cbn [ret alloc heap trace].
    match goal with
    | |- context [PetitionAgent.generate ?a ?c ?w0] =>
        destruct (generate_answers a c w0) as (text & w2 & ->)
    end.
    + by apply Hplain.
    + cbn [PetitionAgent.prompt_template heap]. intros k Hk.
      rewrite list_lookup_total_middle by done.
      destruct (Hfields model k eq_refl Hk) as [-> | ->].
      * rewrite lookup_insert_eq. by eexists.
      * rewrite lookup_insert_ne by done. rewrite lookup_singleton_eq. by eexists.
    + done.
    + cbn [store log ret]. by eexists _, _.
  - cbn [log ret]. by eexists _, _.
Qed.

(** With nothing to stop it, a run goes through all its stages. *)
Lemma generate_petition_completes (self : AgentOrchestrator.t) (context : loc) (w : world)
    (given : dict) :
  heap w !! context = Some given →
  is_Some (binding self "generator" (default "" (given !! "tipo"))) →
  plainly_bound self given →
  renderable self given →
  answers (AgentOrchestrator.ai_client self) →
  ∃ results w', AgentOrchestrator.generate_petition self context w = (Ok results, w').
Proof.
  intros Hc [model Hm] [Hpgen Hprev] [Hgen Hrev] Hanswers.
  rewrite <- generate_petition_staged_eq.
  unfold generate_petition_staged, bind. cbn [load log alloc heap trace].
  rewrite (list_lookup_total_correct _ _ _ Hc).
  unfold generate_stage, bind, AgentOrchestrator._get_generator_model,
    DatabaseManager.get_agent_model_by_specialty.
  cbn [log heap trace].
  change (head (DatabaseManager.select _ _ _))
    with (binding self "generator" (default "" (given !! "tipo"))).
  rewrite Hm.
  unfold AgentOrchestrator._create_generator_agent, GeneratorAgent.__init__, bind.
  cbn [ret heap trace].
  match goal with
  | |- context [PetitionAgent.generate ?a ?c ?w0] =>
      destruct (generate_answers a c w0) as (original_text & w1 & ->)
  end.
  { by apply Hpgen. }
  { cbn [PetitionAgent.prompt_template heap]. intros k Hk.
    rewrite lookup_total_app_l by by eapply lookup_lt_Some.
    rewrite (list_lookup_total_correct _ _ _ Hc). by eapply Hgen. }
  { done. }
  cbn [store log ret heap trace].
  repeat match goal with
  | |- context [review_stage ?s ?n ?ty ?pt ?r ?cur ?w0] =>
      destruct (review_stage_answers s n ty pt r cur w0) as (? & ? & ->);
        [intros ?; apply Hprev; unfold reviewer_order; rewrite !elem_of_cons; tauto
        |intros ? ?; apply Hrev; unfold reviewer_order; rewrite !elem_of_cons; tauto
        |exact Hanswers|]
  end.
  unfold finish, bind. cbn [store load log ret]. by eexists _, _.
Qed.





Lemma dom_assigned (kvs : list (string * string)) :
  dom (assigned kvs) = list_to_set kvs.*1.
Proof.
  induction kvs as [|[k v] kvs IH] using rev_ind; [apply dom_empty_L|].
  rewrite assigned_snoc, dom_insert_L, IH, fmap_app, list_to_set_app_L.
  cbn [fmap list_fmap fst list_to_set foldr]. apply set_eq. intros x.
  rewrite !elem_of_union, elem_of_singleton, elem_of_empty. tauto.
Qed.

(** The keys of the results of a run that returns. *)
Lemma generate_petition_result_keys (self : AgentOrchestrator.t) (context : loc)
    (w : world) (given : dict) (results : loc) (w' : world) :
  heap w !! context = Some given →
  AgentOrchestrator.generate_petition self context w = (Ok results, w') →
  ∃ stage_results,
    heap w' !! results = Some stage_results ∧
    dom stage_results
    = {[ "original"; "final" ]} ∪ list_to_set (reviewed self reviewer_order) ∧
    ∀ k, is_Some (stage_results !! k)
         ↔ k = "original" ∨ k = "final" ∨
           (k ∈ reviewer_order ∧ is_Some (binding self "reviewer" k)).
Proof.
  intros Hc Hrun.
  pose proof (generate_petition_run self context w given Hc) as H. cbv zeta in H.
  rewrite Hrun in H. destruct H as (-> & _ & evs & final_text & _ & _ & Hres & P).
  destruct P as [Pq Ps Pa Pc Pl Pn Pm Pr].
  eexists. split; [exact Hres|].
  assert (Hdom : dom (<["final" := final_text]>
                        (assigned (zip ("original" :: reviewed self reviewer_order)
                                       (outputs evs))))
                 = {[ "original"; "final" ]} ∪ list_to_set (reviewed self reviewer_order)).
  { rewrite dom_insert_L, dom_assigned, fst_zip by (cbn [length]; lia).
    cbn [list_to_set foldr]. apply set_eq. intros k.
    rewrite !elem_of_union, !elem_of_singleton. tauto. }
  assert (Hrev : ∀ k, k ∈ reviewed self reviewer_order ↔
                      k ∈ reviewer_order ∧ is_Some (binding self "reviewer" k)).
  { intros k. unfold reviewed. rewrite list_elem_of_filter.
    unfold has_reviewer. rewrite bool_decide_spec. tauto. }
  split; [exact Hdom|].
  intros k. rewrite <- elem_of_dom, Hdom.
  rewrite !elem_of_union, !elem_of_singleton, elem_of_list_to_set, Hrev. tauto.
Qed.

Lemma elem_of_reviewer_order k :
  k ∈ reviewer_order
  ↔ k = "gramatica" ∨ k = "juridico" ∨ k = "linguagem" ∨ k = "formatacao".
Proof. unfold reviewer_order. rewrite !elem_of_cons, elem_of_nil. tauto. Qed.

(** X13: the results of a run that returns have the keys [original] and
    [final] and, of the four reviewer keys, exactly those whose reviewer is
    bound; there is no other key.  In particular there is never a key
    [reviewed] or [formatted], the two that the scripts
    [testar_aitogether.py] and [testar_recurso_inabilitacao.py] read. *)
Theorem X13_result_keys (self : AgentOrchestrator.t) (context : loc) (w : world)
    (given : dict) (results : loc) (w' : world) :
  heap w !! context = Some given →
  AgentOrchestrator.generate_petition self context w = (Ok results, w') →
  ∃ stage_results,
    heap w' !! results = Some stage_results ∧
    dom stage_results
    = {[ "original"; "final" ]} ∪ list_to_set (reviewed self reviewer_order) ∧
    is_Some (stage_results !! "original") ∧
    is_Some (stage_results !! "final") ∧
    (∀ review_type, review_type ∈ reviewer_order →
       (is_Some (stage_results !! review_type) ↔
        is_Some (binding self "reviewer" review_type))) ∧
    (∀ k, is_Some (stage_results !! k) →
          k ∈ ["original"; "gramatica"; "juridico"; "linguagem"; "formatacao"; "final"]) ∧
    stage_results !! "reviewed" = None ∧
    stage_results !! "formatted" = None.
Proof.
  intros Hc Hrun.
  destruct (generate_petition_result_keys self context w given results w' Hc Hrun)
    as (stage_results & Hres & Hdom & Hin).
  exists stage_results. split; [exact Hres|]. split; [exact Hdom|].
  split; [apply Hin; by left|]. split; [apply Hin; right; by left|].
  split.
  { intros ty Hty. rewrite Hin. split; [|by auto].
    apply elem_of_reviewer_order in Hty.
    intros [->|[->|[_ ?]]]; [| |done]; by destruct Hty as [?|[?|[?|?]]]. }
  split.
  { intros k [->|[->|[Hk _]]]%Hin; rewrite !elem_of_cons; [tauto|tauto|].
    apply elem_of_reviewer_order in Hk. tauto. }
  split; apply eq_None_not_Some; intros [H|[H|[H _]]]%Hin; try discriminate H;
    apply elem_of_reviewer_order in H; by destruct H as [?|[?|[?|?]]].
Qed.

Lemma X13_result_keys_witness :
  ∃ stage_results,
    heap (AgentOrchestrator.generate_petition example_full 0 example_world).2 !! 1
    = Some stage_results ∧
    stage_results !! "reviewed" = None ∧ is_Some (stage_results !! "original").
Proof.
  destruct (X13_result_keys example_full 0 example_world example_context 1 _
              example_context_stored example_full_returns)
    as (stage_results & Hres & _ & Ho & _ & _ & _ & Hr & _).
  exists stage_results. split; [exact Hres|]. split; [exact Hr|exact Ho].
Defined.

(** ** The setup script *)

Example title_example :
  title (replace_char underscore space "recurso_administrativo") = "Recurso Administrativo".
Proof. reflexivity. Qed.

Lemma generator_init_builtin client model_id specialty t w :
  GeneratorAgent.templates !! specialty = Some t →
  GeneratorAgent.__init__ client model_id specialty None w
  = (Ok {| PetitionAgent.class_name := GeneratorAgent_cls;
           PetitionAgent.ai_client := client;
           PetitionAgent.model_id := model_id;
           PetitionAgent.prompt_template := t;
           PetitionAgent.specialty := Some specialty |}, w).
Proof.
  intros Ht. unfold GeneratorAgent.__init__, GeneratorAgent._load_specialty_template,
    bind, lift, ret. by rewrite Ht.
Qed.

Lemma reviewer_init_builtin client model_id specialty t w :
  ReviewerAgent.templates !! specialty = Some t →
  ReviewerAgent.__init__ client model_id specialty None w
  = (Ok {| PetitionAgent.class_name := ReviewerAgent_cls;
           PetitionAgent.ai_client := client;
           PetitionAgent.model_id := model_id;
           PetitionAgent.prompt_template := t;
           PetitionAgent.specialty := Some specialty |}, w).
Proof.
  intros Ht. unfold ReviewerAgent.__init__, ReviewerAgent._load_specialty_template,
    bind, lift, ret. by rewrite Ht.
Qed.

Lemma default_generator_templates :
  Forall (λ e, GeneratorAgent.templates !! e_specialty e = Some (e_template e))
         default_generators.
Proof. repeat constructor. Qed.

Lemma default_reviewer_templates :
  Forall (λ e, ReviewerAgent.templates !! e_specialty e = Some (e_template e))
         default_reviewers.
Proof. repeat constructor. Qed.

Lemma script_bind_ok {A B} (m : Script A) (k : A → Script B) s a s' :
  m s = (Ok a, s') → script_bind m k s = k a s'.
Proof. unfold script_bind. by intros ->. Qed.

Lemma for_each_generators client clock (types : list (string * template)) s :
  Forall (λ pt, GeneratorAgent.templates !! pt.1 = Some pt.2) types →
  ∃ lines,
    for_each types.*1
      (λ petition_type,
         temp_agent <- in_agents (GeneratorAgent.__init__ client default_model
                                    petition_type None) ;;;
         script_add_agent_model clock
           ("Gerador de " +:+ title (replace_char underscore space petition_type))
           ("Agente especializado em gerar petições do tipo "
            +:+ title (replace_char underscore space petition_type))
           default_model "generator" petition_type
           (PetitionAgent.prompt_template temp_agent) ;;;
         script_log INFO ("Agente gerador para " +:+ petition_type
                          +:+ " configurado com sucesso!"))%script s
    = (Ok tt,
       Setup (insert_all (catalog s) clock (insertions s)
                ((λ pt, generator_entry pt.1 pt.2) <$> types))
             (agents_world s) (logged s ++ lines) (insertions s + length types)).
Proof.
  intros Htypes. revert s.
  induction Htypes as [|[petition_type t] types Ht _ IH]; intros s.
  - exists []. cbn. rewrite app_nil_r, Nat.add_0_r. by destruct s.
  - cbn [fmap list_fmap fst snd for_each insert_all length] in *.
    lazymatch goal with
    | |- ∃ _, script_bind ?m ?k s = _ =>
        assert (Hbody : ∃ line,
                  m s = (Ok tt,
                         Setup (add_agent_model (catalog s)
                                  (e_name (generator_entry petition_type t))
                                  (e_description (generator_entry petition_type t))
                                  default_model (e_type (generator_entry petition_type t)) petition_type t
                                  (clock (insertions s))).2
                               (agents_world s) (logged s ++ [line])
                               (S (insertions s))))
    end.
    { eexists. unfold script_bind, in_agents.
      rewrite (generator_init_builtin _ _ _ _ _ Ht).
      unfold script_add_agent_model, script_log.
      cbn [catalog agents_world logged insertions PetitionAgent.prompt_template].
      unfold generator_entry, add_agent_model.
      cbn [e_name e_description e_type catalog agents_world logged insertions snd].
      reflexivity. }
    destruct Hbody as [line Hbody].
    rewrite (script_bind_ok _ _ _ _ _ Hbody).
    match goal with |- context [for_each _ _ ?s1] => destruct (IH s1) as [lines ->] end.
    cbn [catalog agents_world logged insertions].
    exists (line :: lines).
    cbn [e_name e_description e_type e_specialty e_template].
    rewrite <- app_assoc. cbn [app].
    by rewrite Nat.add_succ_r.
Qed.

Lemma for_each_reviewers client clock (types : list (string * template)) s :
  Forall (λ rt, ReviewerAgent.templates !! rt.1 = Some rt.2) types →
  ∃ lines,
    for_each types.*1
      (λ review_type,
         temp_agent <- in_agents (ReviewerAgent.__init__ client default_model
                                    review_type None) ;;;
         script_add_agent_model clock
           ("Revisor " +:+ title review_type)
           ("Agente especializado em revisão " +:+ review_type +:+ " de petições")
           default_model "reviewer" review_type
           (PetitionAgent.prompt_template temp_agent) ;;;
         script_log INFO ("Agente revisor para " +:+ review_type
                          +:+ " configurado com sucesso!"))%script s
    = (Ok tt,
       Setup (insert_all (catalog s) clock (insertions s)
                ((λ rt, reviewer_entry rt.1 rt.2) <$> types))
             (agents_world s) (logged s ++ lines) (insertions s + length types)).
Proof.
  intros Htypes. revert s.
  induction Htypes as [|[review_type t] types Ht _ IH]; intros s.
  - exists []. cbn. rewrite app_nil_r, Nat.add_0_r. by destruct s.
  - cbn [fmap list_fmap fst snd for_each insert_all length] in *.
    lazymatch goal with
    | |- ∃ _, script_bind ?m ?k s = _ =>
        assert (Hbody : ∃ line,
                  m s = (Ok tt,
                         Setup (add_agent_model (catalog s)
                                  (e_name (reviewer_entry review_type t))
                                  (e_description (reviewer_entry review_type t))
                                  default_model (e_type (reviewer_entry review_type t)) review_type t
                                  (clock (insertions s))).2
                               (agents_world s) (logged s ++ [line])
                               (S (insertions s))))
    end.
    { eexists. unfold script_bind, in_agents.
      rewrite (reviewer_init_builtin _ _ _ _ _ Ht).
      unfold script_add_agent_model, script_log.
      cbn [catalog agents_world logged insertions PetitionAgent.prompt_template].
      unfold reviewer_entry, add_agent_model.
      cbn [e_name e_description e_type catalog agents_world logged insertions snd].
      reflexivity. }
    destruct Hbody as [line Hbody].
    rewrite (script_bind_ok _ _ _ _ _ Hbody).
    match goal with |- context [for_each _ _ ?s1] => destruct (IH s1) as [lines ->] end.
    cbn [catalog agents_world logged insertions].
    exists (line :: lines).
    cbn [e_name e_description e_type e_specialty e_template].
    rewrite <- app_assoc. cbn [app].
    by rewrite Nat.add_succ_r.
Qed.

Lemma script_bind_assoc {A B C} (m : Script A) (k1 : A → Script B) (k2 : B → Script C) s :
  script_bind (script_bind m k1) k2 s = script_bind m (λ a, script_bind (k1 a) k2) s.
Proof. unfold script_bind. by destruct (m s) as [[a|e] s']. Qed.

Lemma insert_all_app db clock n (l1 l2 : list entry) :
  insert_all db clock n (l1 ++ l2)
  = insert_all (insert_all db clock n l1) clock (n + length l1) l2.
Proof.
  revert db n. induction l1 as [|e l1 IH]; intros db n; cbn [app insert_all length].
  - by rewrite Nat.add_0_r.
  - by rewrite IH, Nat.add_succ_r.
Qed.

Ltac script_next := erewrite script_bind_ok; [|reflexivity].

Ltac script_loop lemma client clock types HF lines H :=
  match goal with
  | |- context [script_bind (for_each ?l ?body) ?k ?s1] =>
      destruct (lemma client clock types s1 HF) as [lines H];
      rewrite (script_bind_ok (for_each l body) k s1 tt _ H)
  end.

(** One run of the script in closed form: it returns, inserts the missing
    defaults when there is an API key, and leaves the agents' store as it
    was. *)
Lemma configurar_agentes_padrao_run api_key client_for clock s :
  ∃ lines,
    configurar_agentes_padrao api_key client_for clock s
    = (Ok tt,
       Setup (insert_all (catalog s) clock (insertions s)
                (if truthy api_key then missing_defaults (catalog s) else []))
             (agents_world s) (logged s ++ lines)
             (insertions s
              + length (if truthy api_key then missing_defaults (catalog s) else []))).
Proof.
  pose (generators :=
    [ ("recurso_administrativo", GeneratorAgent.generator_template_recurso_administrativo);
      ("impugnacao_edital", GeneratorAgent.generator_template_impugnacao_edital);
      ("mandado_seguranca", GeneratorAgent.generator_template_mandado_seguranca);
      ("contrarrazoes_recurso", GeneratorAgent.generator_template_contrarrazoes_recurso) ]).
  pose (reviewers :=
    [ ("juridico", ReviewerAgent.reviewer_template_juridico);
      ("formatacao", ReviewerAgent.reviewer_template_formatacao);
      ("linguagem", ReviewerAgent.reviewer_template_linguagem);
      ("gramatica", ReviewerAgent.reviewer_template_gramatica) ]).
  assert (HG : Forall (λ pt, GeneratorAgent.templates !! pt.1 = Some pt.2) generators)
    by repeat constructor.
  assert (HR : Forall (λ rt, ReviewerAgent.templates !! rt.1 = Some rt.2) reviewers)
    by repeat constructor.
  unfold configurar_agentes_padrao, missing_defaults.
  do 3 script_next. cbn [catalog agents_world logged insertions].
  destruct (get_agent_models (catalog s) (Some "generator") None) as [|g gs];
    destruct (get_agent_models (catalog s) (Some "reviewer") None) as [|r rs];
    destruct (truthy api_key); cbn [negb app insert_all length];
    rewrite ?Nat.add_0_r.
  - (* no generator, no reviewer, a key *)
    rewrite script_bind_assoc. script_next.
    script_loop for_each_generators (client_for (default "" api_key)) clock
      generators HG lines1 H1.
    rewrite script_bind_assoc. script_next.
    script_loop for_each_reviewers (client_for (default "" api_key)) clock
      reviewers HR lines2 H2.
    unfold script_log. cbn [catalog agents_world logged insertions].
    eexists (_ :: _ :: lines1 ++ _ :: lines2 ++ [_]).
    rewrite insert_all_app. f_equal. f_equal.
    + rewrite <- !app_assoc. cbn [app]. rewrite <- ?app_assoc. reflexivity.
    + change (length generators) with 4%nat. change (length reviewers) with 4%nat.
      change (length (default_generators ++ default_reviewers)) with 8%nat. lia.
  - (* no generator, no reviewer, no key *)
    eexists [_; _]. unfold script_log. cbn [catalog agents_world logged insertions].
    by rewrite <- app_assoc.
  - (* no generator, reviewers, a key *)
    rewrite script_bind_assoc. script_next.
    script_loop for_each_generators (client_for (default "" api_key)) clock
      generators HG lines1 H1.
    script_next. unfold script_log. cbn [catalog agents_world logged insertions].
    eexists (_ :: _ :: lines1 ++ [_]).
    rewrite app_nil_r. f_equal. f_equal.
    rewrite <- !app_assoc. cbn [app]. rewrite <- ?app_assoc. reflexivity.
  - eexists [_; _]. unfold script_log. cbn [catalog agents_world logged insertions].
    by rewrite <- app_assoc.
  - (* generators, no reviewer, a key *)
    script_next. rewrite script_bind_assoc. script_next.
    script_loop for_each_reviewers (client_for (default "" api_key)) clock
      reviewers HR lines2 H2.
    unfold script_log. cbn [catalog agents_world logged insertions].
    eexists (_ :: _ :: lines2 ++ [_]).
    f_equal. f_equal.
    rewrite <- !app_assoc. cbn [app]. rewrite <- ?app_assoc. reflexivity.
  - eexists [_; _]. unfold script_log. cbn [catalog agents_world logged insertions].
    by rewrite <- app_assoc.
  - (* generators and reviewers *)
    eexists [_; _]. unfold script_log. cbn [catalog agents_world logged insertions].
    by rewrite <- app_assoc.
  - eexists [_; _]. unfold script_log. cbn [catalog agents_world logged insertions].
    by rewrite <- app_assoc.
Qed.

Lemma foldr_max_snoc (ids : list Z) (x : Z) :
  foldr Z.max 0%Z (ids ++ [x]) = Z.max (foldr Z.max 0%Z ids) (Z.max x 0).
Proof. induction ids as [|i ids IH]; cbn [app foldr]; [lia|]. rewrite IH. lia. Qed.

Lemma next_id_positive (ids : list Z) : (0 < next_id ids)%Z.
Proof. unfold next_id. induction ids as [|i ids IH]; cbn [foldr]; lia. Qed.

Lemma next_id_snoc (ids : list Z) :
  next_id (ids ++ [next_id ids]) = (next_id ids + 1)%Z.
Proof.
  pose proof (next_id_positive ids) as Hpos. unfold next_id in *.
  rewrite foldr_max_snoc. lia.
Qed.

(** The rows of the catalog after [insert_all]: the old ones, then one per
    entry, with consecutive ids above the old ones. *)
Lemma insert_all_rows db clock n (entries : list entry) :
  DatabaseManager.agent_models (insert_all db clock n entries)
  = DatabaseManager.agent_models db
    ++ inserted_rows (next_id (am_id <$> DatabaseManager.agent_models db)) clock n entries.
Proof.
  revert db n. induction entries as [|e entries IH]; intros db n.
  - cbn. by rewrite app_nil_r.
  - cbn [insert_all]. rewrite IH. unfold add_agent_model, inserted_rows.
    cbn [snd DatabaseManager.agent_models]. rewrite <- app_assoc. cbn [app].
    rewrite imap_cons. f_equal. f_equal.
    + by rewrite Z.add_0_r, Nat.add_0_r.
    + apply imap_ext. intros i e' _. cbn.
      rewrite fmap_app. cbn [fmap list_fmap]. unfold inserted_agent_model at 1.
      cbn [am_id]. rewrite next_id_snoc.
      replace (next_id (am_id <$> DatabaseManager.agent_models db) + 1 + Z.of_nat i)%Z
        with (next_id (am_id <$> DatabaseManager.agent_models db) + Z.of_nat (S i))%Z
        by lia.
      by rewrite Nat.add_succ_r.
Qed.

Lemma inserted_rows_elem first clock n entries row :
  row ∈ inserted_rows first clock n entries →
  ∃ e, e ∈ entries ∧ am_type row = e_type e ∧ am_specialty row = e_specialty e ∧
       am_prompt_template row = e_template e ∧ am_model_id row = default_model ∧
       am_name row = e_name e ∧ (first ≤ am_id row)%Z.
Proof.
  unfold inserted_rows. intros (i & e & -> & He)%elem_of_lookup_imap.
  exists e. split; [by eapply list_elem_of_lookup_2|]. cbn. repeat split. lia.
Qed.

(** A role that no entry has keeps its selections and its listing. *)
Lemma insert_all_other_role db clock n entries agent_type :
  Forall (λ e, e_type e ≠ agent_type) entries →
  (∀ specialty,
     DatabaseManager.select (insert_all db clock n entries) agent_type specialty
     = DatabaseManager.select db agent_type specialty) ∧
  (agent_type ≠ "" →
   get_agent_models (insert_all db clock n entries) (Some agent_type) None
   = get_agent_models db (Some agent_type) None).
Proof.
  intros Hother. rewrite Forall_forall in Hother. split.
  - intros specialty. unfold DatabaseManager.select. rewrite insert_all_rows, filter_app.
    rewrite (filter_none_nil _ (inserted_rows _ _ _ _)); [by rewrite app_nil_r|].
    intros row (e & He & Hty & _)%inserted_rows_elem [Ht _].
    apply (Hother e He). congruence.
  - intros Hne. rewrite !get_agent_models_filter, insert_all_rows, filter_app.
    rewrite (filter_none_nil _ (inserted_rows _ _ _ _)); [by rewrite app_nil_r|].
    intros row (e & He & Hty & _)%inserted_rows_elem [Ht _].
    apply (Hother e He). rewrite <- Hty.
    assert (Htruthy : truthy (Some agent_type) = true) by by destruct agent_type.
    specialize (Ht Htruthy). congruence.
Qed.

(** A role that the catalog does not list has no binding. *)
Lemma select_unlisted db agent_type specialty :
  agent_type ≠ "" →
  get_agent_models db (Some agent_type) None = [] →
  DatabaseManager.select db agent_type specialty = [].
Proof.
  intros Hne Hnone. rewrite get_agent_models_filter in Hnone.
  unfold DatabaseManager.select. apply filter_none_nil. intros row Hrow [Ht _].
  apply (elem_of_nil row). rewrite <- Hnone. apply list_elem_of_filter.
  split; [|done]. split; [by rewrite Ht|done].
Qed.

Lemma select_insert_all db clock n entries agent_type specialty :
  DatabaseManager.select (insert_all db clock n entries) agent_type specialty
  = DatabaseManager.select db agent_type specialty
    ++ filter (λ row, am_type row = agent_type ∧ am_specialty row = specialty)
         (inserted_rows (next_id (am_id <$> DatabaseManager.agent_models db)) clock n
            entries).
Proof. unfold DatabaseManager.select. by rewrite insert_all_rows, filter_app. Qed.

(** The bindings among the rows that a setup of both roles inserts. *)
Lemma default_rows_generators first clock n ty :
  ty ∈ generator_specialties →
  ∃ row,
    head (filter (λ row, am_type row = "generator" ∧ am_specialty row = ty)
            (inserted_rows first clock n (default_generators ++ default_reviewers)))
    = Some row ∧
    GeneratorAgent.templates !! ty = Some (am_prompt_template row) ∧
    am_model_id row = default_model.
Proof.
  unfold generator_specialties. rewrite !elem_of_cons, elem_of_nil.
  intros [->|[->|[->|[->|[]]]]]; eexists; (split; [reflexivity|]); split; reflexivity.
Qed.

Lemma default_rows_reviewers first clock n ty :
  ty ∈ reviewer_specialties →
  ∃ row,
    head (filter (λ row, am_type row = "reviewer" ∧ am_specialty row = ty)
            (inserted_rows first clock n (default_generators ++ default_reviewers)))
    = Some row ∧
    ReviewerAgent.templates !! ty = Some (am_prompt_template row) ∧
    am_model_id row = default_model.
Proof.
  unfold reviewer_specialties. rewrite !elem_of_cons, elem_of_nil.
  intros [->|[->|[->|[->|[]]]]]; eexists; (split; [reflexivity|]); split; reflexivity.
Qed.

(** X14: on a catalog that lists no generator and no reviewer, and with an
    API key, the setup script returns and appends eight rows: the four
    generators and then the four reviewers, under consecutive new ids, all
    on the default model and named after their specialty.  Afterwards every
    generator specialty and every reviewer specialty has a binding, whose
    template is the built-in one of that role and specialty and, as the
    script only reads the templates, the agents' store is as before.  The
    fifth built-in generator template, [gramatica], is not installed. *)
Theorem X14_setup_installs_defaults (api_key : option string)
    (client_for : string → AITogetherClient.t) (clock : nat → string) (s : setup) :
  get_agent_models (catalog s) (Some "generator") None = [] →
  get_agent_models (catalog s) (Some "reviewer") None = [] →
  truthy api_key = true →
  ∃ s' added,
    configurar_agentes_padrao api_key client_for clock s = (Ok tt, s') ∧
    agents_world s' = agents_world s ∧
    DatabaseManager.agent_models (catalog s')
    = DatabaseManager.agent_models (catalog s) ++ added ∧
    am_name <$> added
    = [ "Gerador de Recurso Administrativo"; "Gerador de Impugnacao Edital";
        "Gerador de Mandado Seguranca"; "Gerador de Contrarrazoes Recurso";
        "Revisor Juridico"; "Revisor Formatacao"; "Revisor Linguagem";
        "Revisor Gramatica" ] ∧
    am_id <$> added
    = (λ i, next_id (am_id <$> DatabaseManager.agent_models (catalog s)) + i)%Z
      <$> [0; 1; 2; 3; 4; 5; 6; 7]%Z ∧
    Forall (λ row, am_model_id row = default_model) added ∧
    (∀ ty, ty ∈ generator_specialties →
       ∃ row, head (DatabaseManager.select (catalog s') "generator" ty) = Some row ∧
              GeneratorAgent.templates !! ty = Some (am_prompt_template row) ∧
              am_model_id row = default_model) ∧
    (∀ ty, ty ∈ reviewer_specialties →
       ∃ row, head (DatabaseManager.select (catalog s') "reviewer" ty) = Some row ∧
              ReviewerAgent.templates !! ty = Some (am_prompt_template row) ∧
              am_model_id row = default_model) ∧
    DatabaseManager.select (catalog s') "generator" "gramatica" = [].
Proof.
  intros Hg Hr Hk.
  destruct (configurar_agentes_padrao_run api_key client_for clock s) as [lines Hrun].
  rewrite Hk in Hrun. unfold missing_defaults in Hrun. rewrite Hg, Hr in Hrun.
  eexists _, (inserted_rows (next_id (am_id <$> DatabaseManager.agent_models (catalog s)))
                clock (insertions s) (default_generators ++ default_reviewers)).
  split; [exact Hrun|]. cbn [catalog agents_world].
  split; [done|]. split; [apply insert_all_rows|].
  split; [reflexivity|]. split; [reflexivity|].
  split; [repeat constructor|].
  split; [|split].
  - intros ty Hty. rewrite select_insert_all.
    rewrite select_unlisted by done. by apply default_rows_generators.
  - intros ty Hty. rewrite select_insert_all.
    rewrite select_unlisted by done. by apply default_rows_reviewers.
  - rewrite select_insert_all. rewrite select_unlisted by done. reflexivity.
Qed.

Lemma fresh_setup_lists_nothing agent_type :
  get_agent_models (catalog fresh_setup) agent_type None = [].
Proof. unfold get_agent_models. by destruct (_ || _). Qed.

Lemma X14_setup_installs_defaults_witness :
  ∃ s', configurar_agentes_padrao (Some "key") (λ _, echo_client) (λ _, "2025-01-01")
          fresh_setup = (Ok tt, s') ∧
        length (DatabaseManager.agent_models (catalog s')) = 8%nat.
Proof.
  destruct (X14_setup_installs_defaults (Some "key") (λ _, echo_client)
              (λ _, "2025-01-01") fresh_setup (fresh_setup_lists_nothing _)
              (fresh_setup_lists_nothing _) eq_refl)
    as (s' & added & Hrun & _ & Hrows & Hnames & _).
  exists s'. split; [exact Hrun|]. rewrite Hrows. cbn [fresh_setup catalog
    DatabaseManager.agent_models app].
  rewrite <- (length_fmap am_name), Hnames. reflexivity.
Defined.

(** X15: the setup script never raises, never sends a request and never
    touches a row of the catalog: the rows it finds are all there
    afterwards, in place and unchanged, followed by the rows it adds.  It
    adds none when the catalog lists a generator and a reviewer, and none
    without an API key, whether the variable is unset or empty. *)
Theorem X15_setup_only_appends (api_key : option string)
    (client_for : string → AITogetherClient.t) (clock : nat → string) (s : setup) :
  ∃ s' added,
    configurar_agentes_padrao api_key client_for clock s = (Ok tt, s') ∧
    agents_world s' = agents_world s ∧
    DatabaseManager.agent_models (catalog s')
    = DatabaseManager.agent_models (catalog s) ++ added ∧
    (length added = 0 ∨ length added = 4 ∨ length added = 8)%nat ∧
    (get_agent_models (catalog s) (Some "generator") None ≠ [] ∧
     get_agent_models (catalog s) (Some "reviewer") None ≠ [] → added = []) ∧
    (api_key = None ∨ api_key = Some "" → added = []) ∧
    (added = [] → catalog s' = catalog s).
Proof.
  destruct (configurar_agentes_padrao_run api_key client_for clock s) as [lines Hrun].
  eexists _, (inserted_rows (next_id (am_id <$> DatabaseManager.agent_models (catalog s)))
                clock (insertions s)
                (if truthy api_key then missing_defaults (catalog s) else [])).
  split; [exact Hrun|]. cbn [catalog agents_world].
  split; [done|]. split; [apply insert_all_rows|].
  unfold inserted_rows. rewrite length_imap. unfold missing_defaults.
  split; [|split; [|split]].
  - destruct (truthy api_key); [|by left].
    destruct (get_agent_models _ (Some "generator") None),
      (get_agent_models _ (Some "reviewer") None); cbn; auto.
  - intros [Hg Hr]. destruct (truthy api_key); [|done].
    by destruct (get_agent_models _ (Some "generator") None),
      (get_agent_models _ (Some "reviewer") None).
  - by intros [-> | ->].
  - destruct (if truthy api_key then _ else _) as [|e es]; [done|].
    rewrite imap_cons. discriminate.
Qed.

Lemma listed_of_select db agent_type specialty :
  agent_type ≠ "" →
  DatabaseManager.select db agent_type specialty ≠ [] →
  get_agent_models db (Some agent_type) None ≠ [].
Proof.
  intros Hne Hsel Hnone. apply Hsel. by apply select_unlisted.
Qed.

Lemma insert_all_keeps_listed db clock n entries agent_type :
  get_agent_models db (Some agent_type) None ≠ [] →
  get_agent_models (insert_all db clock n entries) (Some agent_type) None ≠ [].
Proof.
  rewrite !get_agent_models_filter, insert_all_rows, filter_app.
  intros Hold Hnew. by apply app_eq_nil in Hnew as [? _].
Qed.

Lemma insert_all_lists db clock n entries e :
  e ∈ entries → e_type e ≠ "" →
  get_agent_models (insert_all db clock n entries) (Some (e_type e)) None ≠ [].
Proof.
  intros [i Hi]%list_elem_of_lookup_1 Hne.
  rewrite get_agent_models_filter, insert_all_rows, filter_app.
  intros [_ Hnew]%app_eq_nil.
  apply (elem_of_nil
           (inserted_agent_model
              (next_id (am_id <$> DatabaseManager.agent_models db) + Z.of_nat i)
              (e_name e) (e_description e) default_model (e_type e) (e_specialty e)
              (e_template e) (clock (n + i)%nat))).
  rewrite <- Hnew. apply list_elem_of_filter. split; [done|].
  unfold inserted_rows.
  apply (elem_of_lookup_imap_2
           (λ i e, inserted_agent_model
                     (next_id (am_id <$> DatabaseManager.agent_models db) + Z.of_nat i)
                     (e_name e) (e_description e) default_model (e_type e)
                     (e_specialty e) (e_template e) (clock (n + i)%nat)) _ _ _ Hi).
Qed.

(** After a run with an API key the catalog lists both roles. *)
Lemma configurar_agentes_padrao_lists_both api_key client_for clock s :
  truthy api_key = true →
  get_agent_models (catalog (configurar_agentes_padrao api_key client_for clock s).2)
    (Some "generator") None ≠ [] ∧
  get_agent_models (catalog (configurar_agentes_padrao api_key client_for clock s).2)
    (Some "reviewer") None ≠ [].
Proof.
  intros Hk.
  destruct (configurar_agentes_padrao_run api_key client_for clock s) as [lines ->].
  rewrite Hk. cbn [snd catalog]. unfold missing_defaults. split.
  - destruct (get_agent_models (catalog s) (Some "generator") None) as [|g gs] eqn:Eg.
    + apply (insert_all_lists _ _ _ _
               (generator_entry "recurso_administrativo"
                  GeneratorAgent.generator_template_recurso_administrativo));
        [|done]. apply elem_of_app. left. apply elem_of_cons. by left.
    + apply insert_all_keeps_listed. by rewrite Eg.
  - destruct (get_agent_models (catalog s) (Some "reviewer") None) as [|r rs] eqn:Er.
    + apply (insert_all_lists _ _ _ _
               (reviewer_entry "juridico" ReviewerAgent.reviewer_template_juridico));
        [|done]. apply elem_of_app. right. apply elem_of_cons. by left.
    + apply insert_all_keeps_listed. by rewrite Er.
Qed.

(** X16: once the script has run with an API key, running it again changes
    nothing in the catalog, whatever the key, the client and the clock of
    the later run. *)
Theorem X16_setup_second_run_is_noop (api_key api_key' : option string)
    (client_for client_for' : string → AITogetherClient.t) (clock clock' : nat → string)
    (s : setup) :
  truthy api_key = true →
  catalog (configurar_agentes_padrao api_key' client_for' clock'
             (configurar_agentes_padrao api_key client_for clock s).2).2
  = catalog (configurar_agentes_padrao api_key client_for clock s).2.
Proof.
  intros Hk.
  destruct (configurar_agentes_padrao_lists_both api_key client_for clock s Hk)
    as [Hg Hr].
  destruct (configurar_agentes_padrao_run api_key' client_for' clock'
              (configurar_agentes_padrao api_key client_for clock s).2) as [lines ->].
  cbn [snd catalog]. unfold missing_defaults.
  destruct (get_agent_models _ (Some "generator") None); [done|].
  destruct (get_agent_models _ (Some "reviewer") None); [done|].
  by destruct (truthy api_key').
Qed.

Lemma X16_setup_second_run_is_noop_witness :
  catalog (configurar_agentes_padrao None (λ _, mute_client) (λ _, "2025-02-02")
             (configurar_agentes_padrao (Some "key") (λ _, echo_client)
                (λ _, "2025-01-01") fresh_setup).2).2
  = catalog (configurar_agentes_padrao (Some "key") (λ _, echo_client)
               (λ _, "2025-01-01") fresh_setup).2.
Proof.
  apply (X16_setup_second_run_is_noop (Some "key") None (λ _, echo_client)
           (λ _, mute_client) (λ _, "2025-01-01") (λ _, "2025-02-02") fresh_setup).
  reflexivity.
Defined.

(** X17: the script fills no gap in a role that the catalog lists.  When
    the catalog has any row of a role, generator or reviewer, the listing
    of that role and every binding of that role are after the run what they
    were before; so a petition type that had no generator still has none,
    and [generate_petition] over the catalog after the run still refuses
    it. *)
Theorem X17_setup_fills_no_gap (api_key : option string)
    (client_for : string → AITogetherClient.t) (clock : nat → string) (s : setup)
    (role : string) :
  role = "generator" ∨ role = "reviewer" →
  get_agent_models (catalog s) (Some role) None ≠ [] →
  let s' := (configurar_agentes_padrao api_key client_for clock s).2 in
  get_agent_models (catalog s') (Some role) None
  = get_agent_models (catalog s) (Some role) None ∧
  (∀ specialty,
     DatabaseManager.select (catalog s') role specialty
     = DatabaseManager.select (catalog s) role specialty) ∧
  (role = "generator" →
   ∀ client context w given,
     heap w !! context = Some given →
     DatabaseManager.select (catalog s) "generator" (default "" (given !! "tipo")) = [] →
     (AgentOrchestrator.generate_petition
        {| AgentOrchestrator.db_manager := catalog s';
           AgentOrchestrator.ai_client := client |} context w).1
     = Raise (ValueError (NoGeneratorForType (default "" (given !! "tipo"))))).
Proof.
  intros Hrole Hlisted s'.
  assert (Hother : Forall (λ e, e_type e ≠ role)
                     (if truthy api_key then missing_defaults (catalog s) else [])).
  { destruct (truthy api_key); [|constructor]. unfold missing_defaults.
    destruct Hrole as [-> | ->].
    - destruct (get_agent_models (catalog s) (Some "generator") None); [done|].
      destruct (get_agent_models (catalog s) (Some "reviewer") None);
        repeat constructor; discriminate.
    - destruct (get_agent_models (catalog s) (Some "reviewer") None); [done|].
      destruct (get_agent_models (catalog s) (Some "generator") None);
        cbn [app]; repeat constructor; discriminate. }
  assert (Hne : role ≠ "") by (destruct Hrole as [-> | ->]; discriminate).
  subst s'.
  destruct (configurar_agentes_padrao_run api_key client_for clock s) as [lines ->].
  cbn [snd catalog].
  destruct (insert_all_other_role (catalog s) clock (insertions s) _ role Hother)
    as [Hsel Hlist].
  split; [by apply Hlist|]. split; [exact Hsel|].
  intros -> client context w given Hc Hnone.
  pose proof (generate_petition_run
                {| AgentOrchestrator.db_manager :=
                     insert_all (catalog s) clock (insertions s)
                       (if truthy api_key then missing_defaults (catalog s) else []);
                   AgentOrchestrator.ai_client := client |} context w given Hc) as H.
  cbv zeta in H. unfold binding in H. cbn [AgentOrchestrator.db_manager] in H.
  rewrite Hsel, Hnone in H. cbn [head] in H.
  destruct (AgentOrchestrator.generate_petition _ _ _) as [[results|e] w'].
  - by destruct H as (_ & [? ?] & _).
  - destruct H as [(_ & -> & _)|([? ?] & _)]; done.
Qed.

(** What the built-in templates ask of a context. *)
Lemma builtin_generator_fields ty t :
  ty ∈ generator_specialties →
  GeneratorAgent.templates !! ty = Some t →
  fields t = ["fatos"; "cliente_nome"; "cliente_cnpj"; "referencia_processo";
              "autoridade"; "cidade"].
Proof.
  unfold generator_specialties. rewrite !elem_of_cons, elem_of_nil.
  intros [->|[->|[->|[->|[]]]]] [= <-]; reflexivity.
Qed.

Lemma builtin_generator_plain ty t :
  GeneratorAgent.templates !! ty = Some t → plain t = true.
Proof.
  intros Ht. assert (Hty : ty ∈ generator_specialties ∨ ty = "gramatica").
  { apply generator_templates_dom. by eexists. }
  revert Hty Ht. unfold generator_specialties. rewrite !elem_of_cons, elem_of_nil.
  intros [[->|[->|[->|[->|[]]]]]| ->] [= <-]; reflexivity.
Qed.

Lemma builtin_reviewer_fields ty t :
  ReviewerAgent.templates !! ty = Some t → fields t = ["tipo"; "texto"].
Proof.
  intros Ht. assert (Hty : ty ∈ reviewer_specialties).
  { apply reviewer_templates_dom. by eexists. }
  revert Hty Ht. unfold reviewer_specialties. rewrite !elem_of_cons, elem_of_nil.
  intros [->|[->|[->|[->|[]]]]] [= <-]; reflexivity.
Qed.

(** X18: the setup and the pipeline fit together.  After the setup script
    has run with an API key on a catalog that listed no generator and no
    reviewer, [generate_petition] over that catalog goes through all five
    stages for each of the four petition types, provided the caller's
    context gives the six fields of the case and the client answers: it
    returns results with exactly the six keys [original], [gramatica],
    [juridico], [linguagem], [formatacao] and [final], after five requests
    to the client. *)
Theorem X18_setup_then_pipeline (api_key : option string)
    (client_for : string → AITogetherClient.t) (clock : nat → string) (s : setup)
    (client : AITogetherClient.t) (context : loc) (w : world) (given : dict) :
  get_agent_models (catalog s) (Some "generator") None = [] →
  get_agent_models (catalog s) (Some "reviewer") None = [] →
  truthy api_key = true →
  heap w !! context = Some given →
  default "" (given !! "tipo") ∈ generator_specialties →
  (∀ k, k ∈ ["fatos"; "cliente_nome"; "cliente_cnpj"; "referencia_processo";
             "autoridade"; "cidade"] → is_Some (given !! k)) →
  answers client →
  ∃ results w' stage_results,
    AgentOrchestrator.generate_petition
      {| AgentOrchestrator.db_manager :=
           catalog (configurar_agentes_padrao api_key client_for clock s).2;
         AgentOrchestrator.ai_client := client |} context w
    = (Ok results, w') ∧
    heap w' !! results = Some stage_results ∧
    (∀ k, is_Some (stage_results !! k)
          ↔ k ∈ ["original"; "gramatica"; "juridico"; "linguagem"; "formatacao";
                 "final"]) ∧
    length (requests (trace w')) = (length (requests (trace w)) + 5)%nat.
Proof.
  intros Hg Hr Hk Hc Hty Hgiven Hanswers.
  destruct (configurar_agentes_padrao_run api_key client_for clock s) as [lines ->].
  rewrite Hk. unfold missing_defaults. rewrite Hg, Hr. cbn [snd catalog].
  set (self := {| AgentOrchestrator.db_manager := _;
                  AgentOrchestrator.ai_client := client |}).
  assert (Hgen : ∀ ty, ty ∈ generator_specialties →
                 ∃ row, binding self "generator" ty = Some row ∧
                        GeneratorAgent.templates !! ty = Some (am_prompt_template row)).
  { intros ty Hin. unfold binding, self. cbn [AgentOrchestrator.db_manager].
    rewrite select_insert_all, select_unlisted by done.
    destruct (default_rows_generators
                (next_id (am_id <$> DatabaseManager.agent_models (catalog s))) clock
                (insertions s) ty Hin) as (row & Hrow & Ht & _).
    by exists row. }
  assert (Hrev : ∀ ty, ty ∈ reviewer_order →
                 ∃ row, binding self "reviewer" ty = Some row ∧
                        ReviewerAgent.templates !! ty = Some (am_prompt_template row)).
  { intros ty Hin. unfold binding, self. cbn [AgentOrchestrator.db_manager].
    rewrite select_insert_all, select_unlisted by done.
    destruct (default_rows_reviewers
                (next_id (am_id <$> DatabaseManager.agent_models (catalog s))) clock
                (insertions s) ty) as (row & Hrow & Ht & _).
    { revert Hin. unfold reviewer_order, reviewer_specialties.
      rewrite !elem_of_cons, !elem_of_nil. tauto. }
    by exists row. }
  assert (Hrevs : ∀ ty model, binding self "reviewer" ty = Some model →
                  fields (am_prompt_template model) = ["tipo"; "texto"] ∧
                  plain (am_prompt_template model) = true).
  { intros ty model Hb. unfold binding, self in Hb.
    cbn [AgentOrchestrator.db_manager] in Hb.
    rewrite select_insert_all, select_unlisted in Hb by done. cbn [app] in Hb.
    apply head_Some_elem_of, list_elem_of_filter in Hb as [[Htype Hsp] Hin].
    apply inserted_rows_elem in Hin as (e & He & Hety & _ & Het & _).
    rewrite Het. revert He Hety. unfold default_generators, default_reviewers.
    cbn [app]. rewrite !elem_of_cons, elem_of_nil.
    intros [->|[->|[->|[->|[->|[->|[->|[->|[]]]]]]]]] Hety; cbn in Hety;
      try (rewrite Htype in Hety; discriminate Hety); split; reflexivity. }
  assert (Hplain : plainly_bound self given).
  { split.
    - intros model Hb. destruct (Hgen _ Hty) as (row & Hb' & Ht).
      rewrite Hb in Hb'. injection Hb' as <-. by eapply builtin_generator_plain.
    - intros review_type model _ Hb. by destruct (Hrevs _ _ Hb). }
  assert (Hrender : renderable self given).
  { split.
    - intros model k Hb Hk'. destruct (Hgen _ Hty) as (row & Hb' & Ht).
      rewrite Hb in Hb'. injection Hb' as <-.
      rewrite (builtin_generator_fields _ _ Hty Ht) in Hk'. by apply Hgiven.
    - intros review_type model k _ Hb. destruct (Hrevs _ _ Hb) as [-> _].
      rewrite !elem_of_cons, elem_of_nil. tauto. }
  destruct (generate_petition_completes self context w given Hc) as (results & w' & Hrun);
    [destruct (Hgen _ Hty) as (row & -> & _); by eexists|done|done|done|].
  destruct (generate_petition_result_keys self context w given results w' Hc Hrun)
    as (stage_results & Hres & _ & Hin).
  exists results, w', stage_results. split; [exact Hrun|]. split; [exact Hres|].
  split.
  - intros k. rewrite Hin, elem_of_reviewer_order, !elem_of_cons, elem_of_nil. split.
    + intros [->|[->|[[->|[->|[->| ->]]] _]]]; tauto.
    + intros [->|[->|[->|[->|[->|[->|[]]]]]]]; auto;
        right; right; (split; [tauto|]);
        match goal with
        | |- is_Some (binding _ _ ?ty) =>
            destruct (Hrev ty) as (row & -> & _);
              [apply elem_of_reviewer_order; tauto|by eexists]
        end.
  - pose proof (generate_petition_run self context w given Hc) as H. cbv zeta in H.
    rewrite Hrun in H. destruct H as (_ & _ & evs & final_text & Htr & _ & _ & P).
    destruct P as [Pq Ps Pa Pc Pl Pn Pm Pr].
    rewrite Htr, requests_app, length_app, Pr, Pn.
    rewrite reviewed_all; [reflexivity|].
    intros ty Hin'. destruct (Hrev ty Hin') as (row & -> & _). by eexists.
Qed.

(** ** The script [testar_recurso_inabilitacao.py] *)

Lemma result_path_ne (stage stage' timestamp : string) :
  stage ∈ ["original"; "revisado"; "formatado"; "final"] →
  stage' ∈ ["original"; "revisado"; "formatado"; "final"] →
  stage ≠ stage' →
  result_path stage timestamp ≠ result_path stage' timestamp.
Proof.
  rewrite !elem_of_cons, !elem_of_nil.
  intros [->|[->|[->|[->|[]]]]] [->|[->|[->|[->|[]]]]] Hne; try done;
    unfold result_path; cbn; discriminate.
Qed.

(** The results of the pipeline have the text the script saves first, and
    not the one it asks for next. *)
Lemma results_original_not_reviewed (self : AgentOrchestrator.t) (context : loc)
    (w : world) (given : dict) (results : loc) (w' : world) :
  heap w !! context = Some given →
  AgentOrchestrator.generate_petition self context w = (Ok results, w') →
  is_Some ((heap w' !!! results) !! "original") ∧
  (heap w' !!! results) !! "reviewed" = None.
Proof.
  intros Hc Hrun.
  destruct (generate_petition_result_keys self context w given results w' Hc Hrun)
    as (stage_results & Hres & _ & Hin).
  rewrite (list_lookup_total_correct _ _ _ Hres). split; [apply Hin; by left|].
  apply eq_None_not_Some. intros [H|[H|[H _]]]%Hin; try discriminate H.
  apply elem_of_reviewer_order in H. by destruct H as [?|[?|[?|?]]].
Qed.

(** X19: the script [testar_recurso_inabilitacao.py] never reports success.
    Whenever [generate_petition] returns, the script writes the original
    text to its file, leaves the file for the revised text empty, and
    stops on the [KeyError] for ['reviewed'], a key the pipeline never
    sets, which it logs as an error; the files for the formatted and the
    final text are never written.  When [generate_petition] raises, or
    there is no API key, no file is touched. *)
Theorem X19_tester_never_succeeds (api_key : option string) (db : DatabaseManager.t)
    (client_for : string → AITogetherClient.t) (timestamp : string) (t : tester) :
  let t' := testar_recurso_inabilitacao api_key db client_for timestamp t in
  let context := length (heap (pipeline_world t)) in
  let w0 := World (heap (pipeline_world t) ++ [dados_teste]) (trace (pipeline_world t)) in
  let orchestrator :=
    {| AgentOrchestrator.db_manager := db;
       AgentOrchestrator.ai_client := client_for (default "" api_key) |} in
  (∃ lines, tester_log t' = tester_log t ++ lines ∧
            ((INFO, LineSuccess) ∉ lines) ∧ (∀ ts, (INFO, LineSaved ts) ∉ lines)) ∧
  files t' !! result_path "formatado" timestamp
  = files t !! result_path "formatado" timestamp ∧
  files t' !! result_path "final" timestamp = files t !! result_path "final" timestamp ∧
  (∀ results w,
     truthy api_key = true →
     AgentOrchestrator.generate_petition orchestrator context w0 = (Ok results, w) →
     ∃ original_text,
       (heap w !!! results) !! "original" = Some original_text ∧
       files t' = <[result_path "revisado" timestamp := ""]>
                    (<[result_path "original" timestamp := original_text]> (files t)) ∧
       tester_log t' = tester_log t ++ [(INFO, LineGenerating);
                                        (ERROR, LineError (KeyError "reviewed"))]) ∧
  (∀ e w,
     truthy api_key = true →
     AgentOrchestrator.generate_petition orchestrator context w0 = (Raise e, w) →
     files t' = files t ∧
     tester_log t' = tester_log t ++ [(INFO, LineGenerating); (ERROR, LineError e)]) ∧
  (truthy api_key = false →
   files t' = files t ∧ tester_log t' = tester_log t ++ [(ERROR, LineNoKey)] ∧
   trace (pipeline_world t') = trace (pipeline_world t)).
Proof.
  intros t' context w0 orchestrator. subst t'. unfold testar_recurso_inabilitacao.
  fold context w0 orchestrator.
  destruct (truthy api_key) eqn:Ek; cbn [negb].
  2: { cbn [files tester_log pipeline_world]. repeat split; try done.
       eexists. split; [reflexivity|].
       split; [|intros ts]; rewrite elem_of_cons, elem_of_nil; by intros [[=]|[]]. }
  assert (Hc : heap w0 !! context = Some dados_teste).
  { subst w0 context. cbn [heap]. by apply list_lookup_middle. }
  destruct (AgentOrchestrator.generate_petition orchestrator context w0)
    as [[results|e] w] eqn:Hrun.
  2: { cbn [files tester_log]. rewrite <- app_assoc. cbn [app].
       split; [|split; [done|split; [done|split; [done|split; [|done]]]]].
       - eexists. split; [reflexivity|].
         split; [|intros ts]; rewrite !elem_of_cons, elem_of_nil;
           by intros [[=]|[[=]|[]]].
       - by intros ? ? _ [= <- <-]. }
  destruct (results_original_not_reviewed _ _ _ _ _ _ Hc Hrun) as [[text Ho] Hr].
  unfold write_result. rewrite Ho, Hr.
  cbn [files tester_log].
  assert (H1 : result_path "original" timestamp ≠ result_path "formatado" timestamp)
    by (apply result_path_ne; rewrite ?elem_of_cons; auto 6).
  assert (H2 : result_path "revisado" timestamp ≠ result_path "formatado" timestamp)
    by (apply result_path_ne; rewrite ?elem_of_cons; auto 6).
  assert (H3 : result_path "original" timestamp ≠ result_path "final" timestamp)
    by (apply result_path_ne; rewrite ?elem_of_cons; auto 6).
  assert (H4 : result_path "revisado" timestamp ≠ result_path "final" timestamp)
    by (apply result_path_ne; rewrite ?elem_of_cons; auto 6).
  rewrite <- app_assoc. cbn [app].
  split; [|split; [|split; [|split; [|split; [done|done]]]]].
  - eexists. split; [reflexivity|].
    split; [|intros ts]; rewrite !elem_of_cons, elem_of_nil;
      by intros [[=]|[[=]|[]]].
  - by rewrite !lookup_insert_ne.
  - by rewrite !lookup_insert_ne.
  - intros ? ? _ [= <- <-]. exists text. split; [done|].
    split; [by rewrite insert_insert_eq|done].
Qed.

Lemma example_full_plainly_bound client given :
  plainly_bound
    {| AgentOrchestrator.db_manager := AgentOrchestrator.db_manager example_full;
       AgentOrchestrator.ai_client := client |} given.
Proof.
  split.
  - intros model Hb.
    apply head_Some_elem_of, list_elem_of_filter in Hb as [_ Hin].
    revert Hin. cbn. rewrite !elem_of_cons, elem_of_nil.
    intros [->|[->|[->|[->|[->|[]]]]]]; reflexivity.
  - intros review_type model _ Hb.
    apply head_Some_elem_of, list_elem_of_filter in Hb as [_ Hin].
    revert Hin. cbn. rewrite !elem_of_cons, elem_of_nil.
    intros [->|[->|[->|[->|[->|[]]]]]]; reflexivity.
Qed.

Lemma example_tester_returns :
  ∃ results w,
    AgentOrchestrator.generate_petition
      {| AgentOrchestrator.db_manager := AgentOrchestrator.db_manager example_full;
         AgentOrchestrator.ai_client := echo_client |}
      (length (heap (pipeline_world example_tester)))
      (World (heap (pipeline_world example_tester) ++ [dados_teste])
             (trace (pipeline_world example_tester)))
    = (Ok results, w).
Proof.
  apply generate_petition_completes with (given := dados_teste).
  - reflexivity.
  - by eexists.
  - apply example_full_plainly_bound.
  - split.
    + intros model k Hb.
      match type of Hb with
      | ?b = _ => assert (Hg : b = Some example_generator) by reflexivity
      end.
      rewrite Hg in Hb. injection Hb as <-.
      change (fields (am_prompt_template example_generator)) with ["fatos"].
      rewrite !elem_of_cons, elem_of_nil. intros [->|[]]. by eexists.
    + intros review_type model k _ Hb Hk.
      apply head_Some_elem_of, list_elem_of_filter in Hb as [[Htype _] Hin].
      revert Hin. cbn. rewrite !elem_of_cons, elem_of_nil.
      intros [->|[->|[->|[->|[->|[]]]]]]; try discriminate Htype; revert Hk; cbn;
        rewrite !elem_of_cons, elem_of_nil; tauto.
  - intros history c. eexists _, _. split; [reflexivity|].
    apply first_choice_text_single.
Qed.

Lemma X19_tester_never_succeeds_witness :
  files (testar_recurso_inabilitacao (Some "key")
           (AgentOrchestrator.db_manager example_full) (λ _, echo_client)
           "20250101000000" example_tester)
    !! result_path "revisado" "20250101000000"
  = Some "".
Proof.
  destruct (X19_tester_never_succeeds (Some "key")
              (AgentOrchestrator.db_manager example_full) (λ _, echo_client)
              "20250101000000" example_tester) as (_ & _ & _ & Hreturned & _).
  destruct example_tester_returns as (results & w & Hrun).
  destruct (Hreturned results w eq_refl Hrun) as (original_text & _ & -> & _).
  apply lookup_insert_eq.
Defined.

(** ** The theorems at the example inputs *)

Lemma example_full_generator_bound :
  is_Some (binding example_full "generator" "recurso_administrativo").
Proof. by eexists. Qed.

Lemma X11_duplicate_binding_is_ignored_witness :
  AgentOrchestrator.generate_petition
    {| AgentOrchestrator.db_manager :=
         (add_agent_model (AgentOrchestrator.db_manager example_full) "Outro gerador"
            "Um segundo gerador" "model-2" "generator" "recurso_administrativo"
            [Text "H:"; Field "fatos"] "2025-02-02").2;
       AgentOrchestrator.ai_client := AgentOrchestrator.ai_client example_full |}
    0 example_world
  = AgentOrchestrator.generate_petition example_full 0 example_world.
Proof.
  apply (X11_duplicate_binding_is_ignored example_full "Outro gerador"
           "Um segundo gerador" "model-2" "generator" "recurso_administrativo"
           [Text "H:"; Field "fatos"] "2025-02-02" 0 example_world
           example_full_generator_bound).
Defined.

Lemma echo_client_answers : answers echo_client.
Proof.
  intros history c. eexists _, _. split; [reflexivity|].
  unfold PetitionAgent.first_choice_text. rewrite lookup_singleton_eq.
  cbn [from_option id]. by rewrite lookup_singleton_eq.
Qed.



Lemma example_setup_lists_generator :
  get_agent_models (catalog example_setup) (Some "generator") None ≠ [].
Proof. discriminate. Qed.

Lemma X17_setup_fills_no_gap_witness :
  DatabaseManager.select
    (catalog (configurar_agentes_padrao (Some "key") (λ _, echo_client)
                (λ _, "2025-01-01") example_setup).2)
    "generator" "impugnacao_edital"
  = [].
Proof.
  destruct (X17_setup_fills_no_gap (Some "key") (λ _, echo_client) (λ _, "2025-01-01")
              example_setup "generator" (or_introl eq_refl)
              example_setup_lists_generator) as (_ & Hsel & _).
  rewrite Hsel. reflexivity.
Defined.

Lemma example_case_stored : heap (World [example_case] []) !! 0 = Some example_case.
Proof. reflexivity. Qed.

Lemma example_case_type :
  default "" (example_case !! "tipo") ∈ generator_specialties.
Proof.
  change (default "" (example_case !! "tipo")) with "impugnacao_edital".
  unfold generator_specialties. rewrite !elem_of_cons. tauto.
Qed.

Lemma example_case_fields k :
  k ∈ ["fatos"; "cliente_nome"; "cliente_cnpj"; "referencia_processo"; "autoridade";
       "cidade"] →
  is_Some (example_case !! k).
Proof.
  rewrite !elem_of_cons, elem_of_nil.
  intros [->|[->|[->|[->|[->|[->|[]]]]]]]; by eexists.
Qed.

Lemma X18_setup_then_pipeline_witness :
  ∃ results w',
    AgentOrchestrator.generate_petition
      {| AgentOrchestrator.db_manager :=
           catalog (configurar_agentes_padrao (Some "key") (λ _, echo_client)
                      (λ _, "2025-01-01") fresh_setup).2;
         AgentOrchestrator.ai_client := echo_client |} 0 (World [example_case] [])
    = (Ok results, w').
Proof.
  destruct (X18_setup_then_pipeline (Some "key") (λ _, echo_client) (λ _, "2025-01-01")
              fresh_setup echo_client 0 (World [example_case] []) example_case
              (fresh_setup_lists_nothing _) (fresh_setup_lists_nothing _) eq_refl
              example_case_stored example_case_type example_case_fields
              echo_client_answers)
    as (results & w' & _ & Hrun & _).
  by exists results, w'.
Defined.
